(** * EcoGuard: ingestion, scoring and alert fan-out

    A shallow embedding of the EcoGuard backend (TypeScript, Express and
    Mongoose) and the properties of its ingestion / risk / fan-out pipeline.

    Conventions of the embedding.
    - A JavaScript [number] is an IEEE-754 binary64 value: Rocq's primitive
      [float], so [+ - * /] and the comparisons are the ones the program
      runs, NaN and the two zeros included.
    - The risk engine calls [Math.exp], [Math.sin], [Math.cos] and
      [Math.atan2], which have no primitive counterpart; that one component
      is embedded over the real numbers [R] (see [RiskEngine]).
    - A [Date] is its time value: milliseconds since the epoch, in [Z].
    - A MongoDB collection is a finite map from [_id] to document; store
      access itself does not fail.
    - [Date.now()] / [new Date()] are an explicit argument [now], read once
      per call of an adapter or handler; an upstream HTTP fetch is an
      explicit argument holding how the request settled.
    - Feed records are typed: the fields an adapter computes with have their
      TypeScript type, the fields it copies are opaque [Js.Value]s.  Where
      the program can still raise a [TypeError] on such input the function
      returns an [option].
    - Promises started together ([Promise.allSettled]) touch disjoint
      documents; they are run one after the other, in the order listed. *)

From Stdlib Require Import ZArith Ascii String Floats Reals Lra Lia.
From stdpp Require Import gmap strings list pretty.

Set Warnings "-inexact-float,-register-all".
#[local] Open Scope Z_scope.

(** ** JavaScript primitives used by the program *)

Module Js.

Abbreviation number := float.
Abbreviation Date := Z.

(** [ToBoolean] on a number: [0], [-0] and [NaN] are falsy. *)
Definition truthy (x : number) : bool :=
  negb (PrimFloat.eqb x 0 || PrimFloat.is_nan x).

(** [ToBoolean] on a string: only the empty string is falsy. *)
Definition truthy_str (s : string) : bool :=
  match s with EmptyString => false | _ => true end.

(** [ToBoolean] on a possibly undefined string or object. *)
Definition truthy_ostr (o : option string) : bool :=
  match o with Some s => truthy_str s | None => false end.

Definition Math_max (a b : number) : number :=
  if PrimFloat.is_nan a || PrimFloat.is_nan b then PrimFloat.nan
  else if PrimFloat.ltb a b then b
  else if PrimFloat.ltb b a then a
  else if PrimFloat.get_sign a then b else a.

Definition Math_min (a b : number) : number :=
  if PrimFloat.is_nan a || PrimFloat.is_nan b then PrimFloat.nan
  else if PrimFloat.ltb a b then a
  else if PrimFloat.ltb b a then b
  else if PrimFloat.get_sign a then a else b.

(** An integer as a number (exact below 2^53, which covers every use). *)
Definition of_Z (z : Z) : number :=
  match z with
  | Z0 => 0%float
  | Zpos _ => PrimFloat.of_uint63 (Uint63.of_Z z)
  | Zneg _ => PrimFloat.opp (PrimFloat.of_uint63 (Uint63.of_Z (- z)))
  end.

(** [Math.round]: the nearest integer, ties towards +infinity; computed on
    the exact value [m * 2^e] of the argument. *)
Definition Math_round (x : number) : number :=
  match Prim2SF x with
  | S754_finite s m e =>
      if 0 <=? e then x
      else
        let d := 2 ^ (- e) in
        let n := if s then Zneg m else Zpos m in
        let r := (2 * n + d) / (2 * d) in
        if r =? 0 then (if s then PrimFloat.neg_zero else 0%float) else of_Z r
  | _ => x
  end.

Fixpoint zeros (n : nat) : string :=
  match n with O => EmptyString | S k => String "0"%char (zeros k) end.

(** The decimal digits of [n >= 0] with a point before the last [f]. *)
Definition digits_fixed (n : Z) (f : nat) : string :=
  let ds := pretty n in
  let ds := (zeros (S f - String.length ds) +:+ ds)%string in
  let k := (String.length ds - f)%nat in
  match f with
  | O => ds
  | _ => (substring 0 k ds +:+ "." +:+ substring k f ds)%string
  end.

(** [Number.prototype.toFixed(f)] for [|x| < 1e21]: the integer [n] with
    [n / 10^f] nearest to [x] (the larger on a tie), printed with [f]
    fraction digits. *)
Definition toFixed (x : number) (f : nat) : string :=
  match Prim2SF x with
  | S754_nan => "NaN"
  | S754_infinity s => if s then "-Infinity" else "Infinity"
  | S754_zero _ => digits_fixed 0 f
  | S754_finite s m e =>
      let num := Zpos m * 10 ^ Z.of_nat f * (if 0 <=? e then 2 ^ e else 1) in
      let den := if 0 <=? e then 1 else 2 ^ (- e) in
      let n := (2 * num + den) / (2 * den) in
      ((if s then "-" else EmptyString) +:+ digits_fixed n f)%string
  end.

(** [String.prototype.includes]. *)
Definition includes (s needle : string) : bool :=
  match index 0 needle s with Some _ => true | None => false end.

Definition lower_ascii (c : ascii) : ascii :=
  let n := nat_of_ascii c in
  if ((65 <=? n) && (n <=? 90))%nat then ascii_of_nat (n + 32) else c.

(** [String.prototype.toLowerCase] on ASCII text. *)
Fixpoint toLowerCase (s : string) : string :=
  match s with
  | EmptyString => EmptyString
  | String c r => String (lower_ascii c) (toLowerCase r)
  end.

Definition is_space (c : ascii) : bool :=
  let n := nat_of_ascii c in
  ((n =? 32) || ((9 <=? n) && (n <=? 13)))%nat.

(** [s.replace(/\s+/g, '-')]: every maximal run of white space becomes
    one dash. *)
Fixpoint replace_spaces_from (in_run : bool) (s : string) : string :=
  match s with
  | EmptyString => EmptyString
  | String c r =>
      if is_space c
      then (if in_run then replace_spaces_from true r
            else String "-"%char (replace_spaces_from true r))
      else String c (replace_spaces_from false r)
  end.

Definition replace_spaces (s : string) : string := replace_spaces_from false s.

(** [s.split(sep)] for a one-character separator. *)
Fixpoint split (sep : ascii) (s : string) : list string :=
  match s with
  | EmptyString => [EmptyString]
  | String c r =>
      if Ascii.eqb c sep then EmptyString :: split sep r
      else match split sep r with
           | h :: t => String c h :: t
           | [] => [String c EmptyString]
           end
  end.

(** Array indexing inside arithmetic: a missing element is [undefined],
    which arithmetic turns into [NaN]. *)
Definition at_ (l : list number) (i : nat) : number := nth i l PrimFloat.nan.

(** Values that the program only passes through (JSON from a feed). *)
Inductive Value : Type :=
| VUndefined
| VNull
| VBool (b : bool)
| VNum (x : number)
| VStr (s : string)
| VArr (l : list Value)
| VObj (fields : list (string * Value)).

(** [ToBoolean] on a passed-through value. *)
Definition truthy_value (v : Value) : bool :=
  match v with
  | VUndefined | VNull | VBool false | VStr EmptyString => false
  | VNum x => truthy x
  | _ => true
  end.

(** [o[k]] on an object: [undefined] when the key is absent. *)
Fixpoint get (k : string) (o : list (string * Value)) : Value :=
  match o with
  | [] => VUndefined
  | (k', v) :: r => if String.eqb k k' then v else get k r
  end.

(** [v || dflt] *)
Definition value_or (v dflt : Value) : Value :=
  match v with
  | VUndefined | VNull | VBool false | VStr EmptyString => dflt
  | VNum x => if truthy x then v else dflt
  | _ => v
  end.

(** The calendar date of day number [days] (days since 1970-01-01) in the
    proleptic Gregorian calendar: (year, month, day). *)
Definition civil_from_days (days : Z) : Z * Z * Z :=
  let z := days + 719468 in
  let era := z / 146097 in
  let doe := z - era * 146097 in
  let yoe := (doe - doe / 1460 + doe / 36524 - doe / 146096) / 365 in
  let doy := doe - (365 * yoe + yoe / 4 - yoe / 100) in
  let mp := (5 * doy + 2) / 153 in
  let d := doy - (153 * mp + 2) / 5 + 1 in
  let m := if mp <? 10 then mp + 3 else mp - 9 in
  let y := yoe + era * 400 + (if m <=? 2 then 1 else 0) in
  (y, m, d).

Definition pad_left (w : nat) (s : string) : string :=
  (zeros (w - String.length s) +:+ s)%string.

(** [d.toISOString().split('T')[0]] for a date in the years 0000 to 9999:
    the UTC calendar date as YYYY-MM-DD. *)
Definition isoDate (d : Date) : string :=
  let '(y, m, dd) := civil_from_days (d / 86400000) in
  (pad_left 4 (pretty y) +:+ "-" +:+ pad_left 2 (pretty m) +:+ "-"
     +:+ pad_left 2 (pretty dd))%string.

(** [obj[k] = v] on an object kept in insertion order. *)
Fixpoint obj_set (k : string) (v : Value) (o : list (string * Value))
  : list (string * Value) :=
  match o with
  | [] => [(k, v)]
  | (k', v') :: r =>
      if String.eqb k k' then (k, v) :: r else (k', v') :: obj_set k v r
  end.

End Js.

(** ** models/Event.ts and models/Subscription.ts *)

Module Event.

Inductive EventType := earthquake | flood | aqi | storm | fire.

(** [geometry]: a GeoJSON point, or a polygon given by its rings. *)
Inductive Geometry (num : Type) :=
| Point (coordinates : list num)
| Polygon (rings : list (list (list num))).
Arguments Point {num} _.
Arguments Polygon {num} _.

(** [IEvent].  The record is generic in the type of numbers so that the
    risk engine can read the same documents over [R]. *)
Record IEvent (num : Type) := mkEvent {
  _id : string;
  source : string;
  type : EventType;
  severity : num;
  confidence : num;
  geometry : Geometry num;
  area_bbox : list num;          (* [minLng, minLat, maxLng, maxLat] *)
  starts_at : Js.Date;
  ends_at : option Js.Date;
  properties : list (string * Js.Value);
  ingested_at : Js.Date
}.
Arguments mkEvent {num}.
Arguments _id {num}.
Arguments source {num}.
Arguments type {num}.
Arguments severity {num}.
Arguments confidence {num}.
Arguments geometry {num}.
Arguments area_bbox {num}.
Arguments starts_at {num}.
Arguments ends_at {num}.
Arguments properties {num}.
Arguments ingested_at {num}.

(** The [events] collection as written by the adapters. *)
Abbreviation Store := (gmap string (IEvent Js.number)).

(** [Event.findOneAndUpdate({ _id: d._id }, d, { upsert: true, new: true })]:
    every field present in the update document [d] is [$set]; [ends_at] is
    the one field an update document may lack, in which case an existing
    document keeps its own.  With [new: true] the document as stored after
    the write is returned. *)
Definition findOneAndUpdate (d : IEvent Js.number) (db : Store)
  : Store * IEvent Js.number :=
  let doc :=
    match db !! _id d with
    | Some old =>
        mkEvent (_id old) (source d) (type d) (severity d) (confidence d)
          (geometry d) (area_bbox d) (starts_at d)
          (match ends_at d with Some e => Some e | None => ends_at old end)
          (properties d) (ingested_at d)
    | None => d
    end in
  (<[_id d := doc]> db, doc).

(** What every adapter does with one record: upsert it, then compare the
    returned document's [ingested_at] with the one just written. *)
Record Counts := mkCounts { inserted : nat; updated : nat }.

Definition upsert_and_count (eventData : IEvent Js.number) (acc : Store * Counts)
  : Store * Counts :=
  let '(db, c) := acc in
  let '(db', result) := findOneAndUpdate eventData db in
  if ingested_at result =? ingested_at eventData
  then (db', mkCounts (S (inserted c)) (updated c))
  else (db', mkCounts (inserted c) (S (updated c))).

(** An [async] adapter call settles: it is fulfilled with its counts or
    rejected with an error message. *)
Inductive Settled (A : Type) :=
| Fulfilled (value : A)
| Rejected (message : string).
Arguments Fulfilled {A} _.
Arguments Rejected {A} _.

End Event.

(** ** services/USGSService.ts *)

Module USGSService.
Import Event.

(** One feature of the USGS GeoJSON feed.  The fields the adapter computes
    with are typed; the ones it copies into [properties] are opaque. *)
Record Feature := mkFeature {
  id : string;
  mag : Js.number;
  time : Js.Date;
  coordinates : list Js.number;      (* [lng, lat, depth] *)
  place : Js.Value;
  magType : Js.Value;
  alert : Js.Value;
  tsunami : Js.Value;
  url : Js.Value;
  felt : Js.Value;
  sig : Js.Value
}.

Definition calculateBoundingBox (lng lat magnitude : Js.number) : list Js.number :=
  let radiusKm := Js.Math_max 10 (magnitude * 50)%float in
  let radiusDegrees := (radiusKm / 111)%float in
  [ (lng - radiusDegrees)%float;
    (lat - radiusDegrees)%float;
    (lng + radiusDegrees)%float;
    (lat + radiusDegrees)%float ].

Definition eventId (feature : Feature) : string := "usgs-" +:+ id feature.

Definition depth_value (feature : Feature) : Js.Value :=
  match coordinates feature !! 2%nat with
  | Some d => Js.VNum d
  | None => Js.VUndefined
  end.

(** The [eventData] object built in the loop body. *)
Definition eventData (now : Js.Date) (feature : Feature) : IEvent Js.number :=
  let magnitude := mag feature in
  {| _id := eventId feature;
     source := "usgs";
     type := earthquake;
     severity := magnitude;
     confidence := 0.95%float;
     geometry := Point (take 2 (coordinates feature));
     area_bbox := calculateBoundingBox (Js.at_ (coordinates feature) 0)
                    (Js.at_ (coordinates feature) 1) magnitude;
     starts_at := time feature;
     ends_at := None;
     properties :=
       [ ("place", place feature);
         ("depth_km", depth_value feature);
         ("mag_type", magType feature);
         ("alert", alert feature);
         ("tsunami", tsunami feature);
         ("url", url feature);
         ("felt_reports", felt feature);
         ("significance", sig feature) ];
     ingested_at := now |}.

(** One iteration of [for (const feature of data.features)]. *)
Definition ingest_feature (now : Js.Date) (acc : Store * Counts) (feature : Feature)
  : Store * Counts :=
  if (mag feature <? 2.5)%float then acc
  else upsert_and_count (eventData now feature) acc.

(** [ingestEarthquakes]: [feed] is how the fetch and JSON decoding of the
    hourly feed settled; when it failed the [catch] block logs and rethrows,
    so the call is rejected with the same error. *)
Definition ingestEarthquakes (feed : Settled (list Feature)) (now : Js.Date) (db : Store)
  : Store * Settled Counts :=
  match feed with
  | Rejected e => (db, Rejected e)
  | Fulfilled features =>
      let '(db', c) := fold_left (ingest_feature now) features (db, mkCounts 0 0) in
      (db', Fulfilled c)
  end.

End USGSService.

(** ** services/NASAService.ts *)

Module NASAService.
Import Event.

(** One entry of [event.geometry] in the EONET feed. *)
Record EONETGeometry := mkEONETGeometry {
  shape : Geometry Js.number;
  date : Js.Date
}.

(** One EONET event; [category_id] and [category_title] are those of
    [event.categories[0]]. *)
Record EONETEvent := mkEONETEvent {
  id : string;
  title : string;
  description : Js.Value;
  category_id : Js.number;
  category_title : Js.Value;
  link : Js.Value;
  closed : Js.Value;
  magnitudeValue : Js.Value;
  magnitudeUnit : Js.Value;
  geometries : option (list EONETGeometry)
}.

Definition is_category (categoryId : Js.number) (k : Js.number) : bool :=
  PrimFloat.eqb categoryId k.

Definition mapEONETCategory (categoryId : Js.number) : EventType :=
  if is_category categoryId 6 then earthquake
  else if is_category categoryId 8 then fire
  else if is_category categoryId 9 then flood
  else if is_category categoryId 10 then storm
  else if is_category categoryId 12 then storm
  else if is_category categoryId 13 then aqi
  else if is_category categoryId 14 then aqi
  else storm.   (* cases 15 to 19 and the default all return 'storm' *)

Definition calculateEONETSeverity (categoryId : Js.number) (title : string) : Js.number :=
  let baseSeverity :=
    if is_category categoryId 6 then 7.0%float
    else if is_category categoryId 8 then 6.5%float
    else if is_category categoryId 9 then 7.5%float
    else if is_category categoryId 10 then 6.0%float
    else if is_category categoryId 12 then 8.0%float
    else 5.0%float in
  let titleLower := Js.toLowerCase title in
  let baseSeverity :=
    if Js.includes titleLower "major" || Js.includes titleLower "severe"
    then (baseSeverity + 1.0)%float else baseSeverity in
  let baseSeverity :=
    if Js.includes titleLower "extreme" || Js.includes titleLower "catastrophic"
    then (baseSeverity + 2.0)%float else baseSeverity in
  let baseSeverity :=
    if Js.includes titleLower "minor" || Js.includes titleLower "small"
    then (baseSeverity - 1.0)%float else baseSeverity in
  Js.Math_max 1.0 (Js.Math_min 10.0 baseSeverity).

Definition calculateFireSeverity (brightness confidence : Js.number) : Js.number :=
  let severity := 3.0%float in
  let severity :=
    if (380 <? brightness)%float then (severity + 3.0)%float
    else if (350 <? brightness)%float then (severity + 2.0)%float
    else if (320 <? brightness)%float then (severity + 1.0)%float
    else severity in
  let severity :=
    if (80 <? confidence)%float then (severity + 1.0)%float
    else if (confidence <? 50)%float then (severity - 1.0)%float
    else severity in
  Js.Math_max 1.0 (Js.Math_min 10.0 severity).

(** [Math.min(...xs)] and [Math.max(...xs)]. *)
Definition min_of (xs : list Js.number) : Js.number :=
  fold_right Js.Math_min PrimFloat.infinity xs.
Definition max_of (xs : list Js.number) : Js.number :=
  fold_right Js.Math_max PrimFloat.neg_infinity xs.

(** [None] stands for the [TypeError] raised when a polygon has no ring.
    The final [return [0, 0, 0, 0]] is for a [type] that is neither 'Point'
    nor 'Polygon', which [Geometry] excludes. *)
Definition calculateBoundingBoxFromGeometry (g : Geometry Js.number)
  : option (list Js.number) :=
  match g with
  | Point c =>
      let lng := Js.at_ c 0 in
      let lat := Js.at_ c 1 in
      let radius := 0.1%float in
      Some [ (lng - radius)%float; (lat - radius)%float;
             (lng + radius)%float; (lat + radius)%float ]
  | Polygon rings =>
      match rings with
      | [] => None
      | coords :: _ =>
          let lngs := map (fun c => Js.at_ c 0) coords in
          let lats := map (fun c => Js.at_ c 1) coords in
          Some [ min_of lngs; min_of lats; max_of lngs; max_of lats ]
      end
  end.

Definition calculateFireBoundingBox (lng lat brightness : Js.number) : list Js.number :=
  let radiusKm := Js.Math_max 2 ((brightness - 300) / 20)%float in
  let radiusDegrees := (radiusKm / 111)%float in
  [ (lng - radiusDegrees)%float;
    (lat - radiusDegrees)%float;
    (lng + radiusDegrees)%float;
    (lat + radiusDegrees)%float ].

Definition eonetEventId (event : EONETEvent) : string := "nasa-eonet-" +:+ id event.

(** The stored shape of the latest geometry; a polygon's rings are kept as
    they came. *)
Definition eonetEventData (now : Js.Date) (event : EONETEvent)
  (latestGeometry : EONETGeometry) : option (IEvent Js.number) :=
  bbox ← calculateBoundingBoxFromGeometry (shape latestGeometry);
  Some {| _id := eonetEventId event;
          source := "nasa-eonet";
          type := mapEONETCategory (category_id event);
          severity := calculateEONETSeverity (category_id event) (title event);
          confidence := 0.90%float;
          geometry := shape latestGeometry;
          area_bbox := bbox;
          starts_at := date latestGeometry;
          ends_at := None;
          properties :=
            [ ("title", Js.VStr (title event));
              ("description", Js.value_or (description event) (Js.VStr EmptyString));
              ("category", category_title event);
              ("category_id", Js.VNum (category_id event));
              ("link", link event);
              ("closed", Js.value_or (closed event) Js.VNull);
              ("magnitudeValue", Js.value_or (magnitudeValue event) Js.VNull);
              ("magnitudeUnit", Js.value_or (magnitudeUnit event) Js.VNull) ];
          ingested_at := now |}.

(** The loop of [ingestEONETEvents]; an exception in an iteration leaves the
    loop, keeps what was already written, and rejects the call. *)
Fixpoint ingest_events (now : Js.Date) (events : list EONETEvent) (acc : Store * Counts)
  : Store * Settled Counts :=
  match events with
  | [] => (acc.1, Fulfilled acc.2)
  | event :: rest =>
      match geometries event with
      | None | Some [] => ingest_events now rest acc
      | Some (g :: gs) =>
          match eonetEventData now event (List.last gs g) with
          | None => (acc.1, Rejected "Cannot read properties of undefined")
          | Some d => ingest_events now rest (upsert_and_count d acc)
          end
      end
  end.

Definition ingestEONETEvents (feed : Settled (list EONETEvent)) (now : Js.Date) (db : Store)
  : Store * Settled Counts :=
  match feed with
  | Rejected e => (db, Rejected e)
  | Fulfilled events => ingest_events now events (db, mkCounts 0 0)
  end.

(** One data line of the FIRMS CSV, after [split] and [parseFloat]:
    [latitude] and [longitude] are [None] when the column is empty,
    [confidence] and [brightness] already carry their defaults ('50', '300'),
    [acq_instant] is the instant [acq_date]T[acq_time]Z denotes. *)
Record FireRow := mkFireRow {
  latitude : option Js.number;
  longitude : option Js.number;
  confidence_pct : Js.number;
  brightness : Js.number;
  acq_date : string;
  acq_instant : Js.Date;
  scan : Js.number;
  track : Js.number;
  satellite : string;
  instrument : string;
  version : string;
  bright_t31 : Js.number;
  frp : Js.number;
  daynight : string
}.

Definition firmsEventId (countryCode : string) (acq : string) (lat lng : Js.number) : string :=
  "nasa-firms-" +:+ countryCode +:+ "-" +:+ acq +:+ "-" +:+ Js.toFixed lat 4
    +:+ "-" +:+ Js.toFixed lng 4.

Definition firmsEventData (now : Js.Date) (countryCode : string) (row : FireRow)
  (lat lng : Js.number) : IEvent Js.number :=
  {| _id := firmsEventId countryCode (acq_date row) lat lng;
     source := "nasa-firms";
     type := fire;
     severity := calculateFireSeverity (brightness row) (confidence_pct row);
     confidence := (confidence_pct row / 100)%float;
     geometry := Point [lng; lat];
     area_bbox := calculateFireBoundingBox lng lat (brightness row);
     starts_at := acq_instant row;
     ends_at := None;
     properties :=
       [ ("brightness", Js.VNum (brightness row));
         ("scan", Js.VNum (scan row));
         ("track", Js.VNum (track row));
         ("satellite", Js.VStr (satellite row));
         ("instrument", Js.VStr (instrument row));
         ("version", Js.VStr (version row));
         ("bright_t31", Js.VNum (bright_t31 row));
         ("frp", Js.VNum (frp row));
         ("daynight", Js.VStr (daynight row));
         ("country_code", Js.VStr countryCode) ];
     ingested_at := now |}.

Definition ingest_row (now : Js.Date) (countryCode : string) (acc : Store * Counts)
  (row : FireRow) : Store * Counts :=
  match latitude row, longitude row with
  | Some lat, Some lng =>
      if (confidence_pct row <? 30)%float then acc
      else upsert_and_count (firmsEventData now countryCode row lat lng) acc
  | _, _ => acc
  end.

(** One iteration of the per-country loop: a failed download is caught and
    logged, a 'No data' answer ([Fulfilled None]) is skipped. *)
Definition ingest_country (now : Js.Date) (acc : Store * Counts)
  (country : string * Settled (option (list FireRow))) : Store * Counts :=
  match country.2 with
  | Rejected _ => acc
  | Fulfilled None => acc
  | Fulfilled (Some rows) => fold_left (ingest_row now country.1) rows acc
  end.

Definition ingestFIRMSData (feeds : list (string * Settled (option (list FireRow))))
  (now : Js.Date) (db : Store) : Store * Settled Counts :=
  let '(db', c) := fold_left (ingest_country now) feeds (db, mkCounts 0 0) in
  (db', Fulfilled c).

End NASAService.

(** ** services/OpenWeatherService.ts *)

Module OpenWeatherService.
Import Event.

Record Location := mkLocation { lat : Js.number; lng : Js.number; name : string }.

(** One entry of the [alerts] array; [start] and [end_] are Unix seconds. *)
Record Alert := mkAlert {
  event : string;
  description : string;
  start : Z;
  end_ : Z;
  sender_name : Js.Value;
  tags : Js.Value
}.

(** The [current] block; [weather] is the list of (main, description). *)
Record Current := mkCurrent {
  temp : Js.number;
  feels_like : Js.number;
  humidity : option Js.number;
  pressure : Js.Value;
  wind_speed : option Js.number;
  wind_deg : Js.Value;
  weather : list (Js.Value * Js.Value)
}.

Record OneCall := mkOneCall {
  alerts : option (list Alert);
  current : option Current
}.

(** [x || 0] on a possibly missing number. *)
Definition or_zero (x : option Js.number) : Js.number :=
  match x with
  | Some v => if Js.truthy v then v else 0%float
  | None => 0%float
  end.

Definition mapAlertType (eventName : string) : EventType :=
  let event := Js.toLowerCase eventName in
  if Js.includes event "flood" || Js.includes event "rain" then flood
  else if Js.includes event "fire" || Js.includes event "smoke" then fire
  else if Js.includes event "air" || Js.includes event "pollution" then aqi
  else storm.

Definition calculateSeverity (event description : string) : Js.number :=
  let text := Js.toLowerCase (event +:+ " " +:+ description) in
  if Js.includes text "extreme" || Js.includes text "severe" || Js.includes text "major"
  then 8.0%float
  else if Js.includes text "moderate" || Js.includes text "warning" then 6.0%float
  else if Js.includes text "minor" || Js.includes text "watch" then 4.0%float
  else 5.0%float.

Definition isSevereWeather (w : Current) : bool :=
  let windSpeed := or_zero (wind_speed w) in
  let temp := (temp w - 273.15)%float in
  let humidity := or_zero (humidity w) in
  (15 <? windSpeed)%float || (40 <? temp)%float || (temp <? -10)%float
  || (90 <? humidity)%float.

Definition calculateWeatherSeverity (w : Current) : Js.number :=
  let windSpeed := or_zero (wind_speed w) in
  let temp := (temp w - 273.15)%float in
  let severity := 3.0%float in
  let severity :=
    if (25 <? windSpeed)%float then (severity + 2.0)%float
    else if (15 <? windSpeed)%float then (severity + 1.0)%float
    else severity in
  let severity :=
    if (45 <? temp)%float || (temp <? -20)%float then (severity + 2.0)%float
    else if (40 <? temp)%float || (temp <? -10)%float then (severity + 1.0)%float
    else severity in
  Js.Math_min severity 10.0.

Definition calculateAlertBoundingBox (lng lat severity : Js.number) : list Js.number :=
  let radiusKm := Js.Math_max 5 (severity * 10)%float in
  let radiusDegrees := (radiusKm / 111)%float in
  [ (lng - radiusDegrees)%float;
    (lat - radiusDegrees)%float;
    (lng + radiusDegrees)%float;
    (lat + radiusDegrees)%float ].

Definition alertEventId (location : Location) (alert : Alert) : string :=
  "openweather-" +:+ name location +:+ "-" +:+ pretty (start alert) +:+ "-"
    +:+ Js.replace_spaces (event alert).

Definition alertEventData (now : Js.Date) (location : Location) (alert : Alert)
  : IEvent Js.number :=
  let severity := calculateSeverity (event alert) (description alert) in
  {| _id := alertEventId location alert;
     source := "openweather";
     type := mapAlertType (event alert);
     severity := severity;
     confidence := 0.85%float;
     geometry := Point [lng location; lat location];
     area_bbox := calculateAlertBoundingBox (lng location) (lat location) severity;
     starts_at := start alert * 1000;
     ends_at := Some (end_ alert * 1000);
     properties :=
       [ ("event_name", Js.VStr (event alert));
         ("description", Js.VStr (description alert));
         ("sender_name", sender_name alert);
         ("tags", Js.value_or (tags alert) (Js.VArr []));
         ("location_name", Js.VStr (name location)) ];
     ingested_at := now |}.

(** The identifier of the synthetic storm event: it embeds [Date.now()]. *)
Definition severeEventId (now : Js.Date) (location : Location) : string :=
  "openweather-severe-" +:+ name location +:+ "-" +:+ pretty now.

(** [None] stands for the [TypeError] raised by [weather[0].main] when the
    [weather] array is empty. *)
Definition severeEventData (now : Js.Date) (location : Location) (w : Current)
  : option (IEvent Js.number) :=
  let severity := calculateWeatherSeverity w in
  w0 ← head (weather w);
  Some {| _id := severeEventId now location;
          source := "openweather";
          type := storm;
          severity := severity;
          confidence := 0.80%float;
          geometry := Point [lng location; lat location];
          area_bbox := calculateAlertBoundingBox (lng location) (lat location) severity;
          starts_at := now;
          ends_at := None;
          properties :=
            [ ("temperature", Js.VNum (temp w - 273.15)%float);
              ("feels_like", Js.VNum (feels_like w - 273.15)%float);
              ("humidity", from_option Js.VNum Js.VUndefined (humidity w));
              ("pressure", pressure w);
              ("wind_speed", from_option Js.VNum Js.VUndefined (wind_speed w));
              ("wind_deg", wind_deg w);
              ("weather_main", w0.1);
              ("weather_description", w0.2);
              ("location_name", Js.VStr (name location)) ];
          ingested_at := now |}.

(** The body of the [try] block for one location.  An exception ([data.current]
    missing, or an empty [weather] array) is caught by the per-location
    [catch]: what was written before it stays, the loop goes on. *)
Definition ingest_location (now : Js.Date) (acc : Store * Counts)
  (loc : Location * Settled OneCall) : Store * Counts :=
  let '(location, fetched) := loc in
  match fetched with
  | Rejected _ => acc
  | Fulfilled data =>
      let acc :=
        match alerts data with
        | Some als =>
            fold_left (fun a alert => upsert_and_count (alertEventData now location alert) a)
              als acc
        | None => acc
        end in
      match current data with
      | None => acc
      | Some currentWeather =>
          if isSevereWeather currentWeather then
            match severeEventData now location currentWeather with
            | None => acc
            | Some eventData =>
                let '(db', _) := findOneAndUpdate eventData acc.1 in
                (db', mkCounts (S (inserted acc.2)) (updated acc.2))
            end
          else acc
      end
  end.

(** [ingestWeatherAlerts]: rejected at once when no API key is configured. *)
Definition ingestWeatherAlerts (api_key : option string)
  (locations : list (Location * Settled OneCall)) (now : Js.Date) (db : Store)
  : Store * Settled Counts :=
  if Js.truthy_ostr api_key then
    let '(db', c) := fold_left (ingest_location now) locations (db, mkCounts 0 0) in
    (db', Fulfilled c)
  else (db, Rejected "OpenWeather API key not configured").

End OpenWeatherService.

(** ** services/OpenAQService.ts *)

Module OpenAQService.
Import Event.

(** One entry of [data.results]. *)
Record Measurement := mkMeasurement {
  coordinates : option (Js.number * Js.number);     (* latitude, longitude *)
  value : Js.number;
  parameter : string;
  unit : string;
  date_utc : Js.Date;
  location : Js.Value;
  city : Js.Value;
  country_code : Js.Value;           (* the record's own [country] field *)
  sourceName : Js.Value;
  mobile : Js.Value
}.

Definition linearInterpolation (x x1 x2 y1 y2 : Js.number) : Js.number :=
  (((y2 - y1) / (x2 - x1)) * (x - x1) + y1)%float.

Definition pm25ToAQI (concentration : Js.number) (unit : string) : Js.number :=
  let c := if String.eqb unit "ppm" then (concentration * 1000)%float else concentration in
  if (c <=? 12.0)%float then linearInterpolation c 0 12.0 0 50
  else if (c <=? 35.4)%float then linearInterpolation c 12.1 35.4 51 100
  else if (c <=? 55.4)%float then linearInterpolation c 35.5 55.4 101 150
  else if (c <=? 150.4)%float then linearInterpolation c 55.5 150.4 151 200
  else if (c <=? 250.4)%float then linearInterpolation c 150.5 250.4 201 300
  else if (c <=? 350.4)%float then linearInterpolation c 250.5 350.4 301 400
  else Js.Math_min 500 (linearInterpolation c 350.5 500.4 401 500).

Definition pm10ToAQI (concentration : Js.number) (unit : string) : Js.number :=
  let c := if String.eqb unit "ppm" then (concentration * 1000)%float else concentration in
  if (c <=? 54)%float then linearInterpolation c 0 54 0 50
  else if (c <=? 154)%float then linearInterpolation c 55 154 51 100
  else if (c <=? 254)%float then linearInterpolation c 155 254 101 150
  else if (c <=? 354)%float then linearInterpolation c 255 354 151 200
  else if (c <=? 424)%float then linearInterpolation c 355 424 201 300
  else if (c <=? 504)%float then linearInterpolation c 425 504 301 400
  else Js.Math_min 500 (linearInterpolation c 505 604 401 500).

Definition o3ToAQI (concentration : Js.number) (unit : string) : Js.number :=
  let c := if String.eqb unit "µg/m³" then (concentration / 1960)%float else concentration in
  if (c <=? 0.054)%float then linearInterpolation c 0 0.054 0 50
  else if (c <=? 0.070)%float then linearInterpolation c 0.055 0.070 51 100
  else if (c <=? 0.085)%float then linearInterpolation c 0.071 0.085 101 150
  else if (c <=? 0.105)%float then linearInterpolation c 0.086 0.105 151 200
  else if (c <=? 0.200)%float then linearInterpolation c 0.106 0.200 201 300
  else Js.Math_min 500 301.

Definition no2ToAQI (concentration : Js.number) (unit : string) : Js.number :=
  let c := if String.eqb unit "ppm" then (concentration * 1880)%float else concentration in
  if (c <=? 40)%float then linearInterpolation c 0 40 0 50
  else if (c <=? 80)%float then linearInterpolation c 41 80 51 100
  else if (c <=? 180)%float then linearInterpolation c 81 180 101 150
  else if (c <=? 280)%float then linearInterpolation c 181 280 151 200
  else if (c <=? 400)%float then linearInterpolation c 281 400 201 300
  else Js.Math_min 500 301.

Definition so2ToAQI (concentration : Js.number) (unit : string) : Js.number :=
  let c := if String.eqb unit "ppm" then (concentration * 2620)%float else concentration in
  if (c <=? 35)%float then linearInterpolation c 0 35 0 50
  else if (c <=? 75)%float then linearInterpolation c 36 75 51 100
  else if (c <=? 185)%float then linearInterpolation c 76 185 101 150
  else if (c <=? 304)%float then linearInterpolation c 186 304 151 200
  else if (c <=? 604)%float then linearInterpolation c 305 604 201 300
  else Js.Math_min 500 301.

Definition coToAQI (concentration : Js.number) (unit : string) : Js.number :=
  let c := if String.eqb unit "µg/m³" then (concentration / 1150)%float else concentration in
  if (c <=? 4.4)%float then linearInterpolation c 0 4.4 0 50
  else if (c <=? 9.4)%float then linearInterpolation c 4.5 9.4 51 100
  else if (c <=? 12.4)%float then linearInterpolation c 9.5 12.4 101 150
  else if (c <=? 15.4)%float then linearInterpolation c 12.5 15.4 151 200
  else if (c <=? 30.4)%float then linearInterpolation c 15.5 30.4 201 300
  else Js.Math_min 500 301.

Definition aqiToCategory (aqi : Js.number) : string :=
  if (aqi <=? 50)%float then "Good"
  else if (aqi <=? 100)%float then "Moderate"
  else if (aqi <=? 150)%float then "Unhealthy for Sensitive Groups"
  else if (aqi <=? 200)%float then "Unhealthy"
  else if (aqi <=? 300)%float then "Very Unhealthy"
  else "Hazardous".

Definition aqiToSeverity (aqi : Js.number) : Js.number :=
  if (aqi <=? 50)%float then 2.0%float
  else if (aqi <=? 100)%float then 4.0%float
  else if (aqi <=? 150)%float then 6.0%float
  else if (aqi <=? 200)%float then 7.5%float
  else if (aqi <=? 300)%float then 9.0%float
  else 10.0%float.

(** The [switch] of [calculateAQI]: an unknown parameter leaves [aqi = 0]. *)
Definition pollutantAQI (m : Measurement) : Js.number :=
  let parameter := Js.toLowerCase (parameter m) in
  if String.eqb parameter "pm25" then pm25ToAQI (value m) (unit m)
  else if String.eqb parameter "pm10" then pm10ToAQI (value m) (unit m)
  else if String.eqb parameter "o3" then o3ToAQI (value m) (unit m)
  else if String.eqb parameter "no2" then no2ToAQI (value m) (unit m)
  else if String.eqb parameter "so2" then so2ToAQI (value m) (unit m)
  else if String.eqb parameter "co" then coToAQI (value m) (unit m)
  else 0%float.

Record AQIData := mkAQIData {
  aqi_of : Js.number;
  category : string;
  primaryPollutant : string
}.

(** The loop of [calculateAQI] on the running pair (maxAQI, primaryPollutant). *)
Definition aqi_step (acc : Js.number * string) (m : Measurement) : Js.number * string :=
  let aqi := pollutantAQI m in
  if (acc.1 <? aqi)%float then (aqi, Js.toLowerCase (parameter m)) else acc.

Definition calculateAQI (measurements : list Measurement) : AQIData :=
  let '(maxAQI, primaryPollutant) := fold_left aqi_step measurements (0%float, "pm25") in
  {| aqi_of := Js.Math_round maxAQI;
     category := aqiToCategory maxAQI;
     primaryPollutant := primaryPollutant |}.

(** [lastUpdated] holds [date.utc], kept here as its instant. *)
Definition processMeasurements (measurements : list Measurement) : Js.Value :=
  Js.VObj
    (fold_left
       (fun processed m =>
          Js.obj_set (parameter m)
            (Js.VObj [ ("value", Js.VNum (value m));
                       ("unit", Js.VStr (unit m));
                       ("lastUpdated", Js.VNum (Js.of_Z (date_utc m))) ])
            processed)
       measurements []).

Definition calculateAQIBoundingBox (lng lat aqi : Js.number) : list Js.number :=
  let radiusKm := Js.Math_max 5 (Js.Math_min 50 (aqi / 4)%float) in
  let radiusDegrees := (radiusKm / 111)%float in
  [ (lng - radiusDegrees)%float;
    (lat - radiusDegrees)%float;
    (lng + radiusDegrees)%float;
    (lat + radiusDegrees)%float ].

Definition locationKeyOf (latitude longitude : Js.number) : string :=
  Js.toFixed latitude 4 +:+ "-" +:+ Js.toFixed longitude 4.

(** [locationGroups]: a [Map] from location key to measurements, in
    insertion order. *)
Fixpoint group_push (key : string) (m : Measurement)
  (groups : list (string * list Measurement)) : list (string * list Measurement) :=
  match groups with
  | [] => [(key, [m])]
  | (k, ms) :: rest =>
      if String.eqb k key then (k, ms ++ [m]) :: rest
      else (k, ms) :: group_push key m rest
  end.

Definition group_step (groups : list (string * list Measurement)) (m : Measurement)
  : list (string * list Measurement) :=
  match coordinates m with
  | Some (latitude, longitude) =>
      if Js.truthy (value m) then group_push (locationKeyOf latitude longitude) m groups
      else groups
  | None => groups
  end.

Definition aqEventId (now : Js.Date) (country locationKey : string) : string :=
  "openaq-" +:+ country +:+ "-" +:+ locationKey +:+ "-" +:+ Js.isoDate now.

Definition aqEventData (now : Js.Date) (country locationKey : string)
  (primaryMeasurement : Measurement) (lat lng : Js.number)
  (measurements : list Measurement) (aqiData : AQIData) : IEvent Js.number :=
  {| _id := aqEventId now country locationKey;
     source := "openaq";
     type := aqi;
     severity := aqiToSeverity (aqi_of aqiData);
     confidence := 0.85%float;
     geometry := Point [lng; lat];
     area_bbox := calculateAQIBoundingBox lng lat (aqi_of aqiData);
     starts_at := date_utc primaryMeasurement;
     ends_at := None;
     properties :=
       [ ("aqi", Js.VNum (aqi_of aqiData));
         ("aqi_category", Js.VStr (category aqiData));
         ("primary_pollutant", Js.VStr (primaryPollutant aqiData));
         ("location_name", location primaryMeasurement);
         ("city", city primaryMeasurement);
         ("country", country_code primaryMeasurement);
         ("measurements", processMeasurements measurements);
         ("source_name", sourceName primaryMeasurement);
         ("mobile", Js.value_or (mobile primaryMeasurement) (Js.VBool false)) ];
     ingested_at := now |}.

(** One iteration of [for (const [locationKey, measurements] of locationGroups)]. *)
Definition ingest_group (now : Js.Date) (country : string) (acc : Store * Counts)
  (group : string * list Measurement) : Store * Counts :=
  let '(locationKey, measurements) := group in
  match measurements with
  | [] => acc
  | primaryMeasurement :: _ =>
      match coordinates primaryMeasurement with
      | None => acc
      | Some (lat, lng) =>
          let aqiData := calculateAQI measurements in
          if (aqi_of aqiData <=? 100)%float then acc
          else upsert_and_count
                 (aqEventData now country locationKey primaryMeasurement lat lng
                    measurements aqiData) acc
      end
  end.

(** One iteration of the per-country loop: a failed request is caught and
    logged; an answer without [results] is skipped. *)
Definition ingest_country (now : Js.Date) (acc : Store * Counts)
  (c : string * Settled (option (list Measurement))) : Store * Counts :=
  match c.2 with
  | Rejected _ => acc
  | Fulfilled None => acc
  | Fulfilled (Some results) =>
      fold_left (ingest_group now c.1) (fold_left group_step results []) acc
  end.

Definition ingestAirQualityData (feeds : list (string * Settled (option (list Measurement))))
  (now : Js.Date) (db : Store) : Store * Settled Counts :=
  let '(totals_db, totals) := fold_left (ingest_country now) feeds (db, mkCounts 0 0) in
  (totals_db, Fulfilled totals).

End OpenAQService.

Module Subscription.

Record PushSubscription := mkPush {
  endpoint : string;
  p256dh : string;
  auth : string
}.

(** [ISubscription]; [location] holds the point's [lng, lat]. *)
Record ISubscription := mkSubscription {
  _id : string;
  email : option string;
  phone : option string;
  push : option PushSubscription;
  location : list Js.number;
  radius_km : Js.number;
  channels : list string;
  language : string;
  created_at : Js.Date
}.

Abbreviation Store := (gmap string ISubscription).

End Subscription.

(** ** services/AlertService.ts: the alert fan-out *)

Module AlertService.
Import Event.

(** What the fan-out does to the outside world, in order. *)
Record AlertContent := mkContent { title : string; body : string; action : string }.

Record NewEventNotice := mkNotice {
  notice_id : string;
  notice_type : EventType;
  notice_severity : Js.number;
  notice_location : Geometry Js.number;
  message : string
}.

Record AlertMessage := mkAlertMessage {
  alert_id : string;
  alert_type : EventType;
  alert_severity : Js.number;
  alert_title : string;
  alert_body : string;
  alert_action : string;
  alert_location : Geometry Js.number;
  timestamp : Js.Date
}.

Inductive Effect :=
| WebPush (to : Subscription.PushSubscription) (content : AlertContent) (eventId : string)
    (* webpush.sendNotification(push, payload) was attempted *)
| EmitTo (room : string) (alert : AlertMessage)
    (* io.to(room).emit('alert', alert) *)
| EmitGlobal (notice : NewEventNotice).
    (* io.emit('events:global', { type: 'new_event', event: notice }) *)

Section Fanout.

(** [String(x)] for a number, and whether the push service accepts a
    notification for an endpoint: both belong to the platform. *)
Variable ToString : Js.number -> string.
Variable push_delivers : Subscription.PushSubscription -> bool.

Definition display (v : Js.Value) : string :=
  match v with
  | Js.VStr s => s
  | Js.VNum x => ToString x
  | Js.VBool true => "true"
  | Js.VBool false => "false"
  | Js.VNull => "null"
  | Js.VUndefined => "undefined"
  | _ => "[object Object]"
  end.

(** [None] stands for the [TypeError] of [lat.toFixed] when the geometry is
    not a point with two numbers. *)
Definition getLocationDescription (event : IEvent Js.number) : option string :=
  let p := properties event in
  if Js.truthy_value (Js.get "place" p) then Some ("near " +:+ display (Js.get "place" p))
  else if Js.truthy_value (Js.get "location_name" p)
  then Some ("in " +:+ display (Js.get "location_name" p))
  else if Js.truthy_value (Js.get "city" p) then Some ("in " +:+ display (Js.get "city" p))
  else
    match geometry event with
    | Point (lng :: lat :: _) =>
        Some ("at " +:+ Js.toFixed lat 2 +:+ "°N, " +:+ Js.toFixed lng 2 +:+ "°E")
    | _ => None
    end.

Definition getEarthquakeGuidance (magnitude : Js.number) : string :=
  if (7.0 <=? magnitude)%float then "Major earthquake - expect significant damage."
  else if (6.0 <=? magnitude)%float then "Strong earthquake - potential for damage."
  else if (5.0 <=? magnitude)%float then "Moderate earthquake - may be widely felt."
  else "Light earthquake - minimal damage expected.".

Definition getFloodGuidance (severity : Js.number) : string :=
  if (8.0 <=? severity)%float then "Severe flooding expected - evacuate if advised."
  else if (6.0 <=? severity)%float then "Significant flooding possible - avoid travel."
  else "Minor flooding possible - exercise caution.".

(** [v && v > k] for a property that holds a number. *)
Definition exceeds (v : Js.Value) (k : Js.number) : bool :=
  match v with
  | Js.VNum x => Js.truthy x && (k <? x)%float
  | _ => false
  end.

Definition getStormGuidance (p : list (string * Js.Value)) : string :=
  let windSpeed := Js.get "wind_speed" p in
  if exceeds windSpeed 25 then "Hurricane-force winds possible."
  else if exceeds windSpeed 15 then "Strong winds and heavy rain expected."
  else "Severe weather conditions developing.".

Definition getFireGuidance (p : list (string * Js.Value)) : string :=
  let brightness := Js.get "brightness" p in
  if exceeds brightness 380 then "High-intensity fire detected."
  else "Active fire in the area.".

Definition generateAlertContent (event : IEvent Js.number) : option AlertContent :=
  let severity := severity event in
  location ← getLocationDescription event;
  Some
    match type event with
    | earthquake =>
        let magnitude := Js.toFixed severity 1 in
        {| title := "M" +:+ magnitude +:+ " Earthquake " +:+ location;
           body := "A magnitude " +:+ magnitude +:+ " earthquake occurred " +:+ location
                     +:+ ". " +:+ getEarthquakeGuidance severity;
           action := if (6.0 <=? severity)%float then "Take immediate shelter"
                     else "Stay alert for aftershocks" |}
    | flood =>
        {| title := "Flood Alert " +:+ location;
           body := "Flooding conditions detected " +:+ location +:+ ". "
                     +:+ getFloodGuidance severity;
           action := "Avoid low-lying areas and flooded roads" |}
    | storm =>
        {| title := "Severe Weather " +:+ location;
           body := "Severe weather conditions " +:+ location +:+ ". "
                     +:+ getStormGuidance (properties event);
           action := "Stay indoors and avoid travel" |}
    | fire =>
        {| title := "Wildfire Alert " +:+ location;
           body := "Active wildfire detected " +:+ location +:+ ". "
                     +:+ getFireGuidance (properties event);
           action := "Monitor evacuation routes and air quality" |}
    | aqi =>
        let aqi := Js.value_or (Js.get "aqi" (properties event))
                     (Js.VNum (Js.Math_round (severity * 25)%float)) in
        {| title := "Air Quality Alert " +:+ location;
           body := "Air quality is "
                     +:+ display (Js.value_or (Js.get "aqi_category" (properties event))
                                    (Js.VStr "unhealthy"))
                     +:+ " (AQI: " +:+ display aqi +:+ ") " +:+ location;
           action := "Limit outdoor activities, use masks if necessary" |}
    end.

(** [$geoWithin: { $box: [[minLng, minLat], [maxLng, maxLat]] }] on a point. *)
Definition within_box (bbox : list Js.number) (point : list Js.number) : bool :=
  let minLng := Js.at_ bbox 0 in
  let minLat := Js.at_ bbox 1 in
  let maxLng := Js.at_ bbox 2 in
  let maxLat := Js.at_ bbox 3 in
  let lng := Js.at_ point 0 in
  let lat := Js.at_ point 1 in
  (minLng <=? lng)%float && (lng <=? maxLng)%float
  && (minLat <=? lat)%float && (lat <=? maxLat)%float.

Definition non_empty {A} (l : list A) : bool :=
  match l with [] => false | _ => true end.

Definition findAffectedSubscriptions (subs : Subscription.Store) (event : IEvent Js.number)
  : list Subscription.ISubscription :=
  List.filter
    (fun sub => within_box (area_bbox event) (Subscription.location sub)
                && non_empty (Subscription.channels sub))
    (map snd (map_to_list subs)).

Definition has_channel (c : string) (sub : Subscription.ISubscription) : bool :=
  existsb (String.eqb c) (Subscription.channels sub).

(** [sendAlert]: only web push is sent; a failed push is caught, and then
    the socket message to the subscription's room is not emitted. *)
Definition sendAlert (now : Js.Date) (subscription : Subscription.ISubscription)
  (event : IEvent Js.number) (content : AlertContent) : list Effect :=
  let alertId := "alert-" +:+ _id event +:+ "-" +:+ Subscription._id subscription
                   +:+ "-" +:+ pretty now in
  match Subscription.push subscription with
  | Some push =>
      if has_channel "webpush" subscription then
        WebPush push content (_id event)
          :: (if push_delivers push then
                [ EmitTo ("alerts:" +:+ Subscription._id subscription)
                    {| alert_id := alertId;
                       alert_type := type event;
                       alert_severity := severity event;
                       alert_title := title content;
                       alert_body := body content;
                       alert_action := action content;
                       alert_location := geometry event;
                       timestamp := now |} ]
              else [])
      else []
  | None => []
  end.

Definition new_event_notice (event : IEvent Js.number) (content : AlertContent)
  : NewEventNotice :=
  {| notice_id := _id event;
     notice_type := type event;
     notice_severity := severity event;
     notice_location := geometry event;
     message := title content |}.

(** [processEventAlerts]: the effects of one event.  The early [return] for
    an empty list of affected subscriptions and the [catch] around the body
    both end the function before the global broadcast. *)
Definition processEventAlerts (now : Js.Date) (subs : Subscription.Store)
  (event : IEvent Js.number) : list Effect :=
  let affectedSubscriptions := findAffectedSubscriptions subs event in
  match affectedSubscriptions with
  | [] => []
  | _ =>
      match generateAlertContent event with
      | None => []
      | Some alertContent =>
          flat_map (fun subscription => sendAlert now subscription event alertContent)
            affectedSubscriptions
          ++ [ EmitGlobal (new_event_notice event alertContent) ]
      end
  end.

(** The query of [processNewEvents]: ingested in the last ten minutes,
    severity at least 4.0, optionally of one type. *)
Definition EventType_eqb (a b : EventType) : bool :=
  match a, b with
  | earthquake, earthquake | flood, flood | aqi, aqi | storm, storm | fire, fire => true
  | _, _ => false
  end.

Definition is_recent (now : Js.Date) (eventType : option EventType)
  (event : IEvent Js.number) : bool :=
  (now - 10 * 60 * 1000 <=? ingested_at event)
  && (4.0 <=? severity event)%float
  && match eventType with
     | Some t => EventType_eqb (type event) t
     | None => true
     end.

Definition recentEvents (now : Js.Date) (eventType : option EventType) (db : Store)
  : list (IEvent Js.number) :=
  List.filter (is_recent now eventType) (map snd (map_to_list db)).

Definition processNewEvents (now : Js.Date) (eventType : option EventType)
  (db : Store) (subs : Subscription.Store) : list Effect :=
  flat_map (processEventAlerts now subs) (recentEvents now eventType db).

End Fanout.

End AlertService.

(** ** services/AlertService.ts: the risk assessment engine

    [assessCurrentRisk] and its helpers, over the real numbers: [number] is
    read as [R], so [NaN], the infinities and rounding are outside this
    component's model.  [recentEvents] is what the store's query returned
    (events near the point whose [starts_at] is not older than 24 hours,
    by decreasing severity, at most ten); the query has no upper bound on
    [starts_at]. *)

Module RiskEngine.
Import Event.
#[local] Open Scope R_scope.

(** [Math.round]: floor (x + 1/2). *)
Definition Math_round (x : R) : R := IZR (up (x + / 2) - 1).

(** [Math.atan2] on reals. *)
Definition atan2 (y x : R) : R :=
  if Rlt_dec 0 x then atan (y / x)
  else if Rlt_dec x 0 then (if Rle_dec 0 y then atan (y / x) + PI else atan (y / x) - PI)
  else if Rlt_dec 0 y then PI / 2
  else if Rlt_dec y 0 then - PI / 2
  else 0.

Definition calculateDistance (lat1 lng1 lat2 lng2 : R) : R :=
  let R_earth := 6371 in
  let dLat := (lat2 - lat1) * PI / 180 in
  let dLng := (lng2 - lng1) * PI / 180 in
  let a := sin (dLat / 2) * sin (dLat / 2) +
           cos (lat1 * PI / 180) * cos (lat2 * PI / 180) *
           sin (dLng / 2) * sin (dLng / 2) in
  let c := 2 * atan2 (sqrt a) (sqrt (1 - a)) in
  R_earth * c.

(** [(Date.now() - t.getTime()) / (1000 * 60 * 60)] *)
Definition hours_since (now eventTime : Js.Date) : R :=
  IZR (now - eventTime) / (1000 * 60 * 60).

Definition calculateTimeDecay (now eventTime : Js.Date) : R :=
  let hoursAgo := hours_since now eventTime in
  Rmax 0.1 (exp (- hoursAgo / 12)).

Definition calculateDistanceDecay (distance maxRadius : R) : R :=
  Rmax 0.1 (1 - distance / maxRadius).

Definition scoreToLevel (score : R) : string :=
  if Rle_dec 7.0 score then "very high"
  else if Rle_dec 5.5 score then "high"
  else if Rle_dec 4.0 score then "moderate"
  else if Rle_dec 2.0 score then "low"
  else "very low".

Record EventSummary := mkSummary {
  summary_id : string;
  summary_severity : R;
  distance_km : R;
  age_hours : R
}.

Record Risk := mkRisk { level : string; score : R; events : list EventSummary }.

(** [riskAssessment.risks], one entry per hazard type. *)
Record Risks := mkRisks {
  r_earthquake : Risk;
  r_flood : Risk;
  r_storm : Risk;
  r_fire : Risk;
  r_aqi : Risk
}.

Definition risk_of (t : EventType) (rs : Risks) : Risk :=
  match t with
  | earthquake => r_earthquake rs
  | flood => r_flood rs
  | storm => r_storm rs
  | fire => r_fire rs
  | aqi => r_aqi rs
  end.

Definition map_risk (t : EventType) (f : Risk -> Risk) (rs : Risks) : Risks :=
  match t with
  | earthquake => mkRisks (f (r_earthquake rs)) (r_flood rs) (r_storm rs) (r_fire rs) (r_aqi rs)
  | flood => mkRisks (r_earthquake rs) (f (r_flood rs)) (r_storm rs) (r_fire rs) (r_aqi rs)
  | storm => mkRisks (r_earthquake rs) (r_flood rs) (f (r_storm rs)) (r_fire rs) (r_aqi rs)
  | fire => mkRisks (r_earthquake rs) (r_flood rs) (r_storm rs) (f (r_fire rs)) (r_aqi rs)
  | aqi => mkRisks (r_earthquake rs) (r_flood rs) (r_storm rs) (r_fire rs) (f (r_aqi rs))
  end.

Definition all_types : list EventType := [earthquake; flood; storm; fire; aqi].

Record RiskAssessment := mkAssessment {
  location : R * R;
  assessed_at : Js.Date;
  overall_risk : string;
  risk_score : R;
  active_events : nat;
  risks : Risks
}.

(** [event.geometry.coordinates[i]] of a point event. *)
Definition coordinate (g : Geometry R) (i : nat) : R :=
  match g with
  | Point c => nth i c 0
  | Polygon _ => 0
  end.

(** [event.severity * timeDecay * distanceDecay] *)
Definition adjustedSeverity (now : Js.Date) (lat lng radiusKm : R) (event : IEvent R) : R :=
  let distance := calculateDistance lat lng (coordinate (geometry event) 1)
                    (coordinate (geometry event) 0) in
  let timeDecay := calculateTimeDecay now (starts_at event) in
  let distanceDecay := calculateDistanceDecay distance radiusKm in
  severity event * timeDecay * distanceDecay.

(** One iteration of [for (const event of recentEvents)]. *)
Definition score_event (now : Js.Date) (lat lng radiusKm : R) (rs : Risks)
  (event : IEvent R) : Risks :=
  let distance := calculateDistance lat lng (coordinate (geometry event) 1)
                    (coordinate (geometry event) 0) in
  map_risk (type event)
    (fun risk =>
       {| level := level risk;
          score := Rmax (score risk) (adjustedSeverity now lat lng radiusKm event);
          events := events risk ++
                    [ {| summary_id := _id event;
                         summary_severity := severity event;
                         distance_km := Math_round distance;
                         age_hours := Math_round (hours_since now (starts_at event)) |} ] |})
    rs.

Definition initial_risks : Risks :=
  let r := {| level := "low"; score := 0; events := [] |} in
  mkRisks r r r r r.

Definition with_level (risk : Risk) : Risk :=
  {| level := scoreToLevel (score risk); score := score risk; events := events risk |}.

Definition assessCurrentRisk (now : Js.Date) (lat lng radiusKm : R)
  (recentEvents : list (IEvent R)) : RiskAssessment :=
  let rs := fold_left (score_event now lat lng radiusKm) recentEvents initial_risks in
  let rs := fold_right (fun t acc => map_risk t with_level acc) rs all_types in
  let maxScore := fold_left (fun m t => Rmax m (score (risk_of t rs))) all_types 0 in
  {| location := (lat, lng);
     assessed_at := now;
     overall_risk := scoreToLevel maxScore;
     risk_score := Math_round (maxScore * 10) / 10;
     active_events := length recentEvents;
     risks := rs |}.

End RiskEngine.

(** ** routes/subscriptions.ts *)

Module SubscriptionsRoute.
Import Subscription.

(** A request body: each field as sent, [None] when absent. *)
Record Body := mkBody {
  b_email : option string;
  b_phone : option string;
  b_push : option PushSubscription;
  b_location : option (Js.number * Js.number);      (* lat, lng *)
  b_radius_km : option Js.number;
  b_channels : option (list string);
  b_language : option string
}.

Inductive Response :=
| Ok (subscription : ISubscription) (message : string)
| BadRequest (error : string)
| NotFound (error : string)
| ServerError (error : string).

(** [x || undefined] on a string. *)
Definition or_undefined (x : option string) : option string :=
  match x with
  | Some s => if Js.truthy_str s then Some s else None
  | None => None
  end.

Definition listed (c : string) (channels : list string) : bool :=
  existsb (String.eqb c) channels.

(** The schema's validators: [channels] within the enum, [radius_km]
    between its [min] and [max]. *)
Definition channel_in_enum (c : string) : bool :=
  String.eqb c "webpush" || String.eqb c "email" || String.eqb c "sms".

Definition radius_in_range (r : Js.number) : bool :=
  (1 <=? r)%float && (r <=? 100)%float.

(** [Subscription.findOne(filter)]: some document that matches. *)
Definition findOne (p : ISubscription -> bool) (subs : Store) : option ISubscription :=
  head (List.filter p (map snd (map_to_list subs))).

Definition same_str (a : string) (o : option string) : bool :=
  match o with Some b => String.eqb a b | None => false end.

Definition find_existing (email phone : option string) (push : option PushSubscription)
  (subs : Store) : option ISubscription :=
  match or_undefined email with
  | Some e => findOne (fun s => same_str e (Subscription.email s)) subs
  | None =>
      match or_undefined phone with
      | Some ph => findOne (fun s => same_str ph (Subscription.phone s)) subs
      | None =>
          match push with
          | Some p =>
              if Js.truthy_str (endpoint p)
              then findOne (fun s => match Subscription.push s with
                                     | Some q => String.eqb (endpoint p) (endpoint q)
                                     | None => false
                                     end) subs
              else None
          | None => None
          end
      end
  end.

(** [findByIdAndUpdate(existing._id, subscriptionData, ...)]: [$set] of the
    fields of the creation payload on the existing document.  A field that
    is [undefined] in the payload is left as it was, and the document keeps
    its [_id]. *)
Definition apply_data (old data : ISubscription) : ISubscription :=
  {| _id := _id old;
     email := match email data with Some e => Some e | None => email old end;
     phone := match phone data with Some ph => Some ph | None => phone old end;
     push := match push data with Some p => Some p | None => push old end;
     location := location data;
     radius_km := radius_km data;
     channels := channels data;
     language := language data;
     created_at := created_at data |}.

(** [router.post('/')]: create or update a subscription.  [uuid] is the
    identifier [uuidv4()] returns. *)
Definition post (uuid : string) (now : Js.Date) (body : Body) (subs : Store)
  : Store * Response :=
  match b_location body with
  | None => (subs, BadRequest "Location (lat, lng) is required")
  | Some (lat, lng) =>
    if negb (Js.truthy lat) || negb (Js.truthy lng)
    then (subs, BadRequest "Location (lat, lng) is required")
    else
    match b_channels body with
    | None | Some [] => (subs, BadRequest "At least one notification channel is required")
    | Some channels =>
      match b_radius_km body with
      | None => (subs, BadRequest "Radius must be between 1 and 100 km")
      | Some radius_km =>
        if negb (Js.truthy radius_km) || (radius_km <? 1)%float || (100 <? radius_km)%float
        then (subs, BadRequest "Radius must be between 1 and 100 km")
        else if listed "email" channels && negb (Js.truthy_ostr (b_email body))
        then (subs, BadRequest "Email is required for email notifications")
        else if listed "sms" channels && negb (Js.truthy_ostr (b_phone body))
        then (subs, BadRequest "Phone number is required for SMS notifications")
        else if listed "webpush" channels && negb (bool_decide (is_Some (b_push body)))
        then (subs, BadRequest "Push subscription is required for web push notifications")
        else
          let subscriptionData :=
            {| _id := uuid;
               email := or_undefined (b_email body);
               phone := or_undefined (b_phone body);
               push := b_push body;
               location := [lng; lat];
               radius_km := radius_km;
               channels := channels;
               language := default "en" (b_language body);
               created_at := now |} in
          if forallb channel_in_enum channels && radius_in_range radius_km then
            match find_existing (b_email body) (b_phone body) (b_push body) subs with
            | Some existing =>
                let subscription := apply_data existing subscriptionData in
                (<[_id existing := subscription]> subs, Ok subscription "Subscription updated")
            | None =>
                (<[uuid := subscriptionData]> subs, Ok subscriptionData "Subscription created")
            end
          else (subs, ServerError "Failed to create subscription")
      end
    end
  end.

(** [$set] of the fields present in the body of a PUT; [location] is
    rewritten to a point first. *)
Definition apply_updates (old : ISubscription) (updates : Body) : ISubscription :=
  {| _id := _id old;
     email := match b_email updates with Some e => Some e | None => email old end;
     phone := match b_phone updates with Some ph => Some ph | None => phone old end;
     push := match b_push updates with Some p => Some p | None => push old end;
     location := match b_location updates with
                 | Some (lat, lng) => [lng; lat]
                 | None => location old
                 end;
     radius_km := default (radius_km old) (b_radius_km updates);
     channels := default (channels old) (b_channels updates);
     language := default (language old) (b_language updates);
     created_at := created_at old |}.

(** The update validators ([runValidators: true]) see the updated paths. *)
Definition updates_valid (updates : Body) : bool :=
  match b_channels updates with Some cs => forallb channel_in_enum cs | None => true end
  && match b_radius_km updates with Some r => radius_in_range r | None => true end.

(** [router.put('/:subscriptionId')] *)
Definition put (subscriptionId : string) (updates : Body) (subs : Store)
  : Store * Response :=
  if updates_valid updates then
    match subs !! subscriptionId with
    | Some old =>
        let subscription := apply_updates old updates in
        (<[subscriptionId := subscription]> subs, Ok subscription "Subscription updated")
    | None => (subs, NotFound "Subscription not found")
    end
  else (subs, ServerError "Failed to update subscription").

(** The invariant of the data model: every listed channel has its contact
    datum. *)
Definition channel_has_contact (s : ISubscription) (c : string) : bool :=
  if String.eqb c "email" then Js.truthy_ostr (email s)
  else if String.eqb c "sms" then Js.truthy_ostr (phone s)
  else if String.eqb c "webpush" then bool_decide (is_Some (push s))
  else true.

Definition channels_have_contacts (s : ISubscription) : bool :=
  forallb (channel_has_contact s) (channels s).

End SubscriptionsRoute.

(** ** routes/risk.ts: the heat-map request *)

Module RiskRoute.

Record HeatmapQuery := mkQuery {
  bbox : option string;
  resolution : option string
}.

Inductive HeatmapResponse :=
| BadRequest (error : string)
| GridOf (west south east north gridResolution : Js.number)
         (gridPoints : list (Js.number * Js.number))
| Diverges.

Section Heatmap.

(** [Number(s)], the platform's conversion of a string to a number. *)
Variable Number : string -> Js.number.

(** The inner loop [for (lng = west; lng <= east; lng += res)], with a bound
    on the number of iterations; [None] when the bound is reached. *)
Fixpoint grid_row (fuel : nat) (lat lng east res : Js.number)
  (acc : list (Js.number * Js.number)) : option (list (Js.number * Js.number)) :=
  match fuel with
  | O => None
  | S fuel' =>
      if (lng <=? east)%float
      then grid_row fuel' lat (lng + res)%float east res (acc ++ [(lat, lng)])
      else Some acc
  end.

Fixpoint grid_rows (fuel : nat) (lat north west east res : Js.number)
  (acc : list (Js.number * Js.number)) : option (list (Js.number * Js.number)) :=
  match fuel with
  | O => None
  | S fuel' =>
      if (lat <=? north)%float
      then match grid_row fuel lat west east res acc with
           | Some acc' => grid_rows fuel' (lat + res)%float north west east res acc'
           | None => None
           end
      else Some acc
  end.

(** [router.get('/heatmap')] up to the grid; each grid point is then
    assessed with radius 25. *)
Definition heatmap (fuel : nat) (q : HeatmapQuery) : HeatmapResponse :=
  match bbox q with
  | None => BadRequest "Bounding box (bbox) is required"
  | Some EmptyString => BadRequest "Bounding box (bbox) is required"
  | Some bbox =>
      let parts := map Number (Js.split "," bbox) in
      let west := Js.at_ parts 0 in
      let south := Js.at_ parts 1 in
      let east := Js.at_ parts 2 in
      let north := Js.at_ parts 3 in
      let gridResolution :=
        match resolution q with Some r => Number r | None => 0.1%float end in
      if negb (Js.truthy west) || negb (Js.truthy south)
         || negb (Js.truthy east) || negb (Js.truthy north)
      then BadRequest "Invalid bounding box format. Use: west,south,east,north"
      else
        match grid_rows fuel south north west east gridResolution [] with
        | None => Diverges
        | Some gridPoints =>
            if (1000 <? length gridPoints)%nat
            then BadRequest "Grid too large. Reduce area or increase resolution."
            else GridOf west south east north gridResolution gridPoints
        end
  end.

End Heatmap.

(** [Number(s)] on plain decimal literals: an optional sign, digits, and an
    optional fraction.  Any other text is [NaN] here. *)
Fixpoint digits_value (s : string) (acc : Z) : option Z :=
  match s with
  | EmptyString => Some acc
  | String c r =>
      let n := nat_of_ascii c in
      if ((48 <=? n) && (n <=? 57))%nat
      then digits_value r (10 * acc + Z.of_nat (n - 48))
      else None
  end.

Definition unsigned_decimal (s : string) : Js.number :=
  match Js.split "." s with
  | [i] =>
      match i, digits_value i 0 with
      | String _ _, Some v => Js.of_Z v
      | _, _ => PrimFloat.nan
      end
  | [i; f] =>
      match digits_value i 0, digits_value f 0 with
      | Some vi, Some vf =>
          match i, f with
          | EmptyString, EmptyString => PrimFloat.nan
          | _, _ =>
              (Js.of_Z (vi * 10 ^ Z.of_nat (String.length f) + vf)
               / Js.of_Z (10 ^ Z.of_nat (String.length f)))%float
          end
      | _, _ => PrimFloat.nan
      end
  | _ => PrimFloat.nan
  end.

Definition Number_decimal (s : string) : Js.number :=
  match s with
  | EmptyString => 0%float
  | String "-" r => PrimFloat.opp (unsigned_decimal r)
  | String "+" r => unsigned_decimal r
  | _ => unsigned_decimal s
  end.

End RiskRoute.

(** ** The ingestion routes: the batch endpoint [POST /all] *)

Module IngestRoute.
Import Event.

(** What the upstream feeds would answer at the time of the request. *)
Record Upstream := mkUpstream {
  usgs_feed : Settled (list USGSService.Feature);
  eonet_feed : Settled (list NASAService.EONETEvent);
  firms_feeds : list (string * Settled (option (list NASAService.FireRow)));
  openweather_key : option string;
  openweather_feeds : list (OpenWeatherService.Location * Settled OpenWeatherService.OneCall);
  openaq_feeds : list (string * Settled (option (list OpenAQService.Measurement)))
}.

(** One entry of [results]. *)
Record SourceResult := mkResult {
  source : string;
  success : bool;
  counts : option Counts;
  error : option string
}.

Definition report (source : string) (r : Settled Counts) : SourceResult :=
  match r with
  | Fulfilled value => mkResult source true (Some value) None
  | Rejected message => mkResult source false None (Some message)
  end.

(** [r.inserted || 0] and [r.updated || 0] *)
Definition inserted_or_0 (r : SourceResult) : nat :=
  match counts r with Some c => inserted c | None => 0%nat end.
Definition updated_or_0 (r : SourceResult) : nat :=
  match counts r with Some c => updated c | None => 0%nat end.

Record BatchResponse := mkBatch {
  total_sources : nat;
  total_inserted : nat;
  total_updated : nat;
  results : list SourceResult;
  alerts_triggered : bool
}.

(** [router.post('/all')].  The four calls handed to [Promise.allSettled]
    write disjoint identifiers; they are run here in the order listed. *)
Definition post_all (up : Upstream) (now : Js.Date) (db : Store) : Store * BatchResponse :=
  let '(db, usgsResult) := USGSService.ingestEarthquakes (usgs_feed up) now db in
  let '(db, eonetResult) := NASAService.ingestEONETEvents (eonet_feed up) now db in
  let '(db, weatherResult) :=
    OpenWeatherService.ingestWeatherAlerts (openweather_key up) (openweather_feeds up) now db in
  let '(db, aqResult) := OpenAQService.ingestAirQualityData (openaq_feeds up) now db in
  let results :=
    [ report "usgs" usgsResult;
      report "nasa-eonet" eonetResult;
      report "openweather" weatherResult;
      report "openaq" aqResult ] in
  let totalInserted := fold_left (fun sum r => (sum + inserted_or_0 r)%nat) results 0%nat in
  (db,
   {| total_sources := length results;
      total_inserted := totalInserted;
      total_updated := fold_left (fun sum r => (sum + updated_or_0 r)%nat) results 0%nat;
      results := results;
      alerts_triggered := (0 <? totalInserted)%nat |}).

End IngestRoute.

(** ** Concrete inputs used by the examples below *)

Module Scenario.
Import Event.

(** A magnitude 5.2 earthquake at latitude 3.0, longitude 101.0. *)
Definition quake : USGSService.Feature :=
  {| USGSService.id := "us7000abcd";
     USGSService.mag := 5.2%float;
     USGSService.time := 1700000000000;
     USGSService.coordinates := [101%float; 3%float; 10%float];
     USGSService.place := Js.VStr "42 km W of Kuala Lumpur, Malaysia";
     USGSService.magType := Js.VStr "mww";
     USGSService.alert := Js.VNull;
     USGSService.tsunami := Js.VNum 0;
     USGSService.url := Js.VStr "https://earthquake.usgs.gov/earthquakes/eventpage/us7000abcd";
     USGSService.felt := Js.VNull;
     USGSService.sig := Js.VNum 416 |}.

(** Two polls of the hourly feed, five minutes apart. *)
Definition first_poll : Js.Date := 1700000100000.
Definition second_poll : Js.Date := 1700000400000.

Definition after_first_poll : Store :=
  (USGSService.ingestEarthquakes (Fulfilled [quake]) first_poll ∅).1.

(** Closeness of two boxes, coordinate by coordinate. *)
Definition close_to (tol a b : Js.number) : bool :=
  (PrimFloat.abs (a - b) <=? tol)%float.

Fixpoint boxes_close (tol : Js.number) (xs ys : list Js.number) : bool :=
  match xs, ys with
  | [], [] => true
  | x :: xs', y :: ys' => close_to tol x y && boxes_close tol xs' ys'
  | _, _ => false
  end.

(** The weather feed: strong wind over Kuala Lumpur, no alert issued. *)
Definition kuala_lumpur : OpenWeatherService.Location :=
  {| OpenWeatherService.lat := 3.1390%float;
     OpenWeatherService.lng := 101.6869%float;
     OpenWeatherService.name := "kuala-lumpur" |}.

Definition strong_wind : OpenWeatherService.Current :=
  {| OpenWeatherService.temp := 300.15%float;
     OpenWeatherService.feels_like := 303.15%float;
     OpenWeatherService.humidity := Some 80%float;
     OpenWeatherService.pressure := Js.VNum 1008;
     OpenWeatherService.wind_speed := Some 20%float;
     OpenWeatherService.wind_deg := Js.VNum 240;
     OpenWeatherService.weather :=
       [ (Js.VStr "Thunderstorm", Js.VStr "thunderstorm with heavy rain") ] |}.

Definition weather_answer : list (OpenWeatherService.Location * Settled OpenWeatherService.OneCall) :=
  [ (kuala_lumpur,
     Fulfilled {| OpenWeatherService.alerts := None;
                  OpenWeatherService.current := Some strong_wind |}) ].

(** An orbital-event record with a point geometry. *)
Definition wildfire : NASAService.EONETEvent :=
  {| NASAService.id := "EONET_6512";
     NASAService.title := "Major Wildfire, Sumatra";
     NASAService.description := Js.VNull;
     NASAService.category_id := 8%float;
     NASAService.category_title := Js.VStr "Wildfires";
     NASAService.link := Js.VStr "https://eonet.gsfc.nasa.gov/api/v3/events/EONET_6512";
     NASAService.closed := Js.VNull;
     NASAService.magnitudeValue := Js.VNull;
     NASAService.magnitudeUnit := Js.VNull;
     NASAService.geometries :=
       Some [ {| NASAService.shape := Point [101.5%float; 0.5%float];
                 NASAService.date := 1699990000000 |} ] |}.

Definition wildfire_geometry : NASAService.EONETGeometry :=
  {| NASAService.shape := Point [101.5%float; 0.5%float];
     NASAService.date := 1699990000000 |}.

(** Air-quality measurements at one station: PM2.5 of 60.2 µg/m³. *)
Definition pm25_reading : OpenAQService.Measurement :=
  {| OpenAQService.coordinates := Some (3.1390%float, 101.6869%float);
     OpenAQService.value := 60.2%float;
     OpenAQService.parameter := "pm25";
     OpenAQService.unit := "µg/m³";
     OpenAQService.date_utc := 1700000000000;
     OpenAQService.location := Js.VStr "Cheras";
     OpenAQService.city := Js.VStr "Kuala Lumpur";
     OpenAQService.country_code := Js.VStr "MY";
     OpenAQService.sourceName := Js.VStr "DOE Malaysia";
     OpenAQService.mobile := Js.VUndefined |}.

(** The same station on a cleaner day: PM2.5 of 28.3 µg/m³, an AQI of 85. *)
Definition moderate_reading : OpenAQService.Measurement :=
  {| OpenAQService.coordinates := Some (3.1390%float, 101.6869%float);
     OpenAQService.value := 28.3%float;
     OpenAQService.parameter := "pm25";
     OpenAQService.unit := "µg/m³";
     OpenAQService.date_utc := 1700000000000;
     OpenAQService.location := Js.VStr "Cheras";
     OpenAQService.city := Js.VStr "Kuala Lumpur";
     OpenAQService.country_code := Js.VStr "MY";
     OpenAQService.sourceName := Js.VStr "DOE Malaysia";
     OpenAQService.mobile := Js.VUndefined |}.

(** A subscriber in Kuala Lumpur, reachable by e-mail only. *)
Definition subscriber : Subscription.ISubscription :=
  {| Subscription._id := "7f9c2e1a-sub";
     Subscription.email := Some "amir@example.org";
     Subscription.phone := None;
     Subscription.push := None;
     Subscription.location := [101.6869%float; 3.1390%float];
     Subscription.radius_km := 50%float;
     Subscription.channels := ["email"];
     Subscription.language := "en";
     Subscription.created_at := 1699000000000 |}.

Definition subscribers : Subscription.Store := {[ "7f9c2e1a-sub" := subscriber ]}.

(** The body of a PUT that switches the subscription to SMS. *)
Definition switch_to_sms : SubscriptionsRoute.Body :=
  {| SubscriptionsRoute.b_email := None;
     SubscriptionsRoute.b_phone := None;
     SubscriptionsRoute.b_push := None;
     SubscriptionsRoute.b_location := None;
     SubscriptionsRoute.b_radius_km := None;
     SubscriptionsRoute.b_channels := Some ["sms"];
     SubscriptionsRoute.b_language := None |}.

(** A browser subscription with a push endpoint, at the same place. *)
Definition browser : Subscription.ISubscription :=
  {| Subscription._id := "c41d77aa-sub";
     Subscription.email := None;
     Subscription.phone := None;
     Subscription.push :=
       Some {| Subscription.endpoint := "https://push.example.net/send/abc";
               Subscription.p256dh := "BNc";
               Subscription.auth := "k9" |};
     Subscription.location := [101.6869%float; 3.1390%float];
     Subscription.radius_km := 25%float;
     Subscription.channels := ["webpush"];
     Subscription.language := "en";
     Subscription.created_at := 1699000000000 |}.

Definition browsers : Subscription.Store := {[ "c41d77aa-sub" := browser ]}.

(** One fire detection of the FIRMS feed. *)
Definition hotspot : NASAService.FireRow :=
  {| NASAService.latitude := Some 0.5123%float;
     NASAService.longitude := Some 101.4456%float;
     NASAService.confidence_pct := 85%float;
     NASAService.brightness := 355.2%float;
     NASAService.acq_date := "2023-11-13";
     NASAService.acq_instant := 1699858800000;
     NASAService.scan := 0.4%float;
     NASAService.track := 0.4%float;
     NASAService.satellite := "N";
     NASAService.instrument := "VIIRS";
     NASAService.version := "2.0NRT";
     NASAService.bright_t31 := 290.1%float;
     NASAService.frp := 12.5%float;
     NASAService.daynight := "D" |}.

(** The feeds at a moment when the seismic feed is unreachable. *)
Definition seismic_down : IngestRoute.Upstream :=
  {| IngestRoute.usgs_feed :=
       Rejected "request to https://earthquake.usgs.gov/ failed, reason: ETIMEDOUT";
     IngestRoute.eonet_feed := Fulfilled [wildfire];
     IngestRoute.firms_feeds := [ ("MYS", Fulfilled (Some [hotspot])) ];
     IngestRoute.openweather_key := Some "key";
     IngestRoute.openweather_feeds := weather_answer;
     IngestRoute.openaq_feeds := [ ("MY", Fulfilled (Some [pm25_reading])) ] |}.

(** A storm warning issued for tomorrow morning: severity 8.0, over the
    query point, starting twelve hours after the assessment. *)
Definition assessment_time : Js.Date := 1700000000000.

Definition forecast_storm : IEvent R :=
  {| _id := "openweather-kuala-lumpur-1700043200-Severe-Thunderstorm-Warning";
     source := "openweather";
     type := storm;
     severity := 8%R;
     confidence := 0.85%R;
     geometry := Point [101%R; 3%R];
     area_bbox := [(101 - 80 / 111)%R; (3 - 80 / 111)%R; (101 + 80 / 111)%R; (3 + 80 / 111)%R];
     starts_at := 1700043200000;
     ends_at := Some 1700064800000;
     properties := [ ("event_name", Js.VStr "Severe Thunderstorm Warning");
                     ("location_name", Js.VStr "kuala-lumpur") ];
     ingested_at := 1699999900000 |}.

End Scenario.

(** ** Re-ingestion of one upstream record *)

Module Reingestion.
Import Event.

(** [first] and [second] are the documents built for the same upstream
    record in two polls.  They share their identifier, and writing the
    second over the first leaves the set of stored identifiers and the
    number of stored events unchanged, the stored event being the second. *)
Definition stays_single (first second : IEvent Js.number) : Prop :=
  _id second = _id first /\
  forall db : Store,
    let db1 := (findOneAndUpdate first db).1 in
    let db2 := (findOneAndUpdate second db1).1 in
    dom db2 = dom db1 /\ size db2 = size db1 /\
    exists ev, db2 !! _id first = Some ev
               /\ ingested_at ev = ingested_at second
               /\ severity ev = severity second
               /\ area_bbox ev = area_bbox second.

(** [first] and [second] are stored side by side as two events. *)
Definition stored_twice (first second : IEvent Js.number) : Prop :=
  _id second <> _id first /\
  forall db : Store,
    let db2 := (findOneAndUpdate second (findOneAndUpdate first db).1).1 in
    is_Some (db2 !! _id first) /\ is_Some (db2 !! _id second).

(** Every document in the accumulator's store either was in [db] already
    or has severity at least 6. *)
Definition only_severe_added (db : Store) (acc : Store * Counts) : Prop :=
  forall id ev, acc.1 !! id = Some ev ->
                db !! id = Some ev \/ (6 <=? severity ev)%float = true.

End Reingestion.

(** ** routes/events.ts: the event listing *)

Module EventsRoute.
Import Event.

(** The query string of [GET /]; each parameter as sent, [None] when absent. *)
Record ListQuery := mkListQuery {
  bbox : option string;
  type_ : option string;
  source_ : option string;
  since : option string;
  until : option string;
  severity_min : option string;
  severity_max : option string;
  limit : option string;
  offset : option string
}.

(** The MongoDB query object the handler builds. *)
Record Query := mkQuery {
  q_box : option (Js.number * Js.number * Js.number * Js.number);
  q_types : option (list string);
  q_sources : option (list string);
  q_starts_gte : option Js.Date;
  q_starts_lte : option Js.Date;
  q_severity_gte : option Js.number;
  q_severity_lte : option Js.number
}.

Section Listing.

(** [Number(s)] and the time value of [new Date(s)]: the platform's. *)
Variable Number : string -> Js.number.
Variable Date_of : string -> Js.Date.

(** A query parameter that is present and not empty. *)
Definition given (p : option string) : option string :=
  match p with
  | Some s => if Js.truthy_str s then Some s else None
  | None => None
  end.

(** The box filter: set only when all four numbers are truthy. *)
Definition box_filter (bbox : option string)
  : option (Js.number * Js.number * Js.number * Js.number) :=
  match given bbox with
  | Some b =>
      let parts := map Number (Js.split "," b) in
      let west := Js.at_ parts 0 in
      let south := Js.at_ parts 1 in
      let east := Js.at_ parts 2 in
      let north := Js.at_ parts 3 in
      if Js.truthy west && Js.truthy south && Js.truthy east && Js.truthy north
      then Some (west, south, east, north)
      else None
  | None => None
  end.

Definition build_query (q : ListQuery) : Query :=
  {| q_box := box_filter (bbox q);
     q_types := Js.split "," <$> given (type_ q);
     q_sources := Js.split "," <$> given (source_ q);
     q_starts_gte := Date_of <$> given (since q);
     q_starts_lte := Date_of <$> given (until q);
     q_severity_gte := Number <$> given (severity_min q);
     q_severity_lte := Number <$> given (severity_max q) |}.

Definition type_name (t : EventType) : string :=
  match t with
  | earthquake => "earthquake"
  | flood => "flood"
  | aqi => "aqi"
  | storm => "storm"
  | fire => "fire"
  end.

Definition point_in_box (box : Js.number * Js.number * Js.number * Js.number)
  (c : list Js.number) : bool :=
  let '(west, south, east, north) := box in
  (west <=? Js.at_ c 0)%float && (Js.at_ c 0 <=? east)%float
  && (south <=? Js.at_ c 1)%float && (Js.at_ c 1 <=? north)%float.

(** [$geoWithin: { $box }]: a point inside the box, or a polygon with all
    its vertices inside. *)
Definition geometry_in_box (box : Js.number * Js.number * Js.number * Js.number)
  (g : Geometry Js.number) : bool :=
  match g with
  | Point c => point_in_box box c
  | Polygon rings => forallb (forallb (point_in_box box)) rings
  end.

Definition opt_test {A} (f : option A) (test : A -> bool) : bool :=
  match f with Some x => test x | None => true end.

(** Whether a stored event satisfies the query object. *)
Definition matches (query : Query) (e : IEvent Js.number) : bool :=
  opt_test (q_box query) (fun box => geometry_in_box box (geometry e))
  && opt_test (q_types query) (existsb (String.eqb (type_name (type e))))
  && opt_test (q_sources query) (existsb (String.eqb (source e)))
  && opt_test (q_starts_gte query) (fun d => d <=? starts_at e)
  && opt_test (q_starts_lte query) (fun d => starts_at e <=? d)
  && opt_test (q_severity_gte query) (fun x => (x <=? severity e)%float)
  && opt_test (q_severity_lte query) (fun x => (severity e <=? x)%float).

(** [Event.countDocuments(query)], the [total] of the pagination block. *)
Definition total (q : ListQuery) (db : Store) : nat :=
  length (List.filter (matches (build_query q)) (map snd (map_to_list db))).

End Listing.

End EventsRoute.

(** ** Vocabulary for the properties *)

Module Vocabulary.
Import Event.


Definition is_fulfilled {A} (r : Settled A) : bool :=
  match r with Fulfilled _ => true | Rejected _ => false end.



(** The five risk levels, from the lowest. *)
Definition level_rank (level : string) : nat :=
  if String.eqb level "very high" then 4
  else if String.eqb level "high" then 3
  else if String.eqb level "moderate" then 2
  else if String.eqb level "low" then 1
  else 0.

(** Every subscription is stored under its own identifier. *)
Definition well_keyed (subs : Subscription.Store) : Prop :=
  forall k s, subs !! k = Some s -> Subscription._id s = k.

(** The query of [GET /] with only a [bbox] parameter. *)
Definition bbox_only (b : string) : EventsRoute.ListQuery :=
  EventsRoute.mkListQuery (Some b) None None None None None None None None.

End Vocabulary.

(** * Properties *)

(** ** The event store and the insert / update classification *)

Section StoreFacts.
Import Event.

Lemma findOneAndUpdate_ingested_at (d : IEvent Js.number) (db : Store) :
  ingested_at (findOneAndUpdate d db).2 = ingested_at d.
Proof. unfold findOneAndUpdate. cbn. destruct (db !! _id d); reflexivity. Qed.

Lemma findOneAndUpdate_lookup (d : IEvent Js.number) (db : Store) :
  (findOneAndUpdate d db).1 !! _id d = Some (findOneAndUpdate d db).2.
Proof. unfold findOneAndUpdate. cbn. apply lookup_insert_eq. Qed.

Lemma findOneAndUpdate_other (d : IEvent Js.number) (db : Store) (k : string) :
  k ≠ _id d -> (findOneAndUpdate d db).1 !! k = db !! k.
Proof. intros Hk. unfold findOneAndUpdate. cbn. by rewrite lookup_insert_ne. Qed.

Lemma findOneAndUpdate_dom (d : IEvent Js.number) (db : Store) :
  dom (findOneAndUpdate d db).1 = {[ _id d ]} ∪ dom db.
Proof. unfold findOneAndUpdate. cbn. apply dom_insert_L. Qed.

(** The stored document carries the update's severity, type, box and times. *)
Lemma findOneAndUpdate_fields (d : IEvent Js.number) (db : Store) :
  type (findOneAndUpdate d db).2 = type d
  /\ severity (findOneAndUpdate d db).2 = severity d
  /\ area_bbox (findOneAndUpdate d db).2 = area_bbox d
  /\ geometry (findOneAndUpdate d db).2 = geometry d
  /\ starts_at (findOneAndUpdate d db).2 = starts_at d
  /\ properties (findOneAndUpdate d db).2 = properties d
  /\ source (findOneAndUpdate d db).2 = source d.
Proof. unfold findOneAndUpdate. cbn. destruct (db !! _id d); cbn; repeat split. Qed.

(** The comparison after the write always succeeds: the document returned
    with [new: true] already holds the [ingested_at] just written. *)
Lemma upsert_and_count_spec (d : IEvent Js.number) (db : Store) (c : Counts) :
  upsert_and_count d (db, c)
  = ((findOneAndUpdate d db).1, mkCounts (S (inserted c)) (updated c)).
Proof.
  unfold upsert_and_count.
  pose proof (findOneAndUpdate_ingested_at d db) as H.
  destruct (findOneAndUpdate d db) as [db' result]. cbn in *.
  rewrite H, Z.eqb_refl. reflexivity.
Qed.

Lemma upsert_and_count_updated (d : IEvent Js.number) (acc : Store * Counts) :
  updated (upsert_and_count d acc).2 = updated acc.2.
Proof. destruct acc as [db c]. rewrite upsert_and_count_spec. reflexivity. Qed.

End StoreFacts.

(** ** Seismic ingestion *)

Section Seismic.
Import Event USGSService.

Lemma ingest_feature_updated (now : Js.Date) (acc : Store * Counts) (f : Feature) :
  updated (ingest_feature now acc f).2 = updated acc.2.
Proof.
  unfold ingest_feature. destruct (mag f <? 2.5)%float; [reflexivity |].
  apply upsert_and_count_updated.
Qed.

Lemma ingest_features_updated (now : Js.Date) (fs : list Feature) (acc : Store * Counts) :
  updated (fold_left (ingest_feature now) fs acc).2 = updated acc.2.
Proof.
  revert acc. induction fs as [| f fs IH]; intros acc; cbn; [reflexivity |].
  rewrite IH. apply ingest_feature_updated.
Qed.

(** Whatever the store holds, a call of [ingestEarthquakes] reports no
    update: the [updated++] branch is unreachable. *)
Lemma ingestEarthquakes_never_updates (fs : list Feature) (now : Js.Date) (db : Store) :
  exists n, (ingestEarthquakes (Fulfilled fs) now db).2 = Fulfilled (mkCounts n 0).
Proof.
  unfold ingestEarthquakes.
  pose proof (ingest_features_updated now fs (db, mkCounts 0 0)) as H.
  destruct (fold_left _ fs _) as [db' [i u]]. cbn in *. subst u. by exists i.
Qed.

(** C1 (the code departs from the claim).  The earthquake [Scenario.quake]
    is ingested at [first_poll] and again at [second_poll].  The store then
    holds exactly one event for its id, with the fields of the second
    ingestion; but the second call reports [inserted = 1, updated = 0]: the
    re-ingested record is classified as an insert, not as an update. *)
Theorem usgs_reingest_classified_as_insert :
  let '(db2, second) :=
    ingestEarthquakes (Fulfilled [Scenario.quake]) Scenario.second_poll
      Scenario.after_first_poll in
  second = Fulfilled (mkCounts 1 0)
  /\ size db2 = 1%nat
  /\ db2 !! "usgs-us7000abcd" = Some (eventData Scenario.second_poll Scenario.quake)
  /\ Scenario.after_first_poll !! "usgs-us7000abcd"
     = Some (eventData Scenario.first_poll Scenario.quake).
Proof. vm_compute. repeat split. Qed.

Lemma stored_after_ingest (f : Feature) (now : Js.Date) (db : Store) :
  (mag f <? 2.5)%float = false ->
  exists ev,
    (ingestEarthquakes (Fulfilled [f]) now db).1 !! eventId f = Some ev
    /\ type ev = earthquake /\ severity ev = mag f
    /\ area_bbox ev = calculateBoundingBox (Js.at_ (coordinates f) 0)
                        (Js.at_ (coordinates f) 1) (mag f).
Proof.
  intros Hmag. unfold ingestEarthquakes. cbn. unfold ingest_feature. rewrite Hmag.
  rewrite upsert_and_count_spec. cbn.
  exists (findOneAndUpdate (eventData now f) db).2. split.
  - apply (findOneAndUpdate_lookup (eventData now f) db).
  - destruct (findOneAndUpdate_fields (eventData now f) db) as (Ht & Hs & Hb & _).
    rewrite Ht, Hs, Hb. repeat split.
Qed.

(** C3, as amended.  Ingesting a feed record of magnitude 5.2 at latitude
    3.0, longitude 101.0 stores an Event of type earthquake and severity 5.2
    whose box has radius max(10, 5.2 * 50) = 260 km, that is 260 / 111
    degrees: the box is [98.658, 0.658, 103.342, 5.342] to three decimals. *)
Theorem seismic_scenario_stored_event (f : Feature) (depth : list Js.number)
  (now : Js.Date) (db : Store) :
  mag f = 5.2%float ->
  coordinates f = 101%float :: 3%float :: depth ->
  exists ev,
    (ingestEarthquakes (Fulfilled [f]) now db).1 !! eventId f = Some ev
    /\ type ev = earthquake
    /\ severity ev = 5.2%float
    /\ Js.Math_max 10 (5.2 * 50)%float = 260%float
    /\ area_bbox ev = [ (101 - 260 / 111)%float; (3 - 260 / 111)%float;
                        (101 + 260 / 111)%float; (3 + 260 / 111)%float ]
    /\ Scenario.boxes_close 0.0005 (area_bbox ev)
         [98.658; 0.658; 103.342; 5.342]%float = true.
Proof.
  intros Hmag Hc.
  destruct (stored_after_ingest f now db) as (ev & Hev & Ht & Hs & Hb).
  { rewrite Hmag. reflexivity. }
  exists ev. rewrite Hev, Ht, Hs, Hb, Hmag, Hc. repeat split; reflexivity.
Qed.

Lemma seismic_scenario_stored_event_witness :
  exists ev,
    (ingestEarthquakes (Fulfilled [Scenario.quake]) Scenario.first_poll ∅).1
      !! eventId Scenario.quake = Some ev
    /\ type ev = earthquake
    /\ severity ev = 5.2%float
    /\ Js.Math_max 10 (5.2 * 50)%float = 260%float
    /\ area_bbox ev = [ (101 - 260 / 111)%float; (3 - 260 / 111)%float;
                        (101 + 260 / 111)%float; (3 + 260 / 111)%float ]
    /\ Scenario.boxes_close 0.0005 (area_bbox ev)
         [98.658; 0.658; 103.342; 5.342]%float = true.
Proof.
  apply (seismic_scenario_stored_event Scenario.quake [10%float]); reflexivity.
Defined.

(** C3, as claimed, fails: the stored box is not [100.766, 2.766, 101.234,
    3.234]; its western edge is more than two degrees away from 100.766. *)
Lemma seismic_scenario_box_not_as_claimed :
  exists ev,
    Scenario.after_first_poll !! "usgs-us7000abcd" = Some ev
    /\ USGSService.mag Scenario.quake = 5.2%float
    /\ Scenario.boxes_close 0.0005 (area_bbox ev)
         [100.766; 2.766; 101.234; 3.234]%float = false
    /\ Scenario.close_to 2 (Js.at_ (area_bbox ev) 0) 100.766%float = false.
Proof.
  exists (eventData Scenario.first_poll Scenario.quake).
  vm_compute. repeat split.
Qed.

End Seismic.

(** ** Event identifiers across polls *)

Section Identifiers.
Import Event Reingestion.

Lemma same_id_stays_single (first second : IEvent Js.number) :
  _id second = _id first -> stays_single first second.
Proof.
  intros Hid. split; [exact Hid |]. intros db db1 db2.
  assert (Hin : is_Some (db1 !! _id second)).
  { rewrite Hid. unfold db1. rewrite findOneAndUpdate_lookup. eauto. }
  split; [| split].
  - unfold db2. rewrite findOneAndUpdate_dom.
    apply elem_of_dom in Hin. revert Hin. generalize (dom db1). intros D HD.
    apply set_eq. intros k. rewrite elem_of_union, elem_of_singleton.
    split; [intros [-> | ?]; done | by right].
  - unfold db2, findOneAndUpdate at 1. cbn.
    by apply map_size_insert_Some.
  - exists (findOneAndUpdate second db1).2. rewrite <- Hid. split.
    + apply findOneAndUpdate_lookup.
    + destruct (findOneAndUpdate_fields second db1) as (_ & Hs & Hb & _).
      rewrite findOneAndUpdate_ingested_at, Hs, Hb. done.
Qed.

Lemma distinct_id_stored_twice (first second : IEvent Js.number) :
  _id second <> _id first -> stored_twice first second.
Proof.
  intros Hid. split; [exact Hid |]. intros db db2. unfold db2. split.
  - rewrite findOneAndUpdate_other by congruence.
    rewrite findOneAndUpdate_lookup. eauto.
  - rewrite findOneAndUpdate_lookup. eauto.
Qed.

Lemma severeEventId_inj (t1 t2 : Js.Date) (loc : OpenWeatherService.Location) :
  OpenWeatherService.severeEventId t1 loc = OpenWeatherService.severeEventId t2 loc ->
  t1 = t2.
Proof.
  unfold OpenWeatherService.severeEventId. intros H.
  do 3 apply String.app_inj in H. by apply pretty_Z_inj in H.
Qed.

Lemma isoDate_same_day (t1 t2 : Js.Date) :
  t1 / 86400000 = t2 / 86400000 -> Js.isoDate t1 = Js.isoDate t2.
Proof. unfold Js.isoDate. by intros ->. Qed.

(** C5, as amended.  For the seismic, orbital-event, fire-detection and
    weather-alert records the Event id does not depend on the time of the
    poll, so a later poll of the same record keeps one stored Event.  The
    air-quality id also contains the UTC calendar date of the poll, so the
    same holds for two polls on one UTC day.  The id of a synthetic
    severe-weather storm event contains the millisecond timestamp of the
    poll: two polls at different instants store two events. *)
Theorem event_ids_across_polls :
  (forall f t1 t2,
      stays_single (USGSService.eventData t1 f) (USGSService.eventData t2 f))
  /\ (forall e g t1 t2 d1 d2,
        NASAService.eonetEventData t1 e g = Some d1 ->
        NASAService.eonetEventData t2 e g = Some d2 ->
        stays_single d1 d2)
  /\ (forall cc row lat lng t1 t2,
        stays_single (NASAService.firmsEventData t1 cc row lat lng)
          (NASAService.firmsEventData t2 cc row lat lng))
  /\ (forall loc alert t1 t2,
        stays_single (OpenWeatherService.alertEventData t1 loc alert)
          (OpenWeatherService.alertEventData t2 loc alert))
  /\ (forall country key m lat lng ms data t1 t2,
        t1 / 86400000 = t2 / 86400000 ->
        stays_single (OpenAQService.aqEventData t1 country key m lat lng ms data)
          (OpenAQService.aqEventData t2 country key m lat lng ms data))
  /\ (forall loc w t1 t2 d1 d2,
        t1 <> t2 ->
        OpenWeatherService.severeEventData t1 loc w = Some d1 ->
        OpenWeatherService.severeEventData t2 loc w = Some d2 ->
        stored_twice d1 d2).
Proof.
  split; [| split; [| split; [| split; [| split]]]].
  - intros f t1 t2. apply same_id_stays_single. reflexivity.
  - intros e g t1 t2 d1 d2 H1 H2. apply same_id_stays_single.
    unfold NASAService.eonetEventData in *.
    destruct (NASAService.calculateBoundingBoxFromGeometry _); simplify_eq/=. reflexivity.
  - intros cc row lat lng t1 t2. apply same_id_stays_single. reflexivity.
  - intros loc alert t1 t2. apply same_id_stays_single. reflexivity.
  - intros country key m lat lng ms data t1 t2 Hday. apply same_id_stays_single. cbn.
    unfold OpenAQService.aqEventId. by rewrite (isoDate_same_day t1 t2).
  - intros loc w t1 t2 d1 d2 Hne H1 H2. apply distinct_id_stored_twice.
    unfold OpenWeatherService.severeEventData in *.
    destruct (head _); simplify_eq/=. intros Heq.
    apply severeEventId_inj in Heq. congruence.
Qed.

Lemma event_ids_across_polls_witness :
  stays_single
    (OpenAQService.aqEventData Scenario.first_poll "MY" "3.1390-101.6869"
       Scenario.pm25_reading 3.1390%float 101.6869%float [Scenario.pm25_reading]
       (OpenAQService.calculateAQI [Scenario.pm25_reading]))
    (OpenAQService.aqEventData Scenario.second_poll "MY" "3.1390-101.6869"
       Scenario.pm25_reading 3.1390%float 101.6869%float [Scenario.pm25_reading]
       (OpenAQService.calculateAQI [Scenario.pm25_reading]))
  /\ (exists d1 d2,
        NASAService.eonetEventData Scenario.first_poll Scenario.wildfire
          Scenario.wildfire_geometry = Some d1
        /\ NASAService.eonetEventData Scenario.second_poll Scenario.wildfire
             Scenario.wildfire_geometry = Some d2
        /\ stays_single d1 d2)
  /\ (exists d1 d2,
        OpenWeatherService.severeEventData Scenario.first_poll Scenario.kuala_lumpur
          Scenario.strong_wind = Some d1
        /\ OpenWeatherService.severeEventData Scenario.second_poll Scenario.kuala_lumpur
             Scenario.strong_wind = Some d2
        /\ stored_twice d1 d2).
Proof.
  destruct event_ids_across_polls as (_ & Heonet & _ & _ & Haq & Hsevere).
  split; [| split].
  - apply Haq. reflexivity.
  - eexists _, _. split; [reflexivity |]. split; [reflexivity |].
    apply (Heonet Scenario.wildfire Scenario.wildfire_geometry
             Scenario.first_poll Scenario.second_poll); reflexivity.
  - eexists _, _. split; [reflexivity |]. split; [reflexivity |].
    apply (Hsevere Scenario.kuala_lumpur Scenario.strong_wind
             Scenario.first_poll Scenario.second_poll); [discriminate | reflexivity ..].
Defined.

(** C5, as claimed, fails for the synthetic storm events: the same current
    conditions polled twice get two ids and are stored as two events, and
    the second poll reports an insert. *)
Lemma severe_weather_polled_twice_stored_twice :
  exists d1 d2,
    OpenWeatherService.severeEventData Scenario.first_poll Scenario.kuala_lumpur
      Scenario.strong_wind = Some d1
    /\ OpenWeatherService.severeEventData Scenario.second_poll Scenario.kuala_lumpur
         Scenario.strong_wind = Some d2
    /\ ~ stays_single d1 d2
    /\ let '(db1, _) :=
         OpenWeatherService.ingestWeatherAlerts (Some "key") Scenario.weather_answer
           Scenario.first_poll ∅ in
       let '(db2, second) :=
         OpenWeatherService.ingestWeatherAlerts (Some "key") Scenario.weather_answer
           Scenario.second_poll db1 in
       size db1 = 1%nat /\ size db2 = 2%nat
       /\ second = Fulfilled (mkCounts 1 0)
       /\ is_Some (db2 !! "openweather-severe-kuala-lumpur-1700000100000")
       /\ is_Some (db2 !! "openweather-severe-kuala-lumpur-1700000400000").
Proof.
  eexists _, _. split; [reflexivity |]. split; [reflexivity |]. split.
  - intros [Hid _]. vm_compute in Hid. discriminate Hid.
  - vm_compute. repeat split; eauto.
Qed.

End Identifiers.

(** ** Air-quality ingestion *)

Section AirQuality.
Import Event OpenAQService Reingestion.

(** Comparisons of a number with two constants, through their IEEE-754
    decomposition. *)
Lemma leb_50_100 (x : Js.number) : (x <=? 50)%float = true -> (x <=? 100)%float = true.
Proof.
  rewrite !leb_spec.
  change (Prim2SF 50) with (S754_finite false 7036874417766400 (-47)).
  change (Prim2SF 100) with (S754_finite false 7036874417766400 (-46)).
  destruct (Prim2SF x) as [s | s | | s m e];
    try (destruct s); try reflexivity; try discriminate.
  unfold SFleb, SFcompare.
  destruct (Z.compare_spec e (-47)); destruct (Z.compare_spec e (-46));
    try lia; try reflexivity; try discriminate.
Qed.

Lemma aqiToSeverity_above_100 (a : Js.number) :
  (a <=? 100)%float = false ->
  aqiToSeverity a
  = if (a <=? 150)%float then 6.0%float
    else if (a <=? 200)%float then 7.5%float
    else if (a <=? 300)%float then 9.0%float
    else 10.0%float.
Proof.
  intros H. unfold aqiToSeverity. rewrite H.
  destruct (a <=? 50)%float eqn:H50; [| reflexivity].
  apply leb_50_100 in H50. congruence.
Qed.

Lemma aqiToSeverity_at_least_6 (a : Js.number) :
  (a <=? 100)%float = false -> (6 <=? aqiToSeverity a)%float = true.
Proof.
  intros H. rewrite (aqiToSeverity_above_100 a H).
  destruct (a <=? 150)%float; [reflexivity |].
  destruct (a <=? 200)%float; [reflexivity |].
  destruct (a <=? 300)%float; reflexivity.
Qed.

Lemma fold_left_invariant {A B} (P : A -> Prop) (f : A -> B -> A) (l : list B) (a : A) :
  P a -> (forall a' x, P a' -> P (f a' x)) -> P (fold_left f l a).
Proof. revert a. induction l as [| x l IH]; intros a Ha Hf; cbn; auto. Qed.

Lemma upsert_severe_preserves (db : Store) (d : IEvent Js.number) (acc : Store * Counts) :
  (6 <=? severity d)%float = true ->
  only_severe_added db acc -> only_severe_added db (upsert_and_count d acc).
Proof.
  intros Hd Hacc id ev. destruct acc as [db' c]. rewrite upsert_and_count_spec.
  cbn [fst]. destruct (decide (id = _id d)) as [-> | Hne].
  - rewrite findOneAndUpdate_lookup. intros Hev. right.
    assert (ev = (findOneAndUpdate d db').2) as -> by congruence.
    destruct (findOneAndUpdate_fields d db') as (_ & Hs & _). by rewrite Hs.
  - rewrite findOneAndUpdate_other by done. apply Hacc.
Qed.

Lemma ingest_group_preserves (db : Store) (now : Js.Date) (country : string)
  (acc : Store * Counts) (group : string * list Measurement) :
  only_severe_added db acc -> only_severe_added db (ingest_group now country acc group).
Proof.
  intros Hacc. unfold ingest_group. destruct group as [key ms].
  destruct ms as [| m ms']; [done |].
  destruct (coordinates m) as [[lat lng] |]; [| done].
  destruct (aqi_of (calculateAQI (m :: ms')) <=? 100)%float eqn:Haqi; [done |].
  apply upsert_severe_preserves; [| done]. cbn.
  by apply aqiToSeverity_at_least_6.
Qed.

Lemma ingest_country_preserves (db : Store) (now : Js.Date) (acc : Store * Counts)
  (c : string * Settled (option (list Measurement))) :
  only_severe_added db acc -> only_severe_added db (OpenAQService.ingest_country now acc c).
Proof.
  intros Hacc. unfold OpenAQService.ingest_country.
  destruct c.2 as [[results |] | e]; try done.
  apply fold_left_invariant; [done |]. intros. by apply ingest_group_preserves.
Qed.

(** C9.  Every air-quality Event that [ingestAirQualityData] writes has
    severity at least 6.0: a location whose overall AQI is 100 or below is
    skipped without a write, and above 100 the stepwise mapping gives 6.0 up
    to 150, 7.5 up to 200, 9.0 up to 300 and 10.0 beyond. *)
Theorem openaq_persisted_severity_at_least_6 :
  (forall feeds now (db : Store) id ev,
      (ingestAirQualityData feeds now db).1 !! id = Some ev ->
      db !! id = Some ev \/ (6 <=? severity ev)%float = true)
  /\ (forall now country (acc : Store * Counts) key ms,
        (aqi_of (calculateAQI ms) <=? 100)%float = true ->
        ingest_group now country acc (key, ms) = acc)
  /\ (forall a : Js.number,
        (a <=? 100)%float = false ->
        aqiToSeverity a
        = if (a <=? 150)%float then 6.0%float
          else if (a <=? 200)%float then 7.5%float
          else if (a <=? 300)%float then 9.0%float
          else 10.0%float).
Proof.
  split; [| split].
  - intros feeds now db id ev. unfold ingestAirQualityData.
    assert (H : only_severe_added db
                  (fold_left (OpenAQService.ingest_country now) feeds (db, mkCounts 0 0))).
    { apply fold_left_invariant.
      - intros ? ? ?. by left.
      - intros. by apply ingest_country_preserves. }
    destruct (fold_left _ feeds _) as [db' c]. cbn. apply H.
  - intros now country acc key ms Haqi. unfold ingest_group.
    destruct ms as [| m ms']; [done |].
    destruct (coordinates m) as [[lat lng] |]; [| done]. by rewrite Haqi.
  - apply aqiToSeverity_above_100.
Qed.

Lemma openaq_persisted_severity_at_least_6_witness :
  (exists ev,
      (ingestAirQualityData [("MY", Fulfilled (Some [Scenario.pm25_reading]))]
         Scenario.first_poll ∅).1 !! "openaq-MY-3.1390-101.6869-2023-11-14" = Some ev
      /\ ((∅ : Store) !! "openaq-MY-3.1390-101.6869-2023-11-14" = Some ev
          \/ (6 <=? severity ev)%float = true))
  /\ aqi_of (calculateAQI [Scenario.moderate_reading]) = 85%float
  /\ ingest_group Scenario.first_poll "MY" (∅, mkCounts 0 0)
       ("3.1390-101.6869", [Scenario.moderate_reading]) = (∅, mkCounts 0 0)
  /\ aqi_of (calculateAQI [Scenario.pm25_reading]) = 153%float
  /\ aqiToSeverity 153 = 7.5%float.
Proof.
  destruct openaq_persisted_severity_at_least_6 as (Hsev & Hskip & Hstep).
  split; [| split; [| split; [| split]]].
  - set (ev := aqEventData Scenario.first_poll "MY" "3.1390-101.6869"
                 Scenario.pm25_reading 3.1390%float 101.6869%float
                 [Scenario.pm25_reading] (calculateAQI [Scenario.pm25_reading])).
    assert (Hlook :
      (ingestAirQualityData [("MY", Fulfilled (Some [Scenario.pm25_reading]))]
         Scenario.first_poll ∅).1 !! "openaq-MY-3.1390-101.6869-2023-11-14" = Some ev)
      by (vm_compute; reflexivity).
    exists ev. split; [exact Hlook |]. exact (Hsev _ _ _ _ _ Hlook).
  - vm_compute. reflexivity.
  - apply Hskip. vm_compute. reflexivity.
  - vm_compute. reflexivity.
  - rewrite (Hstep 153%float); reflexivity.
Defined.

End AirQuality.

(** ** The heat-map request *)

Section HeatmapValidation.
Import RiskRoute.

Lemma zero_is_falsy (x : Js.number) : PrimFloat.eqb x 0 = true -> Js.truthy x = false.
Proof. intros H. unfold Js.truthy. by rewrite H. Qed.

(** C10.  When the four numbers parsed from [bbox] include a zero, the
    request is answered 400 'Invalid bounding box format', whatever the other
    three are: each coordinate is tested for truthiness. *)
Theorem heatmap_rejects_zero_coordinate (Number : string -> Js.number) (fuel : nat)
  (q : HeatmapQuery) (b : string) (w s e n : Js.number) (rest : list Js.number) :
  bbox q = Some b ->
  map Number (Js.split "," b) = w :: s :: e :: n :: rest ->
  PrimFloat.eqb w 0 = true \/ PrimFloat.eqb s 0 = true
  \/ PrimFloat.eqb e 0 = true \/ PrimFloat.eqb n 0 = true ->
  heatmap Number fuel q
  = BadRequest "Invalid bounding box format. Use: west,south,east,north".
Proof.
  intros Hb Hparts Hzero. unfold heatmap. rewrite Hb.
  destruct b as [| c b']; [discriminate Hparts |].
  rewrite Hparts. unfold Js.at_. cbn [nth].
  destruct Hzero as [H | [H | [H | H]]]; rewrite (zero_is_falsy _ H); cbn [negb orb];
    rewrite ?orb_true_r; reflexivity.
Qed.

Lemma heatmap_rejects_zero_coordinate_witness :
  heatmap Number_decimal 2000 (mkQuery (Some "0,-5,10,5") None)
  = BadRequest "Invalid bounding box format. Use: west,south,east,north".
Proof.
  apply (heatmap_rejects_zero_coordinate Number_decimal 2000
           (mkQuery (Some "0,-5,10,5") None) "0,-5,10,5"
           0%float (-5)%float 10%float 5%float []).
  - reflexivity.
  - vm_compute. reflexivity.
  - left. reflexivity.
Defined.

End HeatmapValidation.

(** ** Subscription writes *)

Section SubscriptionWrites.
Import Subscription SubscriptionsRoute.

Lemma listed_elem (c : string) (channels : list string) :
  In c channels -> listed c channels = true.
Proof.
  intros Hin. unfold listed. apply existsb_exists. exists c. split; [done |].
  apply String.eqb_refl.
Qed.

(** The creation route persists only subscriptions that satisfy the
    channel-contact invariant. *)
Lemma post_enforces_channel_contacts (uuid : string) (now : Js.Date) (body : Body)
  (subs subs' : Store) (saved : ISubscription) (msg : string) :
  post uuid now body subs = (subs', Ok saved msg) ->
  channels_have_contacts saved = true.
Proof.
  unfold post. intros H.
  destruct (b_location body) as [[lat lng] |]; [| discriminate].
  destruct (negb (Js.truthy lat) || negb (Js.truthy lng)); [discriminate |].
  destruct (b_channels body) as [[| c0 cs] |] eqn:Hch; try discriminate.
  destruct (b_radius_km body) as [r |]; [| discriminate].
  destruct (negb (Js.truthy r) || (r <? 1)%float || (100 <? r)%float); [discriminate |].
  destruct (listed "email" (c0 :: cs) && negb (Js.truthy_ostr (b_email body))) eqn:He;
    [discriminate |].
  destruct (listed "sms" (c0 :: cs) && negb (Js.truthy_ostr (b_phone body))) eqn:Hs;
    [discriminate |].
  destruct (listed "webpush" (c0 :: cs) && negb (bool_decide (is_Some (b_push body))))
    eqn:Hw; [discriminate |].
  destruct (forallb channel_in_enum (c0 :: cs) && radius_in_range r); [| discriminate].
  assert (Hgoal : forall old_email old_phone old_push c, In c (c0 :: cs) ->
    (if String.eqb c "email"
     then Js.truthy_ostr (match or_undefined (b_email body) with
                          | Some e => Some e | None => old_email end)
     else if String.eqb c "sms"
     then Js.truthy_ostr (match or_undefined (b_phone body) with
                          | Some ph => Some ph | None => old_phone end)
     else if String.eqb c "webpush"
     then bool_decide (is_Some (match b_push body with
                                | Some p => Some p | None => old_push end))
     else true) = true).
  { intros oe op opu c Hin.
    destruct (String.eqb c "email") eqn:E1.
    { apply String.eqb_eq in E1. subst c. rewrite (listed_elem _ _ Hin) in He.
      cbn [andb] in He. apply negb_false_iff in He.
      destruct (b_email body) as [[| a e'] |];
        cbn [Js.truthy_ostr Js.truthy_str or_undefined] in *; done. }
    destruct (String.eqb c "sms") eqn:E2.
    { apply String.eqb_eq in E2. subst c. rewrite (listed_elem _ _ Hin) in Hs.
      cbn [andb] in Hs. apply negb_false_iff in Hs.
      destruct (b_phone body) as [[| a e'] |];
        cbn [Js.truthy_ostr Js.truthy_str or_undefined] in *; done. }
    destruct (String.eqb c "webpush") eqn:E3; [| done].
    apply String.eqb_eq in E3. subst c. rewrite (listed_elem _ _ Hin) in Hw.
    cbn [andb] in Hw. apply negb_false_iff in Hw.
    destruct (b_push body); [reflexivity | discriminate Hw]. }
  destruct (find_existing _ _ _ subs) as [existing |];
    injection H as _ <- _;
    unfold channels_have_contacts, channel_has_contact, apply_data;
    cbn [channels email phone push];
    apply forallb_forall; intros c Hin.
  - by apply Hgoal.
  - specialize (Hgoal None None None c Hin).
    destruct (or_undefined (b_email body)), (or_undefined (b_phone body)), (b_push body);
      exact Hgoal.
Qed.

(** C6 (the code departs from the claim).  The update route applies the
    body without the channel-contact check of the creation route: the
    subscriber of [Scenario.subscribers], who has an e-mail address and no
    phone number, is switched to the channel 'sms'; the request succeeds and
    the stored subscription lists a channel without its contact datum. *)
Theorem put_persists_channel_without_contact :
  let '(subs', response) := put "7f9c2e1a-sub" Scenario.switch_to_sms Scenario.subscribers in
  exists saved,
    response = Ok saved "Subscription updated"
    /\ subs' !! "7f9c2e1a-sub" = Some saved
    /\ channels saved = ["sms"]
    /\ phone saved = None
    /\ channels_have_contacts saved = false
    /\ channels_have_contacts Scenario.subscriber = true.
Proof. vm_compute. eexists. repeat split. Qed.

End SubscriptionWrites.

(** ** Batch ingestion *)

Section Batch.
Import Event IngestRoute.

(** The batch endpoint never consults the fire-detection feed. *)
Lemma post_all_ignores_firms (up : Upstream) (feeds : list _) (now : Js.Date) (db : Store) :
  post_all (mkUpstream (usgs_feed up) (eonet_feed up) feeds (openweather_key up)
              (openweather_feeds up) (openaq_feeds up)) now db
  = post_all up now db.
Proof. reflexivity. Qed.

Lemma post_all_sources (up : Upstream) (now : Js.Date) (db : Store) :
  map source (results (post_all up now db).2)
  = ["usgs"; "nasa-eonet"; "openweather"; "openaq"]
  /\ total_sources (post_all up now db).2 = 4%nat.
Proof.
  unfold post_all.
  destruct (USGSService.ingestEarthquakes _ _ _) as [db1 [c1 | e1]];
  destruct (NASAService.ingestEONETEvents _ _ _) as [db2 [c2 | e2]];
  destruct (OpenWeatherService.ingestWeatherAlerts _ _ _ _) as [db3 [c3 | e3]];
  destruct (OpenAQService.ingestAirQualityData _ _ _) as [db4 [c4 | e4]];
  split; reflexivity.
Qed.

(** Each source is reported on its own, and the totals add up the counts of
    the fulfilled sources: a rejected source contributes nothing. *)
Lemma post_all_totals (up : Upstream) (now : Js.Date) (db : Store) :
  let response := (post_all up now db).2 in
  total_inserted response = sum_list (map inserted_or_0 (results response))
  /\ total_updated response = sum_list (map updated_or_0 (results response))
  /\ Forall (fun r => success r = false ->
                      inserted_or_0 r = 0%nat /\ updated_or_0 r = 0%nat
                      /\ is_Some (error r))
       (results response).
Proof.
  unfold post_all.
  destruct (USGSService.ingestEarthquakes _ _ _) as [db1 [c1 | e1]];
  destruct (NASAService.ingestEONETEvents _ _ _) as [db2 [c2 | e2]];
  destruct (OpenWeatherService.ingestWeatherAlerts _ _ _ _) as [db3 [c3 | e3]];
  destruct (OpenAQService.ingestAirQualityData _ _ _) as [db4 [c4 | e4]];
  cbn; (split; [lia | split; [lia |]]);
  repeat constructor; cbn; intros; eauto; discriminate.
Qed.

(** C7 (the code departs from the claim).  With the seismic feed down and
    every other feed answering, the batch endpoint reports four sources, not
    five: three successes and one failure carrying the error message.  The
    fire-detection adapter is not run: no 'nasa-firms' entry is reported and
    the hotspot offered by that feed is not stored, although the adapter run
    on its own does store it.  The totals are the sums over the fulfilled
    sources. *)
Theorem batch_with_seismic_down_reports_four_sources :
  let '(db, response) := post_all Scenario.seismic_down Scenario.first_poll ∅ in
  total_sources response = 4%nat
  /\ map source (results response) = ["usgs"; "nasa-eonet"; "openweather"; "openaq"]
  /\ length (List.filter success (results response)) = 3%nat
  /\ List.filter (fun r => negb (success r)) (results response)
     = [ mkResult "usgs" false None
           (Some "request to https://earthquake.usgs.gov/ failed, reason: ETIMEDOUT") ]
  /\ total_inserted response = 3%nat
  /\ total_updated response = 0%nat
  /\ size db = 3%nat
  /\ db !! "nasa-firms-MYS-2023-11-13-0.5123-101.4456" = None
  /\ is_Some ((NASAService.ingestFIRMSData (firms_feeds Scenario.seismic_down)
                 Scenario.first_poll ∅).1
              !! "nasa-firms-MYS-2023-11-13-0.5123-101.4456").
Proof. vm_compute. repeat split; eauto. Qed.

End Batch.

(** ** The alert fan-out *)

Section FanOut.
Import Event AlertService.

Variable ToString : Js.number -> string.
Variable push_delivers : Subscription.PushSubscription -> bool.

Lemma processEventAlerts_unaffected (now : Js.Date) (subs : Subscription.Store)
  (event : IEvent Js.number) :
  findAffectedSubscriptions subs event = [] ->
  processEventAlerts ToString push_delivers now subs event = [].
Proof. intros H. unfold processEventAlerts. by rewrite H. Qed.

Lemma processEventAlerts_affected (now : Js.Date) (subs : Subscription.Store)
  (event : IEvent Js.number) (content : AlertContent) :
  findAffectedSubscriptions subs event <> [] ->
  generateAlertContent ToString event = Some content ->
  processEventAlerts ToString push_delivers now subs event
  = flat_map (fun sub => sendAlert push_delivers now sub event content)
      (findAffectedSubscriptions subs event)
    ++ [ EmitGlobal (new_event_notice event content) ].
Proof.
  intros Hne Hc. unfold processEventAlerts. rewrite Hc.
  destruct (findAffectedSubscriptions subs event); [done | reflexivity].
Qed.

End FanOut.

Section FanOutClaims.
Import Event AlertService.

(** C2, as amended.  For an event processed by the fan-out engine: when no
    subscription lies inside its box the engine returns at once and nothing
    is published; when at least one does and the alert content is generated,
    the 'new event' notice is published on the global channel, after the
    per-subscription dispatch. *)
Theorem global_notice_only_with_affected_subscription
  (ToString : Js.number -> string) (push_delivers : Subscription.PushSubscription -> bool)
  (now : Js.Date) (eventType : option EventType) (db : Store)
  (subs : Subscription.Store) (event : IEvent Js.number) :
  In event (recentEvents now eventType db) ->
  (findAffectedSubscriptions subs event = [] ->
   processEventAlerts ToString push_delivers now subs event = [])
  /\ (forall content,
        findAffectedSubscriptions subs event <> [] ->
        generateAlertContent ToString event = Some content ->
        last (processEventAlerts ToString push_delivers now subs event)
        = Some (EmitGlobal (new_event_notice event content))
        /\ In (EmitGlobal (new_event_notice event content))
             (processNewEvents ToString push_delivers now eventType db subs)).
Proof.
  intros Hin. split.
  - apply processEventAlerts_unaffected.
  - intros content Hne Hc.
    pose proof (processEventAlerts_affected ToString push_delivers now subs event
                  content Hne Hc) as Heq.
    split.
    + rewrite Heq. apply last_snoc.
    + unfold processNewEvents. apply in_flat_map. exists event. split; [exact Hin |].
      rewrite Heq. apply in_or_app. right. by left.
Qed.

Lemma global_notice_only_with_affected_subscription_witness :
  let event := USGSService.eventData Scenario.first_poll Scenario.quake in
  let ToString := fun x => Js.toFixed x 0 in
  let now := Scenario.second_poll in
  In event (recentEvents now None Scenario.after_first_poll)
  /\ findAffectedSubscriptions (∅ : Subscription.Store) event = []
  /\ processEventAlerts ToString (fun _ => true) now ∅ event = []
  /\ findAffectedSubscriptions Scenario.browsers event = [Scenario.browser]
  /\ exists content,
      generateAlertContent ToString event = Some content
      /\ title content = "M5.2 Earthquake near 42 km W of Kuala Lumpur, Malaysia"
      /\ last (processEventAlerts ToString (fun _ => true) now Scenario.browsers event)
         = Some (EmitGlobal (new_event_notice event content))
      /\ In (EmitGlobal (new_event_notice event content))
           (processNewEvents ToString (fun _ => true) now None
              Scenario.after_first_poll Scenario.browsers).
Proof.
  intros event ToString now.
  assert (Hin : In event (recentEvents now None Scenario.after_first_poll))
    by (vm_compute; left; reflexivity).
  assert (Hsub : findAffectedSubscriptions Scenario.browsers event = [Scenario.browser])
    by (vm_compute; reflexivity).
  destruct (global_notice_only_with_affected_subscription ToString (fun _ => true)
              now None Scenario.after_first_poll ∅ event Hin) as [Hnone _].
  destruct (global_notice_only_with_affected_subscription ToString (fun _ => true)
              now None Scenario.after_first_poll Scenario.browsers event Hin)
    as [_ Hsome].
  assert (Hempty : findAffectedSubscriptions (∅ : Subscription.Store) event = [])
    by (vm_compute; reflexivity).
  split; [exact Hin |]. split; [exact Hempty |].
  split; [exact (Hnone Hempty) |].
  split; [exact Hsub |].
  destruct (generateAlertContent ToString event) as [content |] eqn:Hc;
    [| vm_compute in Hc; discriminate Hc].
  exists content. split; [reflexivity |]. split.
  { vm_compute in Hc. injection Hc as <-. reflexivity. }
  apply Hsome; [| reflexivity].
  rewrite Hsub. discriminate.
Defined.

(** C2, as claimed, fails: the earthquake of [Scenario.quake], severity 5.2
    and ingested five minutes ago, is processed by the fan-out engine; no
    subscription is registered, and nothing at all is published, the global
    'new event' notice included. *)
Lemma no_subscription_no_global_notice :
  let event := USGSService.eventData Scenario.first_poll Scenario.quake in
  recentEvents Scenario.second_poll None Scenario.after_first_poll = [event]
  /\ (4.0 <=? severity event)%float = true
  /\ findAffectedSubscriptions (∅ : Subscription.Store) event = []
  /\ forall ToString push_delivers,
      processNewEvents ToString push_delivers Scenario.second_poll None
        Scenario.after_first_poll ∅ = []
      /\ forall notice,
          ~ In (EmitGlobal notice)
              (processNewEvents ToString push_delivers Scenario.second_poll None
                 Scenario.after_first_poll ∅).
Proof.
  intros event.
  assert (Hrecent : recentEvents Scenario.second_poll None Scenario.after_first_poll
                    = [event]) by (vm_compute; reflexivity).
  split; [exact Hrecent |]. split; [reflexivity |]. split; [vm_compute; reflexivity |].
  intros ToString push_delivers.
  assert (Hnone : processNewEvents ToString push_delivers Scenario.second_poll None
                    Scenario.after_first_poll ∅ = []).
  { unfold processNewEvents. rewrite Hrecent. cbn [flat_map].
    rewrite processEventAlerts_unaffected; [reflexivity |]. vm_compute. reflexivity. }
  split; [exact Hnone |]. intros notice. rewrite Hnone. intros [].
Qed.

End FanOutClaims.

(** ** The risk assessment engine *)

Section Risk.
Import Event RiskEngine.
#[local] Open Scope R_scope.

Lemma div_nonneg (a b : R) : 0 <= a -> 0 < b -> 0 <= a / b.
Proof. intros Ha Hb. unfold Rdiv. by apply Rle_mult_inv_pos. Qed.

Lemma calculateTimeDecay_floor (now t : Js.Date) : 0.1 <= calculateTimeDecay now t.
Proof. unfold calculateTimeDecay. apply Rmax_l. Qed.

Lemma calculateDistanceDecay_floor (d r : R) : 0.1 <= calculateDistanceDecay d r.
Proof. unfold calculateDistanceDecay. apply Rmax_l. Qed.

Lemma calculateTimeDecay_le_1 (now t : Js.Date) :
  0 <= hours_since now t -> calculateTimeDecay now t <= 1.
Proof.
  intros Hh. unfold calculateTimeDecay. apply Rmax_lub; [lra |].
  rewrite <- exp_0.
  destruct (Req_dec (hours_since now t) 0) as [-> | Hne].
  - right. f_equal. lra.
  - left. apply exp_increasing. lra.
Qed.

Lemma calculateDistanceDecay_le_1 (d r : R) :
  0 <= d -> 0 < r -> calculateDistanceDecay d r <= 1.
Proof.
  intros Hd Hr. unfold calculateDistanceDecay. apply Rmax_lub; [lra |].
  assert (0 <= d / r) by (apply div_nonneg; lra). lra.
Qed.

Lemma atan_nonneg (z : R) : 0 <= z -> 0 <= atan z.
Proof.
  intros [Hz | <-].
  - left. rewrite <- atan_0. by apply atan_increasing.
  - rewrite atan_0. lra.
Qed.

Lemma atan2_nonneg (y x : R) : 0 <= y -> 0 <= x -> 0 <= atan2 y x.
Proof.
  intros Hy Hx. unfold atan2. pose proof PI_RGT_0 as Hpi.
  destruct (Rlt_dec 0 x) as [Hpos |].
  - apply atan_nonneg. apply div_nonneg; lra.
  - destruct (Rlt_dec x 0); [lra |].
    destruct (Rlt_dec 0 y); [lra |].
    destruct (Rlt_dec y 0); lra.
Qed.

Lemma calculateDistance_nonneg (lat1 lng1 lat2 lng2 : R) :
  0 <= calculateDistance lat1 lng1 lat2 lng2.
Proof.
  unfold calculateDistance.
  match goal with |- 0 <= 6371 * (2 * atan2 ?y ?x) =>
    pose proof (atan2_nonneg y x (sqrt_pos _) (sqrt_pos _)) end.
  lra.
Qed.

Lemma calculateDistance_same_point (lat lng : R) : calculateDistance lat lng lat lng = 0.
Proof.
  unfold calculateDistance.
  replace ((lat - lat) * PI / 180 / 2) with 0 by lra.
  replace ((lng - lng) * PI / 180 / 2) with 0 by lra.
  rewrite sin_0.
  replace (0 * 0 + cos (lat * PI / 180) * cos (lat * PI / 180) * 0 * 0) with 0 by lra.
  rewrite sqrt_0. replace (1 - 0) with 1 by lra. rewrite sqrt_1.
  unfold atan2. destruct (Rlt_dec 0 1); [| lra].
  replace (0 / 1) with 0 by lra. rewrite atan_0. lra.
Qed.

(** C8.  The distance decay is max(0.1, 1 - d / r), which is 0.1 at the
    boundary d = r of the query radius; the time decay is
    max(0.1, exp(-h / 12)) and is never below 0.1. *)
Theorem decay_floors :
  (forall d r : R, 0 < r -> calculateDistanceDecay d r = Rmax 0.1 (1 - d / r))
  /\ (forall r : R, 0 < r -> calculateDistanceDecay r r = 0.1)
  /\ (forall now t : Js.Date,
        0 <= hours_since now t ->
        calculateTimeDecay now t = Rmax 0.1 (exp (- hours_since now t / 12))
        /\ 0.1 <= calculateTimeDecay now t).
Proof.
  split; [| split].
  - intros d r _. reflexivity.
  - intros r Hr. unfold calculateDistanceDecay.
    replace (1 - r / r) with 0 by (field; lra).
    apply Rmax_left. lra.
  - intros now t _. split; [reflexivity | apply calculateTimeDecay_floor].
Qed.

Lemma decay_floors_witness :
  calculateDistanceDecay 50 50 = 0.1
  /\ calculateDistanceDecay 20 50 = Rmax 0.1 (1 - 20 / 50)
  /\ 0.1 <= calculateTimeDecay 1700086400000 1700000000000.
Proof.
  destruct decay_floors as (Hdist & Hedge & Htime).
  split; [| split].
  - apply Hedge. lra.
  - apply Hdist. lra.
  - apply Htime. unfold hours_since.
    replace (1700086400000 - 1700000000000)%Z with 86400000%Z by reflexivity. lra.
Defined.

(** The score of a type after the loop is at least the adjusted severity of
    each of its events, and scores never decrease. *)
Lemma score_event_mono (now : Js.Date) (lat lng radiusKm : R) (rs : Risks)
  (event : IEvent R) (t : EventType) :
  score (risk_of t rs) <= score (risk_of t (score_event now lat lng radiusKm rs event)).
Proof.
  unfold score_event. destruct (type event), t; cbn; try lra; apply Rmax_l.
Qed.

Lemma score_event_own (now : Js.Date) (lat lng radiusKm : R) (rs : Risks)
  (event : IEvent R) :
  adjustedSeverity now lat lng radiusKm event
  <= score (risk_of (type event) (score_event now lat lng radiusKm rs event)).
Proof. unfold score_event. destruct (type event); cbn; apply Rmax_r. Qed.

Lemma levels_keep_scores (rs : Risks) (t : EventType) :
  score (risk_of t (fold_right (fun t acc => map_risk t with_level acc) rs all_types))
  = score (risk_of t rs).
Proof. destruct t; reflexivity. Qed.

(** C4 (the code departs from the claim).  The storm warning
    [Scenario.forecast_storm] has severity 8.0, lies on the query point and
    starts twelve hours after the assessment: hours-ago is -12, the time
    decay is exp(1), and the storm score of the assessment is 8 * exp(1),
    above 20, not within 0 to 10. *)
Theorem future_event_scores_above_10 :
  let assessment :=
    assessCurrentRisk Scenario.assessment_time 3 101 50 [Scenario.forecast_storm] in
  hours_since Scenario.assessment_time (starts_at Scenario.forecast_storm) = -12
  /\ calculateTimeDecay Scenario.assessment_time (starts_at Scenario.forecast_storm)
     = exp 1
  /\ score (r_storm (risks assessment)) = 8 * exp 1
  /\ 10 < score (r_storm (risks assessment))
  /\ 20 < score (r_storm (risks assessment)).
Proof.
  intros assessment.
  assert (Hh : hours_since Scenario.assessment_time (starts_at Scenario.forecast_storm)
               = -12).
  { unfold hours_since. cbn [starts_at Scenario.forecast_storm].
    replace (Scenario.assessment_time - 1700043200000)%Z with (-43200000)%Z
      by reflexivity. lra. }
  assert (He : 2.5 < exp 1).
  { assert (Hne : 1/8 <> 0) by lra.
    pose proof (exp_ineq1 (1/8) Hne) as H8.
    assert (H4 : 1.265 < exp (1/4)).
    { replace (exp (1/4)) with (exp (1/8 + 1/8)) by (f_equal; lra).
      rewrite exp_plus. nra. }
    assert (H2 : 1.6 < exp (1/2)).
    { replace (exp (1/2)) with (exp (1/4 + 1/4)) by (f_equal; lra).
      rewrite exp_plus. nra. }
    replace (exp 1) with (exp (1/2 + 1/2)) by (f_equal; lra).
    rewrite exp_plus. nra. }
  assert (Ht : calculateTimeDecay Scenario.assessment_time
                 (starts_at Scenario.forecast_storm) = exp 1).
  { unfold calculateTimeDecay. rewrite Hh.
    replace (- -12 / 12) with 1 by lra. apply Rmax_right. lra. }
  assert (Hs : score (r_storm (risks assessment)) = 8 * exp 1).
  { unfold assessment, assessCurrentRisk. cbn [risks].
    change (r_storm ?rs) with (risk_of storm rs). rewrite levels_keep_scores.
    cbn [fold_left score_event type Scenario.forecast_storm map_risk risk_of
         initial_risks r_storm score].
    unfold adjustedSeverity. rewrite Ht.
    cbn [geometry severity Scenario.forecast_storm coordinate nth].
    rewrite calculateDistance_same_point. unfold calculateDistanceDecay.
    replace (1 - 0 / 50) with 1 by lra.
    rewrite (Rmax_right 0.1 1) by lra.
    rewrite Rmax_right; lra. }
  rewrite Hs. repeat split; try assumption; lra.
Qed.

(** Within its intended domain the engine does keep every score between 0
    and 10: severities at most 10, no event starting in the future, and a
    positive radius. *)
Lemma adjustedSeverity_le_10 (now : Js.Date) (lat lng radiusKm : R) (event : IEvent R) :
  severity event <= 10 -> (starts_at event <= now)%Z -> 0 < radiusKm ->
  adjustedSeverity now lat lng radiusKm event <= 10.
Proof.
  intros Hsev Hstart Hr. unfold adjustedSeverity.
  set (d := calculateDistance _ _ _ _).
  assert (Hd : 0 <= d) by apply calculateDistance_nonneg.
  assert (Hh : 0 <= hours_since now (starts_at event)).
  { unfold hours_since. apply div_nonneg; [| lra].
    apply IZR_le. lia. }
  pose proof (calculateTimeDecay_floor now (starts_at event)) as Ht0.
  pose proof (calculateTimeDecay_le_1 now (starts_at event) Hh) as Ht1.
  pose proof (calculateDistanceDecay_floor d radiusKm) as Hd0.
  pose proof (calculateDistanceDecay_le_1 d radiusKm Hd Hr) as Hd1.
  set (td := calculateTimeDecay now (starts_at event)) in *.
  set (dd := calculateDistanceDecay d radiusKm) in *.
  assert (Hp : 0 <= td * dd <= 1) by nra.
  rewrite Rmult_assoc.
  destruct (Rle_dec 0 (severity event)); nra.
Qed.

Lemma scores_bounded (now : Js.Date) (lat lng radiusKm : R)
  (recentEvents : list (IEvent R)) (t : EventType) :
  0 < radiusKm ->
  Forall (fun e => severity e <= 10 /\ (starts_at e <= now)%Z) recentEvents ->
  0 <= score (risk_of t (risks (assessCurrentRisk now lat lng radiusKm recentEvents)))
       <= 10.
Proof.
  intros Hr Hall. unfold assessCurrentRisk. cbn [risks]. rewrite levels_keep_scores.
  assert (Hinit : forall t', 0 <= score (risk_of t' initial_risks) <= 10)
    by (intros []; cbn; lra).
  revert Hinit. generalize initial_risks. induction Hall as [| e es [Hs Ht] _ IH];
    intros rs Hrs; cbn [fold_left]; [apply Hrs |].
  apply IH. intros t'. split.
  - etransitivity; [apply Hrs | apply score_event_mono].
  - pose proof (adjustedSeverity_le_10 now lat lng radiusKm e Hs Ht Hr) as Ha.
    pose proof (Hrs t') as [_ Hup].
    unfold score_event. destruct (type e), t'; cbn; try exact Hup;
      apply Rmax_lub; assumption.
Qed.

End Risk.

(** * Further properties of the code *)

Set Warnings "-clear-no-such-hyp".

(** ** The order on numbers

    The comparisons of the program are those of IEEE-754; their order
    properties are obtained from the specification of binary64 values. *)

Ltac sf_cases :=
  repeat match goal with
         | s : bool |- _ => destruct s
         end;
  cbn;
  change (Pos.compare_cont Eq) with Pos.compare;
  repeat match goal with
         | |- context [Z.compare ?a ?b] => destruct (Z.compare_spec a b)
         | |- context [Pos.compare ?a ?b] => destruct (Pos.compare_spec a b)
         end;
  cbn; try congruence; try lia; auto.

Section NumberOrder.

Lemma SFleb_trans f g h : SFleb f g = true -> SFleb g h = true -> SFleb f h = true.
Proof. unfold SFleb, SFcompare. destruct f, g, h; sf_cases. Qed.

Lemma SFltb_trans f g h : SFltb f g = true -> SFltb g h = true -> SFltb f h = true.
Proof. unfold SFltb, SFcompare. destruct f, g, h; sf_cases. Qed.

Lemma SFltb_leb_trans f g h : SFltb f g = true -> SFleb g h = true -> SFltb f h = true.
Proof. unfold SFltb, SFleb, SFcompare. destruct f, g, h; sf_cases. Qed.


Lemma SFltb_leb f g : SFltb f g = true -> SFleb f g = true.
Proof. unfold SFltb, SFleb. destruct (SFcompare f g) as [[] |]; auto. Qed.

Lemma SFleb_refl f : f <> S754_nan -> SFleb f f = true.
Proof. unfold SFleb, SFcompare. destruct f; sf_cases. Qed.

Lemma SFeqb_refl f : f <> S754_nan -> SFeqb f f = true.
Proof. unfold SFeqb, SFcompare. destruct f; sf_cases. Qed.

Lemma SFleb_total f g :
  f <> S754_nan -> g <> S754_nan -> SFleb f g = false -> SFltb g f = true.
Proof. unfold SFltb, SFleb, SFcompare. destruct f, g; sf_cases. Qed.


Lemma SFleb_nan f : SFleb S754_nan f = false /\ SFleb f S754_nan = false.
Proof. unfold SFleb, SFcompare. destruct f; auto. Qed.


Lemma is_nan_Prim2SF (x : Js.number) :
  PrimFloat.is_nan x = true <-> Prim2SF x = S754_nan.
Proof.
  unfold PrimFloat.is_nan. rewrite FloatAxioms.eqb_spec. split.
  - intros H. destruct (Prim2SF x) eqn:E; try reflexivity;
      rewrite SFeqb_refl in H by discriminate; discriminate H.
  - intros ->. reflexivity.
Qed.

Lemma not_nan_Prim2SF (x : Js.number) :
  PrimFloat.is_nan x = false <-> Prim2SF x <> S754_nan.
Proof.
  rewrite <- is_nan_Prim2SF. destruct (PrimFloat.is_nan x); split; congruence.
Qed.

Lemma number_leb_trans (x y z : Js.number) :
  (x <=? y)%float = true -> (y <=? z)%float = true -> (x <=? z)%float = true.
Proof. rewrite !leb_spec. apply SFleb_trans. Qed.

Lemma number_ltb_trans (x y z : Js.number) :
  (x <? y)%float = true -> (y <? z)%float = true -> (x <? z)%float = true.
Proof. rewrite !ltb_spec. apply SFltb_trans. Qed.

Lemma number_ltb_leb_trans (x y z : Js.number) :
  (x <? y)%float = true -> (y <=? z)%float = true -> (x <? z)%float = true.
Proof. rewrite !ltb_spec, leb_spec. apply SFltb_leb_trans. Qed.


Lemma number_ltb_leb (x y : Js.number) :
  (x <? y)%float = true -> (x <=? y)%float = true.
Proof. rewrite ltb_spec, leb_spec. apply SFltb_leb. Qed.

Lemma number_leb_refl (x : Js.number) :
  PrimFloat.is_nan x = false -> (x <=? x)%float = true.
Proof. intros H. apply not_nan_Prim2SF in H. rewrite leb_spec. by apply SFleb_refl. Qed.

Lemma number_leb_total (x y : Js.number) :
  PrimFloat.is_nan x = false -> PrimFloat.is_nan y = false ->
  (x <=? y)%float = false -> (y <? x)%float = true.
Proof.
  intros Hx Hy. apply not_nan_Prim2SF in Hx, Hy. rewrite leb_spec, ltb_spec.
  by apply SFleb_total.
Qed.


Lemma number_leb_nan_l (x y : Js.number) :
  PrimFloat.is_nan x = true -> (x <=? y)%float = false.
Proof. intros H. apply is_nan_Prim2SF in H. rewrite leb_spec, H. apply SFleb_nan. Qed.

Lemma number_leb_nan_r (x y : Js.number) :
  PrimFloat.is_nan y = true -> (x <=? y)%float = false.
Proof. intros H. apply is_nan_Prim2SF in H. rewrite leb_spec, H. apply SFleb_nan. Qed.




Lemma number_leb_not_nan (x y : Js.number) :
  (x <=? y)%float = true -> PrimFloat.is_nan x = false /\ PrimFloat.is_nan y = false.
Proof.
  intros H. split.
  - destruct (PrimFloat.is_nan x) eqn:E; [| reflexivity].
    rewrite (number_leb_nan_l x y E) in H. discriminate.
  - destruct (PrimFloat.is_nan y) eqn:E; [| reflexivity].
    rewrite (number_leb_nan_r x y E) in H. discriminate.
Qed.

Lemma nan_is_falsy (x : Js.number) : PrimFloat.is_nan x = true -> Js.truthy x = false.
Proof. intros H. unfold Js.truthy. rewrite H. by rewrite orb_true_r. Qed.

(** [Math.max] and [Math.min] of two numbers that are not NaN return one of
    them, above (below) both. *)
Lemma Math_max_spec (a b : Js.number) :
  PrimFloat.is_nan a = false -> PrimFloat.is_nan b = false ->
  (Js.Math_max a b = a \/ Js.Math_max a b = b)
  /\ (a <=? Js.Math_max a b)%float = true
  /\ (b <=? Js.Math_max a b)%float = true.
Proof.
  intros Ha Hb. unfold Js.Math_max. rewrite Ha, Hb. cbn [orb].
  destruct (a <? b)%float eqn:Hab.
  { split; [by right |]. split; [by apply number_ltb_leb | by apply number_leb_refl]. }
  destruct (b <? a)%float eqn:Hba.
  { split; [by left |]. split; [by apply number_leb_refl | by apply number_ltb_leb]. }
  assert (Hle1 : (a <=? b)%float = true).
  { destruct (a <=? b)%float eqn:E; [done |].
    rewrite (number_leb_total a b Ha Hb E) in Hba. discriminate. }
  assert (Hle2 : (b <=? a)%float = true).
  { destruct (b <=? a)%float eqn:E; [done |].
    rewrite (number_leb_total b a Hb Ha E) in Hab. discriminate. }
  destruct (PrimFloat.get_sign a).
  - split; [by right |]. split; [done | by apply number_leb_refl].
  - split; [by left |]. split; [by apply number_leb_refl | done].
Qed.

Lemma Math_min_spec (a b : Js.number) :
  PrimFloat.is_nan a = false -> PrimFloat.is_nan b = false ->
  (Js.Math_min a b = a \/ Js.Math_min a b = b)
  /\ (Js.Math_min a b <=? a)%float = true
  /\ (Js.Math_min a b <=? b)%float = true.
Proof.
  intros Ha Hb. unfold Js.Math_min. rewrite Ha, Hb. cbn [orb].
  destruct (a <? b)%float eqn:Hab.
  { split; [by left |]. split; [by apply number_leb_refl | by apply number_ltb_leb]. }
  destruct (b <? a)%float eqn:Hba.
  { split; [by right |]. split; [by apply number_ltb_leb | by apply number_leb_refl]. }
  assert (Hle1 : (a <=? b)%float = true).
  { destruct (a <=? b)%float eqn:E; [done |].
    rewrite (number_leb_total a b Ha Hb E) in Hba. discriminate. }
  assert (Hle2 : (b <=? a)%float = true).
  { destruct (b <=? a)%float eqn:E; [done |].
    rewrite (number_leb_total b a Hb Ha E) in Hab. discriminate. }
  destruct (PrimFloat.get_sign a).
  - split; [by left |]. split; [by apply number_leb_refl | done].
  - split; [by right |]. split; [done | by apply number_leb_refl].
Qed.

End NumberOrder.

(** ** Ingestion: what a poll writes and what it reports *)

Section UpsertRuns.
Import Event.




Lemma fold_left_skip {A B} (f : A -> B -> A) (p : B -> bool) (l : list B) (a : A) :
  (forall a' x, p x = false -> f a' x = a') ->
  fold_left f l a = fold_left f (List.filter p l) a.
Proof.
  intros Hskip. revert a. induction l as [| x l IH]; intros a; [reflexivity |].
  cbn. destruct (p x) eqn:Hp; cbn; [apply IH |]. rewrite (Hskip a x Hp). apply IH.
Qed.

End UpsertRuns.

Section SeismicPolls.
Import Event USGSService Vocabulary.








End SeismicPolls.


(** ** Ingestion: failures of a feed or of one of its parts *)

Section FeedFailures.
Import Event Vocabulary.

Lemma ingest_events_app (now : Js.Date) (pre post : list NASAService.EONETEvent)
  (acc : Store * Counts) :
  NASAService.ingest_events now (pre ++ post) acc
  = match NASAService.ingest_events now pre acc with
    | (db', Fulfilled c) => NASAService.ingest_events now post (db', c)
    | (db', Rejected e) => (db', Rejected e)
    end.
Proof.
  revert acc. induction pre as [| ev pre IH]; intros acc; cbn.
  - by destruct acc.
  - destruct (NASAService.geometries ev) as [[| g gs] |]; try apply IH.
    destruct (NASAService.eonetEventData now ev (List.last gs g)); [apply IH | done].
Qed.

(** X4.  An orbital-event record whose latest geometry is a polygon without
    rings makes the poll fail at that record: the call is rejected, the
    records after it are not ingested, and what the records before it wrote
    stays in the store. *)
Theorem eonet_failure_keeps_earlier_writes
  (pre post : list NASAService.EONETEvent) (bad : NASAService.EONETEvent)
  (g : NASAService.EONETGeometry) (gs : list NASAService.EONETGeometry)
  (now : Js.Date) (db db' : Store) (c : Counts) :
  NASAService.ingestEONETEvents (Fulfilled pre) now db = (db', Fulfilled c) ->
  NASAService.geometries bad = Some (g :: gs) ->
  NASAService.shape (List.last gs g) = Polygon [] ->
  exists message,
    NASAService.ingestEONETEvents (Fulfilled (pre ++ bad :: post)) now db
    = (db', Rejected message).
Proof.
  unfold NASAService.ingestEONETEvents. intros Hpre Hg Hshape.
  rewrite ingest_events_app, Hpre. cbn [NASAService.ingest_events]. rewrite Hg.
  unfold NASAService.eonetEventData. rewrite Hshape. cbn. eauto.
Qed.

Lemma eonet_failure_keeps_earlier_writes_witness :
  let broken :=
    NASAService.mkEONETEvent "EONET_7001" "Flood, Johor" Js.VNull 9%float
      (Js.VStr "Floods") Js.VNull Js.VNull Js.VNull Js.VNull
      (Some [ NASAService.mkEONETGeometry (Polygon []) 1699990000000 ]) in
  exists db' message,
    NASAService.ingestEONETEvents
      (Fulfilled ([Scenario.wildfire] ++ broken :: [Scenario.wildfire]))
      Scenario.first_poll ∅ = (db', Rejected message)
    /\ is_Some (db' !! "nasa-eonet-EONET_6512").
Proof.
  intros broken.
  destruct (NASAService.ingestEONETEvents (Fulfilled [Scenario.wildfire])
              Scenario.first_poll ∅) as [db' r] eqn:Hpre.
  assert (Hr : r = Fulfilled (mkCounts 1 0) /\ is_Some (db' !! "nasa-eonet-EONET_6512")).
  { vm_compute in Hpre. injection Hpre as <- <-. split; [reflexivity |].
    vm_compute. eauto. }
  destruct Hr as [-> Hstored].
  destruct (eonet_failure_keeps_earlier_writes [Scenario.wildfire] [Scenario.wildfire]
              broken (NASAService.mkEONETGeometry (Polygon []) 1699990000000) []
              Scenario.first_poll ∅ db' (mkCounts 1 0) Hpre eq_refl eq_refl)
    as [message Hm].
  exists db', message. split; [exact Hm | exact Hstored].
Defined.

(** X5.  A sub-request that fails (one location of the weather feed, one
    country of the air-quality or of the fire-detection feed) is skipped:
    the poll writes and reports exactly what it would for the remaining
    sub-requests alone. *)
Theorem failed_subrequests_are_skipped :
  (forall key locations now (db : Store),
      OpenWeatherService.ingestWeatherAlerts key locations now db
      = OpenWeatherService.ingestWeatherAlerts key
          (List.filter (fun l => is_fulfilled l.2) locations) now db)
  /\ (forall feeds now (db : Store),
        OpenAQService.ingestAirQualityData feeds now db
        = OpenAQService.ingestAirQualityData
            (List.filter (fun c => is_fulfilled c.2) feeds) now db)
  /\ (forall feeds now (db : Store),
        NASAService.ingestFIRMSData feeds now db
        = NASAService.ingestFIRMSData
            (List.filter (fun c => is_fulfilled c.2) feeds) now db).
Proof.
  split; [| split].
  - intros key locations now db. unfold OpenWeatherService.ingestWeatherAlerts.
    destruct (Js.truthy_ostr key); [| reflexivity].
    rewrite (fold_left_skip (OpenWeatherService.ingest_location now)
               (fun l => is_fulfilled l.2)); [reflexivity |].
    intros a [loc [data | e]] H; [discriminate H | reflexivity].
  - intros feeds now db. unfold OpenAQService.ingestAirQualityData.
    rewrite (fold_left_skip (OpenAQService.ingest_country now)
               (fun c => is_fulfilled c.2)); [reflexivity |].
    intros a [country [data | e]] H; [discriminate H | reflexivity].
  - intros feeds now db. unfold NASAService.ingestFIRMSData.
    rewrite (fold_left_skip (NASAService.ingest_country now)
               (fun c => is_fulfilled c.2)); [reflexivity |].
    intros a [country [data | e]] H; [discriminate H | reflexivity].
Qed.

End FeedFailures.

(** ** Severity classifiers *)

Ltac split_conditions :=
  repeat match goal with
         | |- context [if ?b then _ else _] => destruct b
         end.

Section Classifiers.
Import Event.

(** X6.  The severity of an orbital event lies between 4 and 10 for every
    category and title: the lowest base (5.0) less one for 'minor' or
    'small', and the clamp at 10. *)
Theorem eonet_severity_between_4_and_10 (categoryId : Js.number) (title : string) :
  (4 <=? NASAService.calculateEONETSeverity categoryId title)%float = true
  /\ (NASAService.calculateEONETSeverity categoryId title <=? 10)%float = true.
Proof.
  unfold NASAService.calculateEONETSeverity. split_conditions; split; reflexivity.
Qed.

(** X7.  The severity of a fire detection lies between 2 and 7 for every
    brightness and confidence, NaN included, so the clamp to [1, 10] never
    changes it. *)
Theorem fire_severity_between_2_and_7 (brightness confidence : Js.number) :
  (2 <=? NASAService.calculateFireSeverity brightness confidence)%float = true
  /\ (NASAService.calculateFireSeverity brightness confidence <=? 7)%float = true.
Proof.
  unfold NASAService.calculateFireSeverity. split_conditions; split; reflexivity.
Qed.

Lemma alert_severity_values (event description : string) :
  let s := OpenWeatherService.calculateSeverity event description in
  s = 8.0%float \/ s = 6.0%float \/ s = 4.0%float \/ s = 5.0%float.
Proof. unfold OpenWeatherService.calculateSeverity. split_conditions; cbn; auto. Qed.

(** X8.  Every weather alert is eligible for the fan-out: its severity is
    8, 6, 4 or 5, never below the threshold 4.0, so for ten minutes after
    its ingestion the fan-out query for all types, or for its own type,
    returns it. *)
Theorem weather_alert_always_eligible (now later : Js.Date)
  (location : OpenWeatherService.Location) (alert : OpenWeatherService.Alert) :
  later - 10 * 60 * 1000 <= now ->
  let stored := OpenWeatherService.alertEventData now location alert in
  AlertService.is_recent later None stored = true
  /\ AlertService.is_recent later (Some (type stored)) stored = true.
Proof.
  intros Hwin stored. unfold AlertService.is_recent.
  assert (Hi : (later - 10 * 60 * 1000 <=? ingested_at stored) = true)
    by (apply Z.leb_le; exact Hwin).
  assert (Hs : (4.0 <=? severity stored)%float = true).
  { cbn [stored severity OpenWeatherService.alertEventData].
    destruct (alert_severity_values (OpenWeatherService.event alert)
                (OpenWeatherService.description alert)) as [-> | [-> | [-> | ->]]];
      reflexivity. }
  rewrite Hi, Hs. split; [reflexivity |].
  cbn [andb]. by destruct (type stored).
Qed.

Lemma weather_alert_always_eligible_witness :
  let alert := OpenWeatherService.mkAlert "Flood Watch" "Minor flooding of low-lying areas"
                 1700000000 1700040000 (Js.VStr "MetMalaysia") Js.VUndefined in
  let stored := OpenWeatherService.alertEventData Scenario.first_poll
                  Scenario.kuala_lumpur alert in
  severity stored = 4.0%float
  /\ AlertService.is_recent Scenario.second_poll None stored = true
  /\ AlertService.is_recent Scenario.second_poll (Some (type stored)) stored = true.
Proof.
  intros alert stored. split; [reflexivity |].
  apply (weather_alert_always_eligible Scenario.first_poll Scenario.second_poll
           Scenario.kuala_lumpur alert).
  vm_compute. discriminate.
Defined.

(** X9.  Current conditions that are severe by humidity alone (wind at most
    15 m/s, temperature between -10 and 40 degrees, humidity above 90) give a
    synthetic storm event of severity 3.0, below the fan-out threshold: the
    event is stored but no fan-out query ever returns it. *)
Theorem humid_only_storm_is_never_fanned_out (w : OpenWeatherService.Current) :
  (15 <? OpenWeatherService.or_zero (OpenWeatherService.wind_speed w))%float = false ->
  (40 <? OpenWeatherService.temp w - 273.15)%float = false ->
  (OpenWeatherService.temp w - 273.15 <? -10)%float = false ->
  (90 <? OpenWeatherService.or_zero (OpenWeatherService.humidity w))%float = true ->
  OpenWeatherService.isSevereWeather w = true
  /\ OpenWeatherService.calculateWeatherSeverity w = 3.0%float
  /\ forall now later eventType location stored,
      OpenWeatherService.severeEventData now location w = Some stored ->
      AlertService.is_recent later eventType stored = false.
Proof.
  intros Hwind Hhot Hcold Hhumid.
  assert (Hsev : OpenWeatherService.calculateWeatherSeverity w = 3.0%float).
  { unfold OpenWeatherService.calculateWeatherSeverity. rewrite Hwind, Hhot, Hcold.
    destruct (25 <? _)%float eqn:H25.
    { assert ((15 <? OpenWeatherService.or_zero (OpenWeatherService.wind_speed w))%float
              = true) by (eapply number_ltb_trans; [| exact H25]; reflexivity).
      congruence. }
    destruct (45 <? _)%float eqn:H45.
    { assert ((40 <? OpenWeatherService.temp w - 273.15)%float = true)
        by (eapply number_ltb_trans; [| exact H45]; reflexivity).
      congruence. }
    destruct (_ <? -20)%float eqn:H20.
    { assert ((OpenWeatherService.temp w - 273.15 <? -10)%float = true)
        by (eapply number_ltb_trans; [exact H20 |]; reflexivity).
      congruence. }
    reflexivity. }
  split; [| split; [exact Hsev |]].
  - unfold OpenWeatherService.isSevereWeather. rewrite Hhumid.
    by rewrite !orb_true_r.
  - intros now later eventType location stored Hst.
    unfold OpenWeatherService.severeEventData in Hst.
    destruct (head _); [| discriminate]. cbn in Hst. injection Hst as <-.
    unfold AlertService.is_recent. cbn [severity]. rewrite Hsev.
    replace (4.0 <=? 3.0)%float with false by reflexivity.
    by rewrite andb_false_r.
Qed.

End Classifiers.

Lemma humid_only_storm_is_never_fanned_out_witness :
  let muggy := OpenWeatherService.mkCurrent 300.15%float 305.15%float (Some 95%float)
                 (Js.VNum 1009) (Some 3.5%float) (Js.VNum 180)
                 [ (Js.VStr "Mist", Js.VStr "mist") ] in
  OpenWeatherService.isSevereWeather muggy = true
  /\ OpenWeatherService.calculateWeatherSeverity muggy = 3.0%float
  /\ exists stored,
      OpenWeatherService.severeEventData Scenario.first_poll Scenario.kuala_lumpur muggy
      = Some stored
      /\ AlertService.is_recent Scenario.second_poll (Some Event.storm) stored = false.
Proof.
  intros muggy.
  destruct (humid_only_storm_is_never_fanned_out muggy) as (Hsevere & Hsev & Hnever);
    try reflexivity.
  split; [exact Hsevere |]. split; [exact Hsev |].
  eexists. split; [reflexivity |].
  apply (Hnever Scenario.first_poll Scenario.second_poll (Some Event.storm)
           Scenario.kuala_lumpur). reflexivity.
Defined.

(** ** Air quality: grouping by location and the overall index *)

Section AirQualityGroups.
Import Event OpenAQService Vocabulary.









End AirQualityGroups.

(** ** Footprints and affected subscriptions *)

Section Footprints.
Import Event AlertService.

Lemma min_of_below (xs : list Js.number) :
  Forall (fun x => PrimFloat.is_nan x = false) xs ->
  PrimFloat.is_nan (NASAService.min_of xs) = false
  /\ Forall (fun x => (NASAService.min_of xs <=? x)%float = true) xs.
Proof.
  induction 1 as [| x xs Hx _ [IHn IHall]]; [split; [reflexivity | constructor] |].
  change (NASAService.min_of (x :: xs)) with (Js.Math_min x (NASAService.min_of xs)).
  destruct (Math_min_spec x (NASAService.min_of xs) Hx IHn) as (Hor & Hl & Hr).
  split; [destruct Hor as [-> | ->]; done |].
  constructor; [exact Hl |].
  eapply Forall_impl; [exact IHall |]. intros y Hy. cbn in Hy.
  eapply number_leb_trans; eauto.
Qed.

Lemma max_of_above (xs : list Js.number) :
  Forall (fun x => PrimFloat.is_nan x = false) xs ->
  PrimFloat.is_nan (NASAService.max_of xs) = false
  /\ Forall (fun x => (x <=? NASAService.max_of xs)%float = true) xs.
Proof.
  induction 1 as [| x xs Hx _ [IHn IHall]]; [split; [reflexivity | constructor] |].
  change (NASAService.max_of (x :: xs)) with (Js.Math_max x (NASAService.max_of xs)).
  destruct (Math_max_spec x (NASAService.max_of xs) Hx IHn) as (Hor & Hl & Hr).
  split; [destruct Hor as [-> | ->]; done |].
  constructor; [exact Hl |].
  eapply Forall_impl; [exact IHall |]. intros y Hy. cbn in Hy.
  eapply number_leb_trans; eauto.
Qed.

Lemma within_box_unfold (a b c d x y : Js.number) (r1 r2 : list Js.number) :
  within_box (a :: b :: c :: d :: r1) (x :: y :: r2)
  = ((a <=? x)%float && (x <=? c)%float && (b <=? y)%float && (y <=? d)%float).
Proof. reflexivity. Qed.

(** X12.  The box computed for a polygon contains every vertex of its first
    ring, the boundary included: a subscription placed on any vertex is
    within the footprint. *)
Theorem polygon_box_contains_its_vertices
  (ring : list (list Js.number)) (rest : list (list (list Js.number)))
  (bbox : list Js.number) :
  NASAService.calculateBoundingBoxFromGeometry (Polygon (ring :: rest)) = Some bbox ->
  Forall (fun c => PrimFloat.is_nan (Js.at_ c 0) = false
                   /\ PrimFloat.is_nan (Js.at_ c 1) = false) ring ->
  Forall (fun c => within_box bbox [Js.at_ c 0; Js.at_ c 1] = true) ring.
Proof.
  unfold NASAService.calculateBoundingBoxFromGeometry. intros [= <-] Hring.
  set (lngs := map (fun c => Js.at_ c 0) ring).
  set (lats := map (fun c => Js.at_ c 1) ring).
  assert (Hlng : Forall (fun x => PrimFloat.is_nan x = false) lngs).
  { apply Forall_forall. intros x Hx. apply list_elem_of_In, in_map_iff in Hx
      as (c & <- & Hc). rewrite Forall_forall in Hring.
    by apply Hring, list_elem_of_In. }
  assert (Hlat : Forall (fun x => PrimFloat.is_nan x = false) lats).
  { apply Forall_forall. intros x Hx. apply list_elem_of_In, in_map_iff in Hx
      as (c & <- & Hc). rewrite Forall_forall in Hring.
    by apply Hring, list_elem_of_In. }
  destruct (min_of_below lngs Hlng) as [_ Hminlng].
  destruct (max_of_above lngs Hlng) as [_ Hmaxlng].
  destruct (min_of_below lats Hlat) as [_ Hminlat].
  destruct (max_of_above lats Hlat) as [_ Hmaxlat].
  rewrite Forall_forall in Hminlng, Hmaxlng, Hminlat, Hmaxlat.
  apply Forall_forall. intros c Hc.
  assert (Hin0 : Js.at_ c 0 ∈ lngs)
    by (apply list_elem_of_In, in_map_iff; exists c; split; [done | by apply list_elem_of_In]).
  assert (Hin1 : Js.at_ c 1 ∈ lats)
    by (apply list_elem_of_In, in_map_iff; exists c; split; [done | by apply list_elem_of_In]).
  rewrite within_box_unfold.
  by rewrite (Hminlng _ Hin0), (Hmaxlng _ Hin0), (Hminlat _ Hin1), (Hmaxlat _ Hin1).
Qed.

Lemma polygon_box_contains_its_vertices_witness :
  let ring := [ [100%float; 1%float]; [102.5%float; 1%float];
                [102.5%float; 4%float]; [100%float; 4%float] ] in
  NASAService.calculateBoundingBoxFromGeometry (Polygon [ring])
  = Some [100%float; 1%float; 102.5%float; 4%float]
  /\ Forall (fun c => within_box [100%float; 1%float; 102.5%float; 4%float]
                        [Js.at_ c 0; Js.at_ c 1] = true) ring.
Proof.
  intros ring. split; [reflexivity |].
  apply (polygon_box_contains_its_vertices ring []); [reflexivity |].
  repeat constructor.
Defined.

Lemma stored_subscription_is_listed (subs : Subscription.Store) (k : string)
  (sub : Subscription.ISubscription) :
  subs !! k = Some sub -> In sub (map snd (map_to_list subs)).
Proof.
  intros H. apply in_map_iff. exists (k, sub). split; [reflexivity |].
  by apply list_elem_of_In, elem_of_map_to_list.
Qed.

(** X13.  The containment test of the fan-out is inclusive: a stored
    subscription with a channel whose location is a corner of the event's
    box is among the affected subscriptions. *)
Theorem subscription_on_box_corner_is_affected
  (subs : Subscription.Store) (k : string) (sub : Subscription.ISubscription)
  (event : IEvent Js.number) (minLng minLat maxLng maxLat lng lat : Js.number)
  (rest : list Js.number) :
  subs !! k = Some sub ->
  area_bbox event = [minLng; minLat; maxLng; maxLat] ->
  (minLng <=? maxLng)%float = true ->
  (minLat <=? maxLat)%float = true ->
  Subscription.location sub = lng :: lat :: rest ->
  lng = minLng \/ lng = maxLng ->
  lat = minLat \/ lat = maxLat ->
  Subscription.channels sub <> [] ->
  In sub (findAffectedSubscriptions subs event).
Proof.
  intros Hk Hbox Hlng Hlat Hloc Hx Hy Hch. unfold findAffectedSubscriptions.
  apply filter_In. split; [by eapply stored_subscription_is_listed |].
  rewrite Hbox, Hloc, within_box_unfold.
  destruct (number_leb_not_nan _ _ Hlng) as [Ha Hb].
  destruct (number_leb_not_nan _ _ Hlat) as [Hc Hd].
  assert (H1 : (minLng <=? lng)%float = true /\ (lng <=? maxLng)%float = true)
    by (destruct Hx as [-> | ->]; split; auto using number_leb_refl).
  assert (H2 : (minLat <=? lat)%float = true /\ (lat <=? maxLat)%float = true)
    by (destruct Hy as [-> | ->]; split; auto using number_leb_refl).
  destruct H1 as [-> ->], H2 as [-> ->]. cbn [andb].
  by destruct (Subscription.channels sub).
Qed.

Lemma subscription_on_box_corner_is_affected_witness :
  let event := USGSService.eventData Scenario.first_poll Scenario.quake in
  let corner :=
    Subscription.mkSubscription "e0aa-sub" (Some "lina@example.org") None None
      [ (101 + 260 / 111)%float; (3 - 260 / 111)%float ] 10%float ["email"] "en"
      1699000000000 in
  In corner (findAffectedSubscriptions {[ "e0aa-sub" := corner ]} event).
Proof.
  intros event corner.
  apply (subscription_on_box_corner_is_affected {[ "e0aa-sub" := corner ]} "e0aa-sub"
           corner event (101 - 260 / 111)%float (3 - 260 / 111)%float
           (101 + 260 / 111)%float (3 + 260 / 111)%float
           (101 + 260 / 111)%float (3 - 260 / 111)%float []);
    try reflexivity; auto; discriminate.
Defined.





End Footprints.

(** ** Dispatch to the affected subscriptions *)

Section Dispatch.
Import Event AlertService.




(** X16.  Dispatch is isolated per subscription.  For an affected
    subscription with the 'webpush' channel and a push subscription, the
    push is attempted whatever happens to the other subscriptions; its
    socket message is emitted when its own push is delivered and left out
    when its own push fails; and the global notice closes the effects in
    either case. *)
Theorem dispatch_is_isolated_per_subscription
  (ToString : Js.number -> string) (push_delivers : Subscription.PushSubscription -> bool)
  (now : Js.Date) (subs : Subscription.Store) (event : IEvent Js.number)
  (content : AlertContent) (sub : Subscription.ISubscription)
  (push : Subscription.PushSubscription) :
  In sub (findAffectedSubscriptions subs event) ->
  generateAlertContent ToString event = Some content ->
  Subscription.push sub = Some push ->
  has_channel "webpush" sub = true ->
  let effects := processEventAlerts ToString push_delivers now subs event in
  In (WebPush push content (_id event)) effects
  /\ (push_delivers push = true ->
      exists alert, In (EmitTo ("alerts:" +:+ Subscription._id sub) alert) effects
                    /\ alert_title alert = title content
                    /\ alert_body alert = body content)
  /\ (push_delivers push = false ->
      sendAlert push_delivers now sub event content = [ WebPush push content (_id event) ])
  /\ last effects = Some (EmitGlobal (new_event_notice event content)).
Proof.
  intros Hin Hc Hp Hw effects.
  assert (Hne : findAffectedSubscriptions subs event <> [])
    by (intros E; rewrite E in Hin; destruct Hin).
  unfold effects.
  rewrite (processEventAlerts_affected ToString push_delivers now subs event content Hne Hc).
  assert (Hsend : forall eff, In eff (sendAlert push_delivers now sub event content) ->
                   In eff (flat_map (fun s => sendAlert push_delivers now s event content)
                             (findAffectedSubscriptions subs event) ++
                           [ EmitGlobal (new_event_notice event content) ])).
  { intros eff He. apply in_or_app. left. apply in_flat_map. eauto. }
  split; [| split; [| split]].
  - apply Hsend. unfold sendAlert. rewrite Hp, Hw. by left.
  - intros Hd. eexists. split.
    + apply Hsend. unfold sendAlert. rewrite Hp, Hw, Hd. right. left. reflexivity.
    + split; reflexivity.
  - intros Hd. unfold sendAlert. by rewrite Hp, Hw, Hd.
  - apply last_snoc.
Qed.

Lemma dispatch_is_isolated_per_subscription_witness :
  let event := USGSService.eventData Scenario.first_poll Scenario.quake in
  let both : Subscription.Store :=
    <[ "7f9c2e1a-sub" := Scenario.subscriber ]> Scenario.browsers in
  let failing : Subscription.PushSubscription -> bool := fun _ => false in
  exists content push,
    Subscription.push Scenario.browser = Some push
    /\ In (WebPush push content (_id event))
         (processEventAlerts (fun x => Js.toFixed x 0) failing Scenario.second_poll both event)
    /\ sendAlert failing Scenario.second_poll Scenario.browser event content
       = [ WebPush push content (_id event) ]
    /\ last (processEventAlerts (fun x => Js.toFixed x 0) failing Scenario.second_poll
               both event)
       = Some (EmitGlobal (new_event_notice event content)).
Proof.
  intros event both failing.
  destruct (generateAlertContent (fun x => Js.toFixed x 0) event) as [content |] eqn:Hc;
    [| vm_compute in Hc; discriminate Hc].
  destruct (Subscription.push Scenario.browser) as [push |] eqn:Hp;
    [| vm_compute in Hp; discriminate Hp].
  assert (Hin : In Scenario.browser (findAffectedSubscriptions both event)).
  { vm_compute. auto. }
  destruct (dispatch_is_isolated_per_subscription (fun x => Js.toFixed x 0) failing
              Scenario.second_poll both event content Scenario.browser push
              Hin Hc Hp eq_refl) as (Hpush & _ & Hfail & Hlast).
  exists content, push. split; [reflexivity |]. split; [exact Hpush |].
  split; [by apply Hfail | exact Hlast].
Defined.

(** X17.  The fan-out acts on recent, significant events only.  Every effect
    of [processNewEvents] comes from a stored event that was ingested within
    the last ten minutes, has severity at least 4.0, has the requested type
    when one is given, and has at least one affected subscription. *)
Theorem fan_out_effects_come_from_recent_events
  (ToString : Js.number -> string) (push_delivers : Subscription.PushSubscription -> bool)
  (now : Js.Date) (eventType : option EventType) (db : Store)
  (subs : Subscription.Store) (effect : Effect) :
  In effect (processNewEvents ToString push_delivers now eventType db subs) ->
  exists k event,
    db !! k = Some event
    /\ now - 10 * 60 * 1000 <= ingested_at event
    /\ (4.0 <=? severity event)%float = true
    /\ (forall t, eventType = Some t -> type event = t)
    /\ findAffectedSubscriptions subs event <> []
    /\ In effect (processEventAlerts ToString push_delivers now subs event).
Proof.
  unfold processNewEvents, recentEvents. intros H.
  apply in_flat_map in H as (event & Hev & Heff).
  apply filter_In in Hev as [Hlisted Hrecent].
  apply in_map_iff in Hlisted as ([k e] & He & Hk). cbn in He. subst e.
  apply list_elem_of_In, elem_of_map_to_list in Hk.
  unfold is_recent in Hrecent.
  apply andb_prop in Hrecent as [Hrecent Htype].
  apply andb_prop in Hrecent as [Hwindow Hsev].
  exists k, event. split; [exact Hk |]. split; [by apply Z.leb_le |].
  split; [exact Hsev |]. split; [| split; [| exact Heff]].
  - intros t ->. by destruct (type event), t.
  - intros Hnone. rewrite (processEventAlerts_unaffected _ _ _ _ _ Hnone) in Heff.
    destruct Heff.
Qed.

Lemma fan_out_effects_come_from_recent_events_witness :
  exists effect k event,
    In effect (processNewEvents (fun x => Js.toFixed x 0) (fun _ => true)
                 Scenario.second_poll (Some earthquake) Scenario.after_first_poll
                 Scenario.browsers)
    /\ Scenario.after_first_poll !! k = Some event
    /\ Scenario.second_poll - 10 * 60 * 1000 <= ingested_at event
    /\ (4.0 <=? severity event)%float = true
    /\ type event = earthquake.
Proof.
  destruct (processNewEvents (fun x => Js.toFixed x 0) (fun _ => true)
              Scenario.second_poll (Some earthquake) Scenario.after_first_poll
              Scenario.browsers) as [| effect others] eqn:Hrun;
    [vm_compute in Hrun; discriminate Hrun |].
  destruct (fan_out_effects_come_from_recent_events (fun x => Js.toFixed x 0)
              (fun _ => true) Scenario.second_poll (Some earthquake)
              Scenario.after_first_poll Scenario.browsers effect)
    as (k & event & Hk & Hwin & Hsev & Hty & _).
  { rewrite Hrun. by left. }
  exists effect, k, event. split; [by left |]. split; [exact Hk |].
  split; [exact Hwin |]. split; [exact Hsev | by apply Hty].
Defined.

End Dispatch.

(** ** The risk assessment, per type and overall *)

Section Assessment.
Import Event RiskEngine.
#[local] Open Scope R_scope.

Lemma Math_round_near (x : R) : x - / 2 < Math_round x <= x + / 2.
Proof.
  unfold Math_round. destruct (archimed (x + / 2)) as [H1 H2].
  rewrite minus_IZR. lra.
Qed.

Lemma Math_round_range (x : R) (lo hi : Z) :
  IZR lo <= x <= IZR hi -> IZR lo <= Math_round x <= IZR hi.
Proof.
  intros [Hlo Hhi]. pose proof (Math_round_near x) as [H1 H2].
  unfold Math_round in *. set (k := (up (x + / 2) - 1)%Z) in *.
  split; apply IZR_le.
  - assert (IZR (lo - 1) < IZR k) by (rewrite minus_IZR; lra).
    apply lt_IZR in H. lia.
  - assert (IZR k < IZR (hi + 1)) by (rewrite plus_IZR; lra).
    apply lt_IZR in H. lia.
Qed.

Lemma risk_of_map_risk (t t' : EventType) (f : Risk -> Risk) (rs : Risks) :
  risk_of t (map_risk t' f rs)
  = if AlertService.EventType_eqb t' t then f (risk_of t rs) else risk_of t rs.
Proof. by destruct t, t'. Qed.

Lemma fold_Rmax_ge (l : list R) (a : R) : a <= fold_left Rmax l a.
Proof.
  revert a. induction l as [| x l IH]; intros a; cbn [fold_left]; [lra |].
  etransitivity; [apply (Rmax_l a x) | apply IH].
Qed.


(** The loop over the events, seen from one type. *)
Lemma scoring_loop_per_type (now : Js.Date) (lat lng radiusKm : R)
  (recentEvents : list (IEvent R)) (rs : Risks) (t : EventType) :
  let own := List.filter (fun e => AlertService.EventType_eqb (type e) t) recentEvents in
  let after := fold_left (score_event now lat lng radiusKm) recentEvents rs in
  score (risk_of t after)
  = fold_left Rmax (map (adjustedSeverity now lat lng radiusKm) own) (score (risk_of t rs))
  /\ map summary_id (events (risk_of t after))
     = map summary_id (events (risk_of t rs)) ++ map _id own
  /\ map summary_severity (events (risk_of t after))
     = map summary_severity (events (risk_of t rs)) ++ map severity own.
Proof.
  revert rs. induction recentEvents as [| e es IH]; intros rs; cbn zeta.
  { cbn. by rewrite !app_nil_r. }
  cbn [fold_left List.filter].
  destruct (IH (score_event now lat lng radiusKm rs e)) as (Hs & Hi & Hv).
  cbn zeta in Hs, Hi, Hv. rewrite Hs, Hi, Hv. clear IH Hs Hi Hv.
  unfold score_event. rewrite !risk_of_map_risk.
  destruct (AlertService.EventType_eqb (type e) t); cbn [score events map fold_left];
    [| done].
  rewrite !map_app, <- !app_assoc. done.
Qed.

Lemma scoreToLevel_of_level (rs : Risks) (t : EventType) :
  level (risk_of t (fold_right (fun t acc => map_risk t with_level acc) rs all_types))
  = scoreToLevel (score (risk_of t rs)).
Proof. by destruct t. Qed.

Lemma events_after_levels (rs : Risks) (t : EventType) :
  events (risk_of t (fold_right (fun t acc => map_risk t with_level acc) rs all_types))
  = events (risk_of t rs).
Proof. by destruct t. Qed.

Lemma scoreToLevel_mono (s1 s2 : R) :
  s1 <= s2 ->
  (Vocabulary.level_rank (scoreToLevel s1) <= Vocabulary.level_rank (scoreToLevel s2))%nat.
Proof.
  intros H. unfold scoreToLevel.
  repeat match goal with
         | |- context [Rle_dec ?a ?b] => destruct (Rle_dec a b)
         end; try lra; vm_compute; lia.
Qed.

Lemma fold_max_spec {A} (g : A -> R) (l : list A) (a : R) :
  let m := fold_left (fun m t => Rmax m (g t)) l a in
  a <= m /\ (forall t, In t l -> g t <= m) /\ (m = a \/ exists t, In t l /\ m = g t).
Proof.
  revert a. induction l as [| x l IH]; intros a; cbn zeta; cbn [fold_left].
  { split; [lra |]. split; [intros t [] | by left]. }
  destruct (IH (Rmax a (g x))) as (H1 & H2 & H3). cbn zeta in H1, H2, H3.
  pose proof (Rmax_l a (g x)) as Hl. pose proof (Rmax_r a (g x)) as Hr.
  split; [lra |]. split.
  - intros t [<- | Hin]; [lra | by apply H2].
  - destruct H3 as [H3 | (t & Hin & H3)].
    + rewrite H3. unfold Rmax. destruct (Rle_dec a (g x)); [| by left].
      right. exists x. split; [by left | reflexivity].
    + right. exists t. split; [by right | exact H3].
Qed.

Lemma maxScore_spec (rs : Risks) :
  let maxScore := fold_left (fun m t => Rmax m (score (risk_of t rs))) all_types 0 in
  0 <= maxScore
  /\ (forall t, score (risk_of t rs) <= maxScore)
  /\ (maxScore = 0 \/ exists t, maxScore = score (risk_of t rs)).
Proof.
  destruct (fold_max_spec (fun t => score (risk_of t rs)) all_types 0) as (H1 & H2 & H3).
  cbn zeta in *. split; [exact H1 |]. split.
  - intros t. apply H2. destruct t; cbn; tauto.
  - destruct H3 as [H3 | (t & _ & H3)]; [by left | right; by exists t].
Qed.

(** X18.  With severities of at most 10, no event that starts after the
    assessment and a positive radius, every per-type score and the reported
    overall score lie between 0 and 10. *)
Theorem assessment_stays_within_scale (now : Js.Date) (lat lng radiusKm : R)
  (recentEvents : list (IEvent R)) :
  0 < radiusKm ->
  Forall (fun e => severity e <= 10 /\ (starts_at e <= now)%Z) recentEvents ->
  let assessment := assessCurrentRisk now lat lng radiusKm recentEvents in
  (forall t, 0 <= score (risk_of t (risks assessment)) <= 10)
  /\ 0 <= risk_score assessment <= 10.
Proof.
  intros Hr Hall assessment.
  assert (Hscores : forall t, 0 <= score (risk_of t (risks assessment)) <= 10)
    by (intros t; by apply scores_bounded).
  split; [exact Hscores |].
  subst assessment. unfold assessCurrentRisk in *. cbn [risks risk_score] in *.
  remember (fold_right (fun t acc => map_risk t with_level acc)
              (fold_left (score_event now lat lng radiusKm) recentEvents initial_risks)
              all_types) as rs eqn:Hrs.
  destruct (maxScore_spec rs) as (H0 & _ & Hmax). cbn zeta in H0, Hmax.
  remember (fold_left (fun m t => Rmax m (score (risk_of t rs))) all_types 0) as maxScore
    eqn:Hmax_def.
  assert (Hm : IZR 0 <= maxScore * 10 <= IZR 100).
  { destruct Hmax as [Hz | [t Ht]]; [lra |]. pose proof (Hscores t). lra. }
  apply Math_round_range in Hm. lra.
Qed.

Lemma assessment_stays_within_scale_witness :
  let assessment :=
    assessCurrentRisk 1700050000000 3 101 50 [Scenario.forecast_storm] in
  (forall t, 0 <= score (risk_of t (risks assessment)) <= 10)
  /\ 0 <= risk_score assessment <= 10.
Proof.
  apply (assessment_stays_within_scale 1700050000000 3 101 50 [Scenario.forecast_storm]).
  - lra.
  - constructor; [| constructor]. split; [cbn; lra | cbn; lia].
Defined.

(** X19.  Each hazard type is scored from its own events only: its score is
    the largest adjusted severity among the events of that type (and 0 when
    that is larger), its list names exactly those events in their order, and
    its level is the level of its score. *)
Theorem type_risk_comes_from_its_own_events (now : Js.Date) (lat lng radiusKm : R)
  (recentEvents : list (IEvent R)) (t : EventType) :
  let own := List.filter (fun e => AlertService.EventType_eqb (type e) t) recentEvents in
  let risk := risk_of t (risks (assessCurrentRisk now lat lng radiusKm recentEvents)) in
  score risk = fold_left Rmax (map (adjustedSeverity now lat lng radiusKm) own) 0
  /\ map summary_id (events risk) = map _id own
  /\ map summary_severity (events risk) = map severity own
  /\ level risk = scoreToLevel (score risk).
Proof.
  intros own risk. unfold risk, assessCurrentRisk. cbn [risks].
  rewrite levels_keep_scores, scoreToLevel_of_level, events_after_levels.
  destruct (scoring_loop_per_type now lat lng radiusKm recentEvents initial_risks t)
    as (Hs & Hi & Hv). cbn zeta in Hs, Hi, Hv.
  rewrite Hs, Hi, Hv. fold own.
  replace (score (risk_of t initial_risks)) with 0 by (by destruct t).
  replace (events (risk_of t initial_risks)) with (@nil EventSummary) by (by destruct t).
  done.
Qed.

(** X20.  A type without any event in the result set ends with score 0, an
    empty list and the level 'very low' (not the 'low' it is initialised
    with). *)
Theorem quiet_type_is_very_low (now : Js.Date) (lat lng radiusKm : R)
  (recentEvents : list (IEvent R)) (t : EventType) :
  Forall (fun e => type e <> t) recentEvents ->
  let risk := risk_of t (risks (assessCurrentRisk now lat lng radiusKm recentEvents)) in
  score risk = 0 /\ events risk = [] /\ level risk = "very low"
  /\ level (risk_of t initial_risks) = "low".
Proof.
  intros Hall risk.
  assert (Hown : List.filter (fun e => AlertService.EventType_eqb (type e) t) recentEvents
                 = []).
  { induction Hall as [| e es He _ IH]; [reflexivity |].
    cbn [List.filter]. rewrite IH.
    destruct (AlertService.EventType_eqb (type e) t) eqn:E; [| reflexivity].
    exfalso. apply He. by destruct (type e), t. }
  assert (Hs : score risk = 0 /\ events risk = []).
  { unfold risk, assessCurrentRisk. cbn [risks].
    rewrite levels_keep_scores, events_after_levels.
    destruct (scoring_loop_per_type now lat lng radiusKm recentEvents initial_risks t)
      as (Hs & Hi & _). cbn zeta in Hs, Hi. rewrite Hown in Hs, Hi. cbn in Hs, Hi.
    rewrite Hs. split; [by destruct t |].
    replace (events (risk_of t initial_risks)) with (@nil EventSummary) in Hi
      by (by destruct t).
    by destruct (events (risk_of t (fold_left _ recentEvents initial_risks))). }
  destruct Hs as [Hs He].
  assert (Hl : level risk = scoreToLevel (score risk)).
  { unfold risk, assessCurrentRisk. cbn [risks].
    by rewrite levels_keep_scores, scoreToLevel_of_level. }
  split; [exact Hs |]. split; [exact He |].
  split; [| by destruct t].
  rewrite Hl, Hs. unfold scoreToLevel.
  repeat match goal with
         | |- context [Rle_dec ?a ?b] => destruct (Rle_dec a b)
         end; try lra; reflexivity.
Qed.

Lemma quiet_type_is_very_low_witness :
  let risk := risk_of earthquake
                (risks (assessCurrentRisk 1700050000000 3 101 50 [Scenario.forecast_storm])) in
  score risk = 0 /\ events risk = [] /\ level risk = "very low"
  /\ level (risk_of earthquake initial_risks) = "low".
Proof.
  apply (quiet_type_is_very_low 1700050000000 3 101 50 [Scenario.forecast_storm] earthquake).
  constructor; [discriminate | constructor].
Defined.

Lemma assessed_scores_nonneg (now : Js.Date) (lat lng radiusKm : R)
  (recentEvents : list (IEvent R)) (t : EventType) :
  0 <= score (risk_of t (fold_left (score_event now lat lng radiusKm) recentEvents
                           initial_risks)).
Proof.
  destruct (scoring_loop_per_type now lat lng radiusKm recentEvents initial_risks t)
    as (Hs & _). cbn zeta in Hs. rewrite Hs.
  replace (score (risk_of t initial_risks)) with 0 by (by destruct t).
  apply fold_Rmax_ge.
Qed.

(** X21.  The overall result is that of the highest-scoring type: some type
    has a score no other type exceeds, the overall level is that type's
    level, the overall score is that type's score rounded to one decimal,
    and no type has a level above the overall one. *)
Theorem overall_risk_is_the_highest_type (now : Js.Date) (lat lng radiusKm : R)
  (recentEvents : list (IEvent R)) :
  let assessment := assessCurrentRisk now lat lng radiusKm recentEvents in
  exists t,
    overall_risk assessment = level (risk_of t (risks assessment))
    /\ risk_score assessment
       = Math_round (score (risk_of t (risks assessment)) * 10) / 10
    /\ forall t',
         score (risk_of t' (risks assessment)) <= score (risk_of t (risks assessment))
         /\ (Vocabulary.level_rank (level (risk_of t' (risks assessment)))
             <= Vocabulary.level_rank (overall_risk assessment))%nat.
Proof.
  intros assessment. subst assessment. unfold assessCurrentRisk.
  cbn [risks risk_score overall_risk].
  set (scored := fold_left (score_event now lat lng radiusKm) recentEvents initial_risks).
  set (rs := fold_right (fun t acc => map_risk t with_level acc) scored all_types).
  destruct (maxScore_spec rs) as (H0 & Hle & Hmax). cbn zeta in H0, Hle, Hmax.
  set (maxScore := fold_left (fun m t => Rmax m (score (risk_of t rs))) all_types 0) in *.
  assert (Hnonneg : forall t, 0 <= score (risk_of t rs)).
  { intros t. unfold rs. rewrite levels_keep_scores. apply assessed_scores_nonneg. }
  assert (Hbest : exists t, maxScore = score (risk_of t rs)).
  { destruct Hmax as [Hz | Ht]; [| exact Ht]. exists earthquake.
    pose proof (Hle earthquake). pose proof (Hnonneg earthquake). lra. }
  destruct Hbest as [t Ht]. exists t. rewrite Ht.
  assert (Hlevel : forall t0, level (risk_of t0 rs) = scoreToLevel (score (risk_of t0 rs))).
  { intros t0. unfold rs. by rewrite scoreToLevel_of_level, levels_keep_scores. }
  split; [by rewrite Hlevel |]. split; [reflexivity |].
  intros t'. pose proof (Hle t') as Hle'. rewrite Ht in Hle'.
  split; [exact Hle' |]. rewrite Hlevel. by apply scoreToLevel_mono.
Qed.

Lemma exp_mono (x y : R) : x <= y -> exp x <= exp y.
Proof. intros [H | ->]; [left; by apply exp_increasing | lra]. Qed.

Lemma exp_minus_2_above_tenth : 0.1 < exp (- 2).
Proof.
  assert (H4 : 3 / 4 < exp (- (1 / 4))).
  { pose proof (exp_ineq1 (- (1 / 4))) as H. lra. }
  assert (H2 : 9 / 16 < exp (- (1 / 2))).
  { replace (- (1 / 2)) with (- (1 / 4) + - (1 / 4)) by lra. rewrite exp_plus. nra. }
  assert (H1 : 81 / 256 < exp (- 1)).
  { replace (- 1) with (- (1 / 2) + - (1 / 2)) by lra. rewrite exp_plus. nra. }
  replace (- 2) with (- 1 + - 1) by lra. rewrite exp_plus. nra.
Qed.

(** X22.  Inside the 24-hour window of the query the floor of the time decay
    never takes effect: for an event that started at most 24 hours before
    the assessment the decay is exp(-h / 12) itself, above 0.1 and at most
    1, and of two such events the older one has the smaller decay. *)
Theorem time_decay_inside_the_query_window (now older newer : Js.Date) :
  (now - 24 * 60 * 60 * 1000 <= older)%Z -> (older <= newer)%Z -> (newer <= now)%Z ->
  calculateTimeDecay now older = exp (- hours_since now older / 12)
  /\ 0.1 < calculateTimeDecay now older
  /\ calculateTimeDecay now older <= calculateTimeDecay now newer
  /\ calculateTimeDecay now newer <= 1.
Proof.
  intros Hlo Hmid Hhi.
  assert (Hh : forall t, (now - 24 * 60 * 60 * 1000 <= t)%Z -> (t <= now)%Z ->
                 0 <= hours_since now t <= 24).
  { intros t H1 H2. unfold hours_since.
    assert (0 <= IZR (now - t) <= IZR (24 * 60 * 60 * 1000))
      by (split; apply IZR_le; lia).
    replace (IZR (24 * 60 * 60 * 1000)) with (24 * (1000 * 60 * 60)) in H
      by (rewrite !mult_IZR; lra).
    split; [apply div_nonneg; lra |].
    apply Rmult_le_reg_r with (1000 * 60 * 60); [lra |].
    unfold Rdiv. rewrite Rmult_assoc, Rinv_l by lra. lra. }
  assert (Hfloor : forall t, (now - 24 * 60 * 60 * 1000 <= t)%Z -> (t <= now)%Z ->
                     calculateTimeDecay now t = exp (- hours_since now t / 12)
                     /\ 0.1 < exp (- hours_since now t / 12)).
  { intros t H1 H2. pose proof (Hh t H1 H2) as Ht.
    assert (Hexp : exp (- 2) <= exp (- hours_since now t / 12)) by (apply exp_mono; lra).
    pose proof exp_minus_2_above_tenth.
    unfold calculateTimeDecay. cbn zeta. rewrite Rmax_right by lra. split; [reflexivity | lra]. }
  destruct (Hfloor older Hlo ltac:(lia)) as [Ho Ho'].
  destruct (Hfloor newer ltac:(lia) Hhi) as [Hn _].
  split; [exact Ho |]. split; [rewrite Ho; exact Ho' |]. split.
  - rewrite Ho, Hn. apply exp_mono.
    assert (hours_since now newer <= hours_since now older).
    { unfold hours_since. apply Rmult_le_compat_r; [| apply IZR_le; lia].
      left. apply Rinv_0_lt_compat. lra. }
    lra.
  - apply calculateTimeDecay_le_1. apply Hh; lia.
Qed.

Lemma time_decay_inside_the_query_window_witness :
  calculateTimeDecay 1700050000000 1700000000000
  = exp (- hours_since 1700050000000 1700000000000 / 12)
  /\ 0.1 < calculateTimeDecay 1700050000000 1700000000000
  /\ calculateTimeDecay 1700050000000 1700000000000
     <= calculateTimeDecay 1700050000000 1700043200000
  /\ calculateTimeDecay 1700050000000 1700043200000 <= 1.
Proof.
  apply (time_decay_inside_the_query_window 1700050000000 1700000000000 1700043200000);
    lia.
Defined.

Lemma atan2_le_half_pi (y x : R) : 0 <= y -> 0 <= x -> atan2 y x <= PI / 2.
Proof.
  intros Hy Hx. unfold atan2. pose proof PI_RGT_0 as Hpi.
  destruct (Rlt_dec 0 x).
  - left. apply atan_bound.
  - destruct (Rlt_dec x 0); [lra |].
    destruct (Rlt_dec 0 y); [lra |].
    destruct (Rlt_dec y 0); lra.
Qed.

Lemma haversine_symmetric (lat1 lng1 lat2 lng2 : R) :
  sin ((lat2 - lat1) * PI / 180 / 2) * sin ((lat2 - lat1) * PI / 180 / 2) +
  cos (lat1 * PI / 180) * cos (lat2 * PI / 180) *
  sin ((lng2 - lng1) * PI / 180 / 2) * sin ((lng2 - lng1) * PI / 180 / 2)
  = sin ((lat1 - lat2) * PI / 180 / 2) * sin ((lat1 - lat2) * PI / 180 / 2) +
    cos (lat2 * PI / 180) * cos (lat1 * PI / 180) *
    sin ((lng1 - lng2) * PI / 180 / 2) * sin ((lng1 - lng2) * PI / 180 / 2).
Proof.
  replace ((lat1 - lat2) * PI / 180 / 2) with (- ((lat2 - lat1) * PI / 180 / 2)) by field.
  replace ((lng1 - lng2) * PI / 180 / 2) with (- ((lng2 - lng1) * PI / 180 / 2)) by field.
  rewrite !sin_neg. ring.
Qed.

(** X23.  The great-circle distance is a distance: it is 0 from a point to
    itself, the same in both directions, never negative and never more than
    half the circumference, 6371 * PI km. *)
Theorem calculateDistance_is_a_bounded_symmetric_distance (lat1 lng1 lat2 lng2 : R) :
  calculateDistance lat1 lng1 lat1 lng1 = 0
  /\ calculateDistance lat1 lng1 lat2 lng2 = calculateDistance lat2 lng2 lat1 lng1
  /\ 0 <= calculateDistance lat1 lng1 lat2 lng2 <= 6371 * PI.
Proof.
  split; [apply calculateDistance_same_point |]. split.
  - unfold calculateDistance. cbn zeta. by rewrite haversine_symmetric.
  - split; [apply calculateDistance_nonneg |].
    unfold calculateDistance. cbn zeta.
    match goal with |- 6371 * (2 * atan2 ?y ?x) <= _ =>
      pose proof (atan2_le_half_pi y x (sqrt_pos _) (sqrt_pos _)) end.
    lra.
Qed.

End Assessment.

(** ** The life of a subscription *)

Section SubscriptionLifecycle.
Import Subscription SubscriptionsRoute.

Ltac post_cases H :=
  unfold post in H;
  repeat match type of H with
         | context [match ?x with _ => _ end] => destruct x eqn:?
         end.

(** X24.  What the creation route stores is valid, and a request it does not
    accept changes nothing.  A saved subscription is stored under its own
    identifier, has at least one channel, only channels of the schema's
    enumeration, a radius from 1 to 100, the contact datum of every listed
    channel, and a location whose two coordinates are neither 0 nor NaN;
    after any other response the collection is as before. *)
Theorem post_saves_only_valid_subscriptions (uuid : string) (now : Js.Date) (body : Body)
  (subs : Store) :
  match post uuid now body subs with
  | (subs', Ok saved _) =>
      subs' !! _id saved = Some saved
      /\ channels saved <> []
      /\ forallb channel_in_enum (channels saved) = true
      /\ (1 <=? radius_km saved)%float = true
      /\ (radius_km saved <=? 100)%float = true
      /\ channels_have_contacts saved = true
      /\ exists lng lat, location saved = [lng; lat]
                         /\ Js.truthy lng = true /\ Js.truthy lat = true
  | (subs', _) => subs' = subs
  end.
Proof.
  destruct (post uuid now body subs) as [subs' response] eqn:Hpost.
  destruct response as [saved msg | e | e | e].
  - pose proof (post_enforces_channel_contacts _ _ _ _ _ _ _ Hpost) as Hcontacts.
    clear Hcontacts. pose proof (post_enforces_channel_contacts _ _ _ _ _ _ _ Hpost) as Hc.
    post_cases Hpost; try discriminate Hpost;
      injection Hpost as <- <- _;
      repeat match goal with
             | H : _ || _ = false |- _ => apply orb_false_elim in H as [? ?]
             | H : _ && _ = true |- _ => apply andb_prop in H as [? ?]
             | H : negb _ = false |- _ => apply negb_false_iff in H
             end;
      (split; [cbn [_id apply_data]; apply lookup_insert_eq |]);
      (split; [cbn [channels apply_data]; discriminate |]);
      (split; [cbn [channels apply_data]; assumption |]);
      (split; [cbn [radius_km apply_data];
               match goal with H : radius_in_range _ = true |- _ =>
                 unfold radius_in_range in H; apply andb_prop in H as [? ?] end;
               assumption |]);
      (split; [cbn [radius_km apply_data];
               match goal with H : radius_in_range _ = true |- _ =>
                 unfold radius_in_range in H; apply andb_prop in H as [? ?] end;
               assumption |]);
      (split; [exact Hc |]);
      eexists _, _; cbn [location apply_data]; (split; [reflexivity |]); by split.
  - post_cases Hpost; congruence.
  - post_cases Hpost; congruence.
  - post_cases Hpost; congruence.
Qed.

Lemma findOne_stored (p : ISubscription -> bool) (subs : Store) (s : ISubscription) :
  findOne p subs = Some s -> exists k, subs !! k = Some s.
Proof.
  unfold findOne. intros H.
  assert (Hin : In s (map snd (map_to_list subs))).
  { revert H. induction (map snd (map_to_list subs)) as [| x l IH]; [discriminate |].
    cbn [List.filter]. destruct (p x); cbn [head].
    - intros [= ->]. by left.
    - intros H. right. by apply IH. }
  apply in_map_iff in Hin as ([k s'] & Hs & Hk). cbn in Hs. subst s'.
  exists k. by apply elem_of_map_to_list, list_elem_of_In.
Qed.

Lemma find_existing_stored (email phone : option string) (push : option PushSubscription)
  (subs : Store) (s : ISubscription) :
  find_existing email phone push subs = Some s -> exists k, subs !! k = Some s.
Proof.
  unfold find_existing. intros H.
  repeat match type of H with
         | context [match ?x with _ => _ end] => destruct x
         end; try discriminate H; by apply findOne_stored in H.
Qed.

(** X25.  A creation request that names a known contact never adds a
    document: when the lookup by e-mail, phone or push endpoint finds a
    stored subscription, the collection keeps exactly its identifiers
    (whatever fresh identifier was generated for the request), and every
    other subscription is left as it was. *)
Theorem post_with_known_contact_adds_no_document (uuid : string) (now : Js.Date)
  (body : Body) (subs : Store) (existing : ISubscription) :
  Vocabulary.well_keyed subs ->
  find_existing (b_email body) (b_phone body) (b_push body) subs = Some existing ->
  dom (post uuid now body subs).1 = dom subs
  /\ forall k, k <> _id existing -> (post uuid now body subs).1 !! k = subs !! k.
Proof.
  intros Hkeys Hfound.
  destruct (find_existing_stored _ _ _ _ _ Hfound) as [k0 Hk0].
  pose proof (Hkeys _ _ Hk0) as Hid. subst k0.
  unfold post.
  repeat match goal with
         | |- context [match ?x with _ => _ end] =>
             lazymatch x with
             | find_existing _ _ _ _ => rewrite Hfound
             | _ => destruct x
             end
         end; cbn [fst]; try (split; [reflexivity | intros; reflexivity]).
  all: split; [| intros k Hk; by rewrite lookup_insert_ne].
  all: apply set_eq; intros k; rewrite dom_insert, elem_of_union, elem_of_singleton,
         !elem_of_dom.
  all: split; [intros [-> | H]; [by eexists | exact H] | intros H; by right].
Qed.

Lemma post_with_known_contact_adds_no_document_witness :
  let body :=
    {| b_email := Some "amir@example.org"; b_phone := None; b_push := None;
       b_location := Some (3.2%float, 101.7%float); b_radius_km := Some 30%float;
       b_channels := Some ["email"]; b_language := None |} in
  dom (post "0b5e6c1e-new" 1700000000000 body Scenario.subscribers).1
  = dom Scenario.subscribers
  /\ forall k, k <> "7f9c2e1a-sub" ->
       (post "0b5e6c1e-new" 1700000000000 body Scenario.subscribers).1 !! k
       = Scenario.subscribers !! k.
Proof.
  intros body.
  apply (post_with_known_contact_adds_no_document "0b5e6c1e-new" 1700000000000 body
           Scenario.subscribers Scenario.subscriber).
  - intros k s Hk. unfold Scenario.subscribers in Hk.
    apply lookup_singleton_Some in Hk as [<- <-]. reflexivity.
  - vm_compute. reflexivity.
Defined.

(** X26.  An update never changes who a subscription is.  Whatever the body,
    PUT leaves the set of identifiers and every other subscription as they
    were; the updated document keeps its identifier and its creation time;
    and after a response other than success the collection is unchanged. *)
Theorem put_keeps_identity (subscriptionId : string) (updates : Body) (subs : Store) :
  dom (put subscriptionId updates subs).1 = dom subs
  /\ (forall k, k <> subscriptionId ->
        (put subscriptionId updates subs).1 !! k = subs !! k)
  /\ match (put subscriptionId updates subs).2 with
     | Ok saved _ =>
         exists old, subs !! subscriptionId = Some old
                     /\ (put subscriptionId updates subs).1 !! subscriptionId = Some saved
                     /\ _id saved = _id old
                     /\ created_at saved = created_at old
     | _ => (put subscriptionId updates subs).1 = subs
     end.
Proof.
  unfold put. destruct (updates_valid updates); cbn [fst snd]; [| done].
  destruct (subs !! subscriptionId) as [old |] eqn:Hold; cbn [fst snd]; [| done].
  split; [| split].
  - apply set_eq; intros k. rewrite dom_insert, elem_of_union, elem_of_singleton,
      !elem_of_dom.
    split; [intros [-> | H]; [by eexists | exact H] | intros H; by right].
  - intros k Hk. by rewrite lookup_insert_ne.
  - exists old. split; [reflexivity |]. split; [apply lookup_insert_eq |].
    split; reflexivity.
Qed.

End SubscriptionLifecycle.

(** ** The heat-map grid *)

Section HeatmapGrid.
Import RiskRoute.

Lemma grid_row_inside (fuel : nat) (lat lng east res north : Js.number)
  (acc acc' : list (Js.number * Js.number)) :
  (lat <=? north)%float = true ->
  Forall (fun p => (p.1 <=? north)%float = true /\ (p.2 <=? east)%float = true) acc ->
  grid_row fuel lat lng east res acc = Some acc' ->
  Forall (fun p => (p.1 <=? north)%float = true /\ (p.2 <=? east)%float = true) acc'.
Proof.
  intros Hlat. revert lng acc.
  induction fuel as [| fuel IH]; intros lng acc Hacc; cbn [grid_row]; [discriminate |].
  destruct (lng <=? east)%float eqn:Hlng.
  - apply IH. apply Forall_app. split; [exact Hacc |]. by repeat constructor.
  - by intros [= <-].
Qed.

Lemma grid_rows_inside (fuel : nat) (lat north west east res : Js.number)
  (acc acc' : list (Js.number * Js.number)) :
  Forall (fun p => (p.1 <=? north)%float = true /\ (p.2 <=? east)%float = true) acc ->
  grid_rows fuel lat north west east res acc = Some acc' ->
  Forall (fun p => (p.1 <=? north)%float = true /\ (p.2 <=? east)%float = true) acc'.
Proof.
  revert lat acc.
  induction fuel as [| fuel IH]; intros lat acc Hacc; [discriminate |].
  cbn [grid_rows]. destruct (lat <=? north)%float eqn:Hlat; [| by intros [= <-]].
  destruct (grid_row (S fuel) lat west east res acc) as [row |] eqn:Hrow; [| discriminate].
  apply IH. by apply (grid_row_inside _ _ _ _ _ _ _ _ Hlat Hacc Hrow).
Qed.

(** X27.  A heat map that is answered has a grid of at most 1000 points,
    none of them north of the box's northern edge or east of its eastern
    edge, for a box whose four numbers are neither 0 nor NaN. *)
Theorem heatmap_grid_stays_inside (Number : string -> Js.number) (fuel : nat)
  (q : HeatmapQuery) (west south east north res : Js.number)
  (gridPoints : list (Js.number * Js.number)) :
  heatmap Number fuel q = GridOf west south east north res gridPoints ->
  (length gridPoints <= 1000)%nat
  /\ Forall (fun p => (p.1 <=? north)%float = true /\ (p.2 <=? east)%float = true)
       gridPoints
  /\ Js.truthy west = true /\ Js.truthy south = true
  /\ Js.truthy east = true /\ Js.truthy north = true.
Proof.
  unfold heatmap. intros H.
  destruct (bbox q) as [[| c b] |]; try discriminate H.
  set (parts := map Number (Js.split "," (String c b))) in *.
  destruct (negb (Js.truthy (Js.at_ parts 0)) || negb (Js.truthy (Js.at_ parts 1))
            || negb (Js.truthy (Js.at_ parts 2)) || negb (Js.truthy (Js.at_ parts 3)))
    eqn:Hvalid; [discriminate H |].
  destruct (grid_rows fuel _ _ _ _ _ []) as [pts |] eqn:Hgrid; [| discriminate H].
  destruct (1000 <? length pts)%nat eqn:Hsize; [discriminate H |].
  injection H as <- <- <- <- _ <-.
  apply Nat.ltb_ge in Hsize.
  repeat (apply orb_false_elim in Hvalid as [Hvalid ?]).
  repeat match goal with H : negb _ = false |- _ => apply negb_false_iff in H end.
  split; [exact Hsize |]. split; [| done].
  eapply grid_rows_inside; [| exact Hgrid]. constructor.
Qed.

Lemma heatmap_grid_stays_inside_witness :
  exists west south east north res gridPoints,
    heatmap Number_decimal 50 (mkQuery (Some "100,1,100.2,1.2") None)
    = GridOf west south east north res gridPoints
    /\ (0 < length gridPoints <= 1000)%nat
    /\ Forall (fun p => (p.1 <=? north)%float = true /\ (p.2 <=? east)%float = true)
         gridPoints.
Proof.
  destruct (heatmap Number_decimal 50 (mkQuery (Some "100,1,100.2,1.2") None))
    as [e | west south east north res gridPoints |] eqn:H;
    [vm_compute in H; discriminate H | | vm_compute in H; discriminate H].
  destruct (heatmap_grid_stays_inside Number_decimal 50 _ _ _ _ _ _ _ H)
    as (Hsize & Hinside & _).
  exists west, south, east, north, res, gridPoints.
  split; [reflexivity |]. split; [| exact Hinside]. split; [| exact Hsize].
  vm_compute in H. injection H as _ _ _ _ _ <-. cbn. lia.
Defined.

(** Adding a zero to a number that is neither 0 nor NaN returns the number. *)
Lemma add_zero (x z : Js.number) :
  Js.truthy x = true -> PrimFloat.eqb z 0 = true -> (x + z)%float = x.
Proof.
  unfold Js.truthy. intros Hx Hz.
  apply negb_true_iff, orb_false_elim in Hx as [Hx0 Hxn].
  apply Prim2SF_inj. rewrite add_spec.
  rewrite FloatAxioms.eqb_spec in Hz, Hx0.
  apply not_nan_Prim2SF in Hxn.
  change (Prim2SF 0) with (S754_zero false) in *.
  destruct (Prim2SF x) as [sx | sx | | sx mx ex], (Prim2SF z) as [sz | sz | | sz mz ez];
    cbn in Hz, Hx0; try discriminate; try congruence;
    try (by destruct sz); reflexivity.
Qed.

Lemma grid_row_stuck (fuel : nat) (lat lng east res : Js.number)
  (acc : list (Js.number * Js.number)) :
  (lng + res)%float = lng -> (lng <=? east)%float = true ->
  grid_row fuel lat lng east res acc = None.
Proof.
  intros Hstep Hle. revert acc.
  induction fuel as [| fuel IH]; intros acc; cbn [grid_row]; [reflexivity |].
  rewrite Hle, Hstep. apply IH.
Qed.

(** X28.  A resolution of 0 makes the grid loop run for ever.  For a valid
    box whose western edge is not east of its eastern edge and whose
    southern edge is not north of its northern edge, the request with
    resolution 0 is not answered, however many loop iterations are
    allowed. *)
Theorem heatmap_with_zero_resolution_never_answers (Number : string -> Js.number)
  (fuel : nat) (q : HeatmapQuery) (b r : string) (w s e n : Js.number)
  (rest : list Js.number) :
  bbox q = Some b ->
  resolution q = Some r ->
  PrimFloat.eqb (Number r) 0 = true ->
  map Number (Js.split "," b) = w :: s :: e :: n :: rest ->
  Js.truthy w = true -> Js.truthy s = true -> Js.truthy e = true -> Js.truthy n = true ->
  (w <=? e)%float = true -> (s <=? n)%float = true ->
  heatmap Number fuel q = Diverges.
Proof.
  intros Hb Hr Hzero Hparts Hw Hs He Hn Hwe Hsn. unfold heatmap. rewrite Hb, Hr.
  destruct b as [| c b']; [discriminate Hparts |].
  rewrite Hparts. unfold Js.at_. cbn [nth]. rewrite Hw, Hs, He, Hn. cbn [negb orb].
  assert (Hgrid : grid_rows fuel s n w e (Number r) [] = None).
  { destruct fuel as [| fuel]; [reflexivity |]. cbn [grid_rows]. rewrite Hsn.
    by rewrite (grid_row_stuck (S fuel) s w e (Number r) [] (add_zero _ _ Hw Hzero) Hwe). }
  by rewrite Hgrid.
Qed.

Lemma heatmap_with_zero_resolution_never_answers_witness :
  heatmap Number_decimal 2000 (mkQuery (Some "100,1,100.2,1.2") (Some "0")) = Diverges.
Proof.
  apply (heatmap_with_zero_resolution_never_answers Number_decimal 2000
           (mkQuery (Some "100,1,100.2,1.2") (Some "0")) "100,1,100.2,1.2" "0"
           100%float 1%float 100.2%float 1.2%float []);
    vm_compute; reflexivity.
Defined.

End HeatmapGrid.

(** ** The events listing *)

Section EventsListing.
Import Event EventsRoute.

(** X29.  A bounding box with a zero is dropped without notice.  When one of
    the four numbers of [bbox] is 0, the listing builds the same query as
    the request without [bbox], so its total counts the events of the whole
    collection that pass the other filters, inside the box or not. *)
Theorem listing_ignores_box_with_zero_coordinate (Number : string -> Js.number)
  (Date_of : string -> Js.Date) (q : ListQuery) (b : string) (w s e n : Js.number)
  (rest : list Js.number) (db : Store) :
  bbox q = Some b ->
  map Number (Js.split "," b) = w :: s :: e :: n :: rest ->
  PrimFloat.eqb w 0 = true \/ PrimFloat.eqb s 0 = true
  \/ PrimFloat.eqb e 0 = true \/ PrimFloat.eqb n 0 = true ->
  let unboxed :=
    mkListQuery None (type_ q) (source_ q) (since q) (until q) (severity_min q)
      (severity_max q) (limit q) (offset q) in
  q_box (build_query Number Date_of q) = None
  /\ build_query Number Date_of q = build_query Number Date_of unboxed
  /\ total Number Date_of q db = total Number Date_of unboxed db.
Proof.
  intros Hb Hparts Hzero unboxed.
  assert (Hbox : box_filter Number (bbox q) = None).
  { rewrite Hb. unfold box_filter, given.
    destruct (Js.truthy_str b); [| reflexivity].
    rewrite Hparts. unfold Js.at_. cbn [nth].
    destruct Hzero as [H | [H | [H | H]]]; rewrite (zero_is_falsy _ H);
      rewrite ?andb_false_r; reflexivity. }
  assert (Hquery : build_query Number Date_of q = build_query Number Date_of unboxed).
  { unfold build_query. rewrite Hbox. reflexivity. }
  split; [unfold build_query; cbn [q_box]; exact Hbox |].
  split; [exact Hquery |]. unfold total. by rewrite Hquery.
Qed.

Lemma listing_ignores_box_with_zero_coordinate_witness :
  let q := Vocabulary.bbox_only "0,-5,10,5" in
  let unboxed := mkListQuery None None None None None None None None None in
  q_box (build_query RiskRoute.Number_decimal (fun _ => 0) q) = None
  /\ build_query RiskRoute.Number_decimal (fun _ => 0) q
     = build_query RiskRoute.Number_decimal (fun _ => 0) unboxed
  /\ total RiskRoute.Number_decimal (fun _ => 0) q Scenario.after_first_poll
     = total RiskRoute.Number_decimal (fun _ => 0) unboxed Scenario.after_first_poll.
Proof.
  apply (listing_ignores_box_with_zero_coordinate RiskRoute.Number_decimal (fun _ => 0)
           (Vocabulary.bbox_only "0,-5,10,5") "0,-5,10,5"
           0%float (-5)%float 10%float 5%float [] Scenario.after_first_poll).
  - reflexivity.
  - vm_compute. reflexivity.
  - left. reflexivity.
Defined.

End EventsListing.

(** ** What a poll reports *)

Section PollReports.
Import Event IngestRoute.

Lemma fold_keeps_updated {A} (f : Store * Counts -> A -> Store * Counts) (l : list A)
  (acc : Store * Counts) :
  (forall a x, updated (f a x).2 = updated a.2) ->
  updated (fold_left f l acc).2 = updated acc.2.
Proof.
  intros Hf. revert acc. induction l as [| x l IH]; intros acc; [reflexivity |].
  cbn [fold_left]. by rewrite IH, Hf.
Qed.

Lemma usgs_never_updates (feed : Settled (list USGSService.Feature)) (now : Js.Date)
  (db : Store) :
  updated_or_0 (report "usgs" (USGSService.ingestEarthquakes feed now db).2) = 0%nat.
Proof.
  destruct feed as [fs | e]; [| reflexivity].
  destruct (ingestEarthquakes_never_updates fs now db) as [n Hn]. by rewrite Hn.
Qed.

Lemma eonet_never_updates (feed : Settled (list NASAService.EONETEvent)) (now : Js.Date)
  (db : Store) :
  updated_or_0 (report "nasa-eonet" (NASAService.ingestEONETEvents feed now db).2) = 0%nat.
Proof.
  destruct feed as [events | e]; [| reflexivity]. unfold NASAService.ingestEONETEvents.
  assert (H : forall acc, updated acc.2 = 0%nat ->
                updated_or_0 (report "nasa-eonet"
                                (NASAService.ingest_events now events acc).2) = 0%nat).
  { induction events as [| ev rest IH]; intros acc Hacc; cbn [NASAService.ingest_events].
    - exact Hacc.
    - destruct (NASAService.geometries ev) as [[| g gs] |]; try by apply IH.
      destruct (NASAService.eonetEventData now ev (List.last gs g)); [| reflexivity].
      apply IH. by rewrite upsert_and_count_updated. }
  by apply H.
Qed.

Lemma firms_never_updates (feeds : list (string * Settled (option (list NASAService.FireRow))))
  (now : Js.Date) (db : Store) :
  updated_or_0 (report "nasa-firms" (NASAService.ingestFIRMSData feeds now db).2) = 0%nat.
Proof.
  unfold NASAService.ingestFIRMSData.
  pose proof (fold_keeps_updated (NASAService.ingest_country now) feeds (db, mkCounts 0 0))
    as H.
  destruct (fold_left _ feeds _) as [db' c]. cbn in *. apply H. clear.
  intros a [country [[rows |] | e]]; unfold NASAService.ingest_country; cbn [snd fst];
    try reflexivity.
  apply fold_keeps_updated. intros a' row. unfold NASAService.ingest_row.
  destruct (NASAService.latitude row), (NASAService.longitude row); try reflexivity.
  destruct (_ <? _)%float; [reflexivity | apply upsert_and_count_updated].
Qed.

Lemma openweather_never_updates (key : option string)
  (locations : list (OpenWeatherService.Location * Settled OpenWeatherService.OneCall))
  (now : Js.Date) (db : Store) :
  updated_or_0
    (report "openweather" (OpenWeatherService.ingestWeatherAlerts key locations now db).2)
  = 0%nat.
Proof.
  unfold OpenWeatherService.ingestWeatherAlerts.
  destruct (Js.truthy_ostr key); [| reflexivity].
  pose proof (fold_keeps_updated (OpenWeatherService.ingest_location now) locations
                (db, mkCounts 0 0)) as H.
  destruct (fold_left _ locations _) as [db' c]. cbn in *. apply H. clear.
  intros a [location [data | e]]; unfold OpenWeatherService.ingest_location;
    [| reflexivity].
  set (a1 := match OpenWeatherService.alerts data with Some _ => _ | None => _ end).
  assert (Ha1 : updated a1.2 = updated a.2).
  { unfold a1. destruct (OpenWeatherService.alerts data) as [als |]; [| reflexivity].
    apply (fold_keeps_updated
             (fun a0 alert =>
                upsert_and_count (OpenWeatherService.alertEventData now location alert) a0)).
    intros a0 alert. apply upsert_and_count_updated. }
  rewrite <- Ha1.
  destruct (OpenWeatherService.current data) as [w |]; [| reflexivity].
  destruct (OpenWeatherService.isSevereWeather w); [| reflexivity].
  destruct (OpenWeatherService.severeEventData now location w); [| reflexivity].
  by destruct (findOneAndUpdate _ _).
Qed.

Lemma openaq_never_updates
  (feeds : list (string * Settled (option (list OpenAQService.Measurement))))
  (now : Js.Date) (db : Store) :
  updated_or_0 (report "openaq" (OpenAQService.ingestAirQualityData feeds now db).2)
  = 0%nat.
Proof.
  unfold OpenAQService.ingestAirQualityData.
  pose proof (fold_keeps_updated (OpenAQService.ingest_country now) feeds
                (db, mkCounts 0 0)) as H.
  destruct (fold_left _ feeds _) as [db' c]. cbn in *. apply H. clear.
  intros a [country [[results |] | e]]; unfold OpenAQService.ingest_country;
    cbn [snd fst]; try reflexivity.
  apply fold_keeps_updated. intros a' [key ms]. unfold OpenAQService.ingest_group.
  destruct ms as [| m ms]; [reflexivity |].
  destruct (OpenAQService.coordinates m) as [[lat lng] |]; [| reflexivity].
  destruct (_ <=? _)%float; [reflexivity | apply upsert_and_count_updated].
Qed.

(** X30.  No poll ever reports an update.  Every adapter compares the
    timestamp it has just written with the one it reads back, so the
    'updated' counter stays 0 for every source, whatever the feeds and the
    collection hold; the batch therefore always reports total_updated = 0
    and triggers the fan-out exactly when its total_inserted is positive. *)
Theorem no_poll_ever_reports_an_update (up : Upstream) (now : Js.Date) (db : Store) :
  let response := (post_all up now db).2 in
  total_updated response = 0%nat
  /\ Forall (fun r => updated_or_0 r = 0%nat) (results response)
  /\ updated_or_0 (report "nasa-firms"
                     (NASAService.ingestFIRMSData (firms_feeds up) now db).2) = 0%nat
  /\ alerts_triggered response
     = bool_decide (0 < sum_list (map inserted_or_0 (results response)))%nat.
Proof.
  intros response.
  destruct (post_all_totals up now db) as (Hins & Hupd & _). fold response in Hins, Hupd.
  assert (Hres : Forall (fun r => updated_or_0 r = 0%nat) (results response)).
  { unfold response, post_all.
    pose proof (usgs_never_updates (usgs_feed up) now db) as H1.
    destruct (USGSService.ingestEarthquakes _ _ _) as [db1 r1].
    pose proof (eonet_never_updates (eonet_feed up) now db1) as H2.
    destruct (NASAService.ingestEONETEvents _ _ _) as [db2 r2].
    pose proof (openweather_never_updates (openweather_key up) (openweather_feeds up)
                  now db2) as H3.
    destruct (OpenWeatherService.ingestWeatherAlerts _ _ _ _) as [db3 r3].
    pose proof (openaq_never_updates (openaq_feeds up) now db3) as H4.
    destruct (OpenAQService.ingestAirQualityData _ _ _) as [db4 r4].
    cbn [snd results]. by repeat constructor. }
  split; [| split; [exact Hres | split; [apply firms_never_updates |]]].
  - rewrite Hupd. clear -Hres. induction Hres as [| r rs Hr _ IH]; [reflexivity |].
    cbn [map sum_list]. by rewrite Hr, IH.
  - rewrite <- Hins. unfold response, post_all.
    destruct (USGSService.ingestEarthquakes _ _ _) as [db1 r1].
    destruct (NASAService.ingestEONETEvents _ _ _) as [db2 r2].
    destruct (OpenWeatherService.ingestWeatherAlerts _ _ _ _) as [db3 r3].
    destruct (OpenAQService.ingestAirQualityData _ _ _) as [db4 r4].
    cbn [snd alerts_triggered total_inserted].
    match goal with |- (0 <? ?n)%nat = _ => destruct (Nat.ltb_spec 0 n) end.
    + by rewrite bool_decide_eq_true_2.
    + rewrite bool_decide_eq_false_2; [reflexivity | lia].
Qed.

End PollReports.
